(** * Disaster Relief Hub: request form, map view and dashboard

  A shallow embedding of the client code of the disaster-relief platform
  ([app/static/js/main.js], [app/static/js/map.js] and the dashboard
  script) together with the request-intake core described by the design
  document (request store, duplicate filter, query engine), and the
  properties established about them. *)

From Stdlib Require Import ZArith List String Ascii Bool Lia.
From Stdlib Require Import Floats.SpecFloat Sorting.Permutation Sorting.Sorted.
From stdpp Require Import base gmap strings pretty list sorting.

(** ** JavaScript values used by the scripts *)

Module JS.

(** Strings are sequences of code units; the embedding covers the code
    units below 256, one [ascii] each, so [String.length] is the
    [length] property. *)

Definition code (c : ascii) : nat := nat_of_ascii c.

(** [WhiteSpace] and [LineTerminator] code units (TAB, LF, VT, FF, CR,
    SP, NBSP): what [String.prototype.trim], the [\s] class and the
    leading-blank skipping of [parseFloat] recognise. *)
Definition isWhiteSpace (c : ascii) : bool :=
  let n := code c in
  ((9 <=? n) && (n <=? 13) || (n =? 32) || (n =? 160))%nat.

Definition isDigit (c : ascii) : bool :=
  let n := code c in ((48 <=? n) && (n <=? 57))%nat.

Definition digitValue (c : ascii) : Z := Z.of_nat (code c - 48).

Fixpoint trimStart (s : string) : string :=
  match s with
  | String c s' => if isWhiteSpace c then trimStart s' else s
  | EmptyString => EmptyString
  end.

(** Drops the blanks at the end: a character is kept when it is not
    blank or when something is kept after it. *)
Fixpoint trimEnd (s : string) : string :=
  match s with
  | EmptyString => EmptyString
  | String c s' =>
      match trimEnd s' with
      | EmptyString => if isWhiteSpace c then EmptyString else String c EmptyString
      | t => String c t
      end
  end.

(** [s.trim()] *)
Definition trim (s : string) : string := trimEnd (trimStart s).

(** Truthiness of a string: only the empty string is falsy. *)
Definition truthyString (s : string) : bool :=
  match s with EmptyString => false | _ => true end.

Definition lowerChar (c : ascii) : ascii :=
  let n := code c in
  if ((65 <=? n) && (n <=? 90)
      || (192 <=? n) && (n <=? 222) && negb (n =? 215))%nat
  then ascii_of_nat (n + 32) else c.

(** [s.toLowerCase()] *)
Fixpoint toLowerCase (s : string) : string :=
  match s with
  | EmptyString => EmptyString
  | String c s' => String (lowerChar c) (toLowerCase s')
  end.

(** [a === b] on two strings *)
Definition strictEq (a b : string) : bool := String.eqb a b.

(** [s.replace(a, b)] for two strings [a] and [b] of one character: the
    first [a] of [s] becomes [b]. *)
Fixpoint replaceFirst (a b : ascii) (s : string) : string :=
  match s with
  | EmptyString => EmptyString
  | String c s' =>
      if Ascii.eqb c a then String b s' else String c (replaceFirst a b s')
  end.

(** [s.length > n ? s.substring(0, n) + '...' : s] and
    [s.substring(0, n) + (s.length > n ? '...' : '')], which write the
    same string. *)
Definition shorten (n : nat) (s : string) : string :=
  if (n <? String.length s)%nat
  then String.append (String.substring 0 n s) "..."
  else s.

(** *** Numbers

    A Number is an IEEE 754 binary64 value: [spec_float] with 53 bits of
    precision and exponents below 1024. *)

Definition number := spec_float.
Definition prec : Z := 53.
Definition emax : Z := 1024.

(** The Number of an integer literal. *)
Definition ofZ (n : Z) : number := binary_normalize prec emax n 0 false.

(** Unary minus. *)
Definition neg (x : number) : number := SFopp x.

Definition isNaN (x : number) : bool :=
  match x with S754_nan => true | _ => false end.

(** [x <= y] and [x >= y]; both are false when an operand is NaN. *)
Definition le (x y : number) : bool := SFleb x y.
Definition ge (x y : number) : bool := SFleb y x.

Definition isZero (x : number) : bool :=
  match x with S754_zero _ => true | _ => false end.

(** Truthiness of a Number: NaN, +0 and -0 are falsy. *)
Definition truthyNumber (x : number) : bool :=
  match x with
  | S754_nan | S754_zero _ => false
  | _ => true
  end.

(** The Number nearest to [m * 10^e10] (ties to even), negated when
    [sign] is set. *)
Definition ofDecimal (sign : bool) (m : Z) (e10 : Z) : number :=
  match m with
  | Z0 => S754_zero sign
  | Zpos p =>
      if (0 <=? e10)%Z
      then binary_round prec emax sign (p * Z.to_pos (10 ^ e10))%positive 0
      else
        let '(q, e, l) :=
          SFdiv_core_binary prec emax (Zpos p) 0 (10 ^ (- e10))%Z 0 in
        binary_round_aux prec emax sign q e l
  | Zneg _ => S754_nan
  end.

(** *** parseFloat *)

(** The longest run of decimal digits at the head of the input, read as
    an integer continuing [acc], with the number of digits and the rest
    of the input. *)
Fixpoint digits (acc : Z) (n : nat) (s : string) : Z * nat * string :=
  match s with
  | String c s' =>
      if isDigit c then digits (10 * acc + digitValue c)%Z (S n) s'
      else (acc, n, s)
  | EmptyString => (acc, n, s)
  end.

(** [ExponentPart]: an [e] or [E], an optional sign and at least one
    digit; when that is not what follows, no exponent is read. *)
Definition exponentPart (s : string) : Z :=
  match s with
  | String c s' =>
      if (Ascii.eqb c "e" || Ascii.eqb c "E")%char then
        let '(sign, s'') :=
          match s' with
          | String "+"%char t => (false, t)
          | String "-"%char t => (true, t)
          | _ => (false, s')
          end in
        let '(v, n, _) := digits 0 0 s'' in
        match n with
        | O => 0%Z
        | _ => if sign then (- v)%Z else v
        end
      else 0%Z
  | EmptyString => 0%Z
  end.

(** [StrUnsignedDecimalLiteral]: the longest prefix of the input that
    is [Infinity], digits with an optional fraction and exponent, or a
    fraction that starts with the point. *)
Definition unsignedDecimalLiteral (sign : bool) (s : string) : number :=
  if String.prefix "Infinity" s then S754_infinity sign
  else
    let '(ip, n1, r1) := digits 0 0 s in
    match r1 with
    | String "."%char r2 =>
        let '(m, n, r3) := digits ip n1 r2 in
        match n with
        | O => S754_nan
        | _ => ofDecimal sign m (exponentPart r3 - Z.of_nat (n - n1))
        end
    | _ =>
        match n1 with
        | O => S754_nan
        | _ => ofDecimal sign ip (exponentPart r1)
        end
    end.

(** [parseFloat(s)]: blanks at the start are skipped, then the longest
    prefix that is a [StrDecimalLiteral] is converted; NaN when there is
    none. *)
Definition parseFloat (s : string) : number :=
  match trimStart s with
  | String "+"%char t => unsignedDecimalLiteral false t
  | String "-"%char t => unsignedDecimalLiteral true t
  | t => unsignedDecimalLiteral false t
  end.

(** *** Regular expressions

    The patterns of the scripts are anchored at both ends and use
    character classes, sequence, [+] and bounded repetition; [test]
    decides them by derivatives. *)

Inductive regex :=
| RNone
| REps
| RClass (p : ascii -> bool)
| RSeq (a b : regex)
| RAlt (a b : regex)
| RStar (a : regex)
| RRep (lo hi : nat) (a : regex).

Definition RPlus (a : regex) : regex := RSeq a (RStar a).
Definition ROpt (a : regex) : regex := RAlt REps a.

Fixpoint nullable (r : regex) : bool :=
  match r with
  | RNone => false
  | REps => true
  | RClass _ => false
  | RSeq a b => nullable a && nullable b
  | RAlt a b => nullable a || nullable b
  | RStar _ => true
  | RRep lo _ a => (lo =? 0)%nat || nullable a
  end.

Fixpoint deriv (c : ascii) (r : regex) : regex :=
  match r with
  | RNone | REps => RNone
  | RClass p => if p c then REps else RNone
  | RSeq a b =>
      if nullable a then RAlt (RSeq (deriv c a) b) (deriv c b)
      else RSeq (deriv c a) b
  | RAlt a b => RAlt (deriv c a) (deriv c b)
  | RStar a => RSeq (deriv c a) (RStar a)
  | RRep lo hi a =>
      match hi with
      | O => RNone
      | S hi' => RSeq (deriv c a) (RRep (Nat.pred lo) hi' a)
      end
  end.

(** [/^r$/.test(s)] *)
Fixpoint test (r : regex) (s : string) : bool :=
  match s with
  | EmptyString => nullable r
  | String c s' => test (deriv c r) s'
  end.

Definition charIs (a : ascii) : ascii -> bool := Ascii.eqb a.

End JS.

(** ** The request form ([main.js], class [DisasterReliefApp]) *)

Module Form.
Import JS.
Local Open Scope string_scope.

(** [FormData.entries()]: the fields of the form in document order. *)
Definition FormData := list (string * string).

(** The [requestData] object. [handleFormSubmission] stores a Number or
    [null] under the four numeric keys and a string under every other
    key, so the object is kept as its two parts: [text] for the string
    properties and [numeric] for the numeric ones, where [None] in
    [numeric] is [null]. A key that is not set is [undefined]. *)
Record RequestData := {
  text : gmap string string;
  numeric : gmap string (option number)
}.

Definition emptyData : RequestData := {| text := ∅; numeric := ∅ |}.

Definition numericKeys : list string :=
  ["latitude"; "longitude"; "people_affected"; "estimated_cost"].

(** [keys.includes(key)] *)
Definition includes (keys : list string) (key : string) : bool :=
  existsb (String.eqb key) keys.

(** [parseFloat(value) || (key === 'people_affected' ? 1 : null)] *)
Definition coerce (key value : string) : option number :=
  let x := parseFloat value in
  if truthyNumber x then Some x
  else if strictEq key "people_affected" then Some (ofZ 1) else None.

(** The body of the loop over the entries. *)
Definition setEntry (data : RequestData) (entry : string * string)
  : RequestData :=
  let '(key, value) := entry in
  if truthyString (trim value) then
    if includes numericKeys key then
      {| text := text data;
         numeric := <[key := coerce key value]> (numeric data) |}
    else
      {| text := <[key := trim value]> (text data);
         numeric := numeric data |}
  else data.

(** The conversion of the submitted form into [requestData]. *)
Definition buildRequestData (form : FormData) : RequestData :=
  fold_left setEntry form emptyData.

(** [/^[^\s@]+@[^\s@]+\.[^\s@]+$/] *)
Definition emailRegex : regex :=
  let other := RClass (fun c => negb (isWhiteSpace c || charIs "@" c)) in
  RSeq (RPlus other)
    (RSeq (RClass (charIs "@"))
       (RSeq (RPlus other)
          (RSeq (RClass (charIs ".")) (RPlus other)))).

(** [/^[+]?[0-9-\s()]{10,20}$/] *)
Definition phoneRegex : regex :=
  RSeq (ROpt (RClass (charIs "+")))
    (RRep 10 20
       (RClass (fun c =>
          isDigit c || charIs "-" c || isWhiteSpace c
          || charIs "(" c || charIs ")" c))).

Definition isValidEmail (email : string) : bool := test emailRegex email.
Definition isValidPhoneNumber (phone : string) : bool := test phoneRegex phone.

(** [!isNaN(lat) && lat >= -90 && lat <= 90] *)
Definition isValidLatitude (lat : number) : bool :=
  negb (isNaN lat) && ge lat (neg (ofZ 90)) && le lat (ofZ 90).

(** [!isNaN(lng) && lng >= -180 && lng <= 180] *)
Definition isValidLongitude (lng : number) : bool :=
  negb (isNaN lng) && ge lng (neg (ofZ 180)) && le lng (ofZ 180).

(** [!data.k || data.k.length < n] for a string property. *)
Definition missingOrShorter (v : option string) (n : nat) : bool :=
  match v with
  | Some s => negb (truthyString s) || (String.length s <? n)%nat
  | None => true
  end.

(** [!data.k] for a string property. *)
Definition missing (v : option string) : bool :=
  match v with
  | Some s => negb (truthyString s)
  | None => true
  end.

(** [!data.k || !valid(data.k)] for a numeric property: [undefined],
    [null], NaN and zero are all falsy. *)
Definition missingOrInvalid (v : option (option number))
  (valid : number -> bool) : bool :=
  match v with
  | Some (Some x) => negb (truthyNumber x) || negb (valid x)
  | Some None | None => true
  end.

Definition pushIf (c : bool) (message : string) (errors : list string)
  : list string :=
  if c then errors ++ [message] else errors.

Definition latitudeError : string := "Valid latitude is required".
Definition longitudeError : string := "Valid longitude is required".

(** [validateRequestData(data)]: the error messages, in the order in
    which they are pushed. *)
Definition validateRequestData (data : RequestData) : list string :=
  let errors := [] in
  let errors := pushIf (missingOrShorter (text data !! "title") 5)
    "Title must be at least 5 characters long" errors in
  let errors := pushIf (missingOrShorter (text data !! "description") 10)
    "Description must be at least 10 characters long" errors in
  let errors := pushIf (missing (text data !! "request_type"))
    "Request type is required" errors in
  let errors := pushIf (missingOrShorter (text data !! "contact_name") 2)
    "Contact name is required" errors in
  let errors := pushIf
    (match text data !! "contact_phone" with
     | Some p => negb (truthyString p) || negb (isValidPhoneNumber p)
     | None => true
     end)
    "Valid phone number is required" errors in
  let errors := pushIf
    (match text data !! "contact_email" with
     | Some e => truthyString e && negb (isValidEmail e)
     | None => false
     end)
    "Email address is invalid" errors in
  let errors := pushIf (missingOrShorter (text data !! "address") 10)
    "Detailed address is required" errors in
  let errors := pushIf
    (missingOrInvalid (numeric data !! "latitude") isValidLatitude)
    latitudeError errors in
  let errors := pushIf
    (missingOrInvalid (numeric data !! "longitude") isValidLongitude)
    longitudeError errors in
  errors.

(** A Number as [JSON.stringify] writes it: a finite Number is written
    in the digits that read back as the same Number (zero without its
    sign), while NaN and the two infinities are written [null], as
    [null] itself is. *)
Definition jsonNumber (v : option number) : option number :=
  match v with
  | Some (S754_zero _) => Some (S754_zero false)
  | Some (S754_finite s m e) => Some (S754_finite s m e)
  | Some (S754_infinity _) | Some S754_nan | None => None
  end.

(** [JSON.stringify(requestData)], as the JSON object the text denotes,
    kept in the same two parts: the string properties as they are and
    the numeric properties as [jsonNumber] writes them. *)
Definition stringify (data : RequestData) : RequestData :=
  {| text := text data; numeric := jsonNumber <$> numeric data |}.

(** What [handleFormSubmission] does with the form before any network
    traffic: it shows the validation errors and returns, or it posts
    [JSON.stringify(requestData)] to [/api/requests]. *)
Inductive Submission :=
| ShowErrors (errors : list string)
| Post (body : RequestData).

Definition handleFormSubmission (form : FormData) : Submission :=
  let requestData := buildRequestData form in
  let validationErrors := validateRequestData requestData in
  if (0 <? length validationErrors)%nat then ShowErrors validationErrors
  else Post (stringify requestData).

(** [validateField]: the check run when a field of the form loses the
    focus; the message shown under the field, if any. *)
Definition validateField (name fieldValue : string) : option string :=
  let value := trim fieldValue in
  if strictEq name "title" then
    if (String.length value <? 5)%nat
    then Some "Title must be at least 5 characters long" else None
  else if strictEq name "description" then
    if (String.length value <? 10)%nat
    then Some "Description must be at least 10 characters long" else None
  else if strictEq name "contact_phone" then
    if negb (isValidPhoneNumber value)
    then Some "Please enter a valid phone number" else None
  else if strictEq name "contact_email" then
    if truthyString value && negb (isValidEmail value)
    then Some "Please enter a valid email address" else None
  else if strictEq name "latitude" then
    if negb (isValidLatitude (parseFloat value))
    then Some "Latitude must be between -90 and 90" else None
  else if strictEq name "longitude" then
    if negb (isValidLongitude (parseFloat value))
    then Some "Longitude must be between -180 and 180" else None
  else None.

(** The scenario of the design document, as the form would carry it. *)
Definition scenarioForm (latitude longitude : string) : FormData :=
  [("title", "Need food");
   ("description", "Family of 4 stranded");
   ("request_type", "FOOD");
   ("urgency_level", "HIGH");
   ("contact_name", "Asha");
   ("contact_phone", "+91-9999999999");
   ("address", "Near XYZ bridge, sector 5");
   ("latitude", latitude);
   ("longitude", longitude);
   ("people_affected", "4")].

End Form.

(** ** The listing interface shared by the map and the dashboard *)

Module Api.
Import JS.

(** A relief request as the listing returns it. *)
Record Request := {
  id : Z;
  title : string;
  description : string;
  request_type : string;
  urgency_level : string;
  status : string;
  contact_name : string;
  contact_phone : string;
  contact_email : option string;
  address : string;
  landmark : option string;
  latitude : number;
  longitude : number;
  people_affected : Z;
  estimated_cost : option number;
  additional_notes : option string;
  assigned_to : option string;
  assigned_contact : option string;
  created_at : string;
  updated_at : string
}.

(** The body of a listing response; a property that is absent is
    [None]. *)
Record Listing := {
  requests : option (list Request);
  total : option Z;
  total_pages : option Z
}.

(** What [fetch] followed by [response.json()] can do: [fetch] rejects,
    or a response arrives with its [ok] flag and, when the body is
    JSON, the listing. *)
Inductive FetchOutcome :=
| NetworkError
| Response (ok : bool) (body : option Listing).

(** The buttons a popup or a card offers, each with the call it is
    wired to. *)
Inductive Action :=
| ViewDetails (request : Z)
| Assign (request : Z)
| Complete (request : Z)
| Directions (lat lng : number).

(** A string that a template literal inserts into the content of an
    element of the card or of the popup. Nothing is escaped, so the
    browser reads the string as HTML: [Plain] is the string as it is,
    [UpperCase] the string after [toUpperCase()], and [Unset] the word
    written for a property that is [null] or absent. *)
Inductive Insertion :=
| Plain (value : string)
| UpperCase (value : string)
| Unset.

Definition inserted (v : option string) : Insertion :=
  match v with
  | Some s => Plain s
  | None => Unset
  end.

(** The markup of a button that runs [call] when it is clicked, as a
    string of a request may hold it. *)
Definition buttonMarkup (call label : string) : string :=
  String.append "<button onclick='"
    (String.append call
       (String.append "'>" (String.append label "</button>"))).

(** What a click on a rendered card or popup can start. The buttons of
    the action block of the template are there; and since the strings
    of the request are inserted into the HTML as they are, so is a
    button whose markup one of them begins with: the browser builds the
    elements it finds in the string. [callOf] gives the call a button
    for the action makes on the page. Markup of other shapes is not
    listed: [offered] is a lower bound of what the browser builds. *)
Inductive offered (callOf : Action -> option string)
  (actions : list Action) (insertions : list Insertion) (a : Action)
  : Prop :=
| offered_by_template :
    In a actions -> offered callOf actions insertions a
| offered_by_insertion (call label rest : string) :
    callOf a = Some call ->
    In (Plain (String.append (buttonMarkup call label) rest)) insertions ->
    offered callOf actions insertions a.

(** [v ? ... : ''] on an optional string: absent, [null] and the empty
    string are falsy. *)
Definition present (v : option string) : bool :=
  match v with Some s => truthyString s | None => false end.

(** [n || d] on an optional integer. *)
Definition orDefault (n : option Z) (d : Z) : Z :=
  match n with
  | Some 0%Z | None => d
  | Some v => v
  end.

End Api.

(** ** The map view ([map.js], class [DisasterReliefMap]) *)

Module MapView.
Import JS Api.
Local Open Scope string_scope.

(** Objects live in a store and are held by reference: the request
    objects, the arrays of requests and of markers, and the markers. *)
Definition loc := positive.

Record Popup := {
  popup_title : string;
  popup_assigned : option (string * option string);
  popup_actions : list Action;
  popup_inserted : list Insertion
}.

Inductive object :=
| ORequest (r : Request)
| OArray (elements : list loc)
| OMarker (position : number * number) (popup : Popup) (requestData : loc).

Inductive Message :=
| FiltersApplied (shown : nat)
| FiltersCleared
| LoadFailed.

(** The elements of the page the script reads and writes: the value of
    the three filter selects, the text of the three counters, the
    loading overlay and the messages shown. *)
Record Page := {
  typeFilter : string;
  urgencyFilter : string;
  statusFilter : string;
  totalRequests : nat;
  visibleRequests : nat;
  urgentRequests : nat;
  loadingOverlay : bool;
  messages : list (Message * string)
}.

Record MapState := {
  heap : gmap loc object;
  markers : loc;
  clusterLayers : list loc;
  currentFilters : gmap string string;
  allRequests : loc;
  filteredRequests : loc;
  page : Page
}.

(** The local object [filters] of [applyFilters]. *)
Record Filters := {
  f_request_type : string;
  f_urgency_level : string;
  f_status : string
}.

Definition filtersObject (f : Filters) : gmap string string :=
  <["request_type" := f_request_type f]>
    (<["urgency_level" := f_urgency_level f]>
       (<["status" := f_status f]> ∅)).

(** *** The store *)

(** A new object gets a location that is not in use. *)
Definition alloc (h : gmap loc object) (o : object) : loc * gmap loc object :=
  let l := fresh (dom h) in (l, <[l := o]> h).

Definition elementsOf (h : gmap loc object) (a : loc) : list loc :=
  match h !! a with
  | Some (OArray ls) => ls
  | _ => []
  end.

Definition requestAt (h : gmap loc object) (l : loc) : option Request :=
  match h !! l with
  | Some (ORequest r) => Some r
  | _ => None
  end.

(** The requests an array holds, in order. *)
Definition requestsOf (h : gmap loc object) (a : loc) : list Request :=
  omap (requestAt h) (elementsOf h a).

(** [array.push(x)] *)
Definition push (h : gmap loc object) (a x : loc) : gmap loc object :=
  match h !! a with
  | Some (OArray ls) => <[a := OArray (ls ++ [x])]> h
  | _ => h
  end.

(** The callback of [array.filter] or [forEach] on an element of an
    array of requests: it is handed the object the reference points
    to. *)
Definition holds (h : gmap loc object) (p : Request -> bool) (l : loc) : bool :=
  match requestAt h l with
  | Some r => p r
  | None => false
  end.

(** [data.requests]: every record of the response is a new object and
    the array of them is new too. *)
Fixpoint allocRequests (h : gmap loc object) (rs : list Request)
  : list loc * gmap loc object :=
  match rs with
  | [] => ([], h)
  | r :: rs' =>
      let '(l, h1) := alloc h (ORequest r) in
      let '(ls, h2) := allocRequests h1 rs' in
      (l :: ls, h2)
  end.

(** The requests on display. *)
Definition shown (s : MapState) : list Request :=
  requestsOf (heap s) (filteredRequests s).

Definition isRequest (o : object) : bool :=
  match o with ORequest _ => true | _ => false end.

(** Two stores hold the same request objects at the same locations. *)
Definition sameRequests (h h' : gmap loc object) : Prop :=
  forall l, requestAt h' l = requestAt h l.

(** *** Setters *)

Definition withPage (s : MapState) (p : Page) : MapState :=
  {| heap := heap s; markers := markers s; clusterLayers := clusterLayers s;
     currentFilters := currentFilters s; allRequests := allRequests s;
     filteredRequests := filteredRequests s; page := p |}.

Definition showMessage (m : Message) (type : string) (s : MapState) : MapState :=
  let p := page s in
  withPage s
    {| typeFilter := typeFilter p; urgencyFilter := urgencyFilter p;
       statusFilter := statusFilter p; totalRequests := totalRequests p;
       visibleRequests := visibleRequests p;
       urgentRequests := urgentRequests p;
       loadingOverlay := loadingOverlay p;
       messages := messages p ++ [(m, type)] |}.

Definition showLoadingOverlay (show : bool) (s : MapState) : MapState :=
  let p := page s in
  withPage s
    {| typeFilter := typeFilter p; urgencyFilter := urgencyFilter p;
       statusFilter := statusFilter p; totalRequests := totalRequests p;
       visibleRequests := visibleRequests p;
       urgentRequests := urgentRequests p;
       loadingOverlay := show;
       messages := messages p |}.

(** *** Markers and popups *)

(** The call a button of the popup makes for an action: the map has
    the details and the assignment form of a request, and no function
    that completes one. *)
Definition callOf (a : Action) : option string :=
  match a with
  | ViewDetails n =>
      Some ("window.disasterMap.showRequestDetails(" ++ pretty n ++ ")")
  | Assign n =>
      Some ("window.disasterMap.showAssignmentForm(" ++ pretty n ++ ")")
  | Complete _ | Directions _ _ => None
  end.

(** [createPopupContent]: the [popup-actions] block, the
    [assigned-info] block above it, and the strings of the request that
    the template inserts into the content of its elements, in the order
    of the template (the Numbers and the phrase of [formatDate] it also
    writes hold no markup; the class names and the [tel:] link are
    attribute values and are not kept). *)
Definition createPopupContent (request : Request) : Popup :=
  {| popup_title := title request;
     popup_assigned :=
       if present (assigned_to request)
       then Some (default "" (assigned_to request), assigned_contact request)
       else None;
     popup_actions :=
       [ViewDetails (id request)]
       ++ (if strictEq (status request) "pending"
           then [Assign (id request)] else [])
       ++ [Directions (latitude request) (longitude request)];
     popup_inserted :=
       [Plain (title request);
        UpperCase (request_type request);
        UpperCase (urgency_level request);
        UpperCase (replaceFirst "_" " " (status request));
        Plain (shorten 100 (description request));
        Plain (contact_name request);
        Plain (contact_phone request);
        Plain (shorten 50 (address request))]
       ++ (if present (assigned_to request)
           then [inserted (assigned_to request);
                 inserted (assigned_contact request)]
           else []) |}.

(** What a click on the popup can start. *)
Definition offers (popup : Popup) : Action -> Prop :=
  offered callOf (popup_actions popup) (popup_inserted popup).

(** [createRequestMarker]: the marker keeps a reference to the request
    in [requestData]. *)
Definition createRequestMarker (request : Request) (l : loc) : object :=
  OMarker (latitude request, longitude request)
    (createPopupContent request) l.

(** The loop of [updateMapMarkers] over the filtered requests: [h] is
    the store, [ms] the array [this.markers] and [layers] the layers
    of the cluster group. *)
Fixpoint addMarkers (h : gmap loc object) (ms : loc) (layers : list loc)
  (rs : list loc) : gmap loc object * list loc :=
  match rs with
  | [] => (h, layers)
  | l :: rs' =>
      match requestAt h l with
      | Some request =>
          let '(m, h1) := alloc h (createRequestMarker request l) in
          addMarkers (push h1 ms m) ms (layers ++ [m]) rs'
      | None => addMarkers h ms layers rs'
      end
  end.

Definition updateMapMarkers (s : MapState) : MapState :=
  let '(ms, h1) := alloc (heap s) (OArray []) in
  let filtered := elementsOf h1 (filteredRequests s) in
  let '(h2, layers) := addMarkers h1 ms [] filtered in
  let p := page s in
  {| heap := h2; markers := ms; clusterLayers := layers;
     currentFilters := currentFilters s; allRequests := allRequests s;
     filteredRequests := filteredRequests s;
     page :=
       {| typeFilter := typeFilter p; urgencyFilter := urgencyFilter p;
          statusFilter := statusFilter p; totalRequests := totalRequests p;
          visibleRequests := length filtered;
          urgentRequests := urgentRequests p;
          loadingOverlay := loadingOverlay p;
          messages := messages p |} |}.

(** [req.urgency_level === 'critical' || req.urgency_level === 'high'] *)
Definition isUrgent (req : Request) : bool :=
  strictEq (urgency_level req) "critical"
  || strictEq (urgency_level req) "high".

Definition updateStatistics (s : MapState) : MapState :=
  let total := length (elementsOf (heap s) (allRequests s)) in
  let visible := length (elementsOf (heap s) (filteredRequests s)) in
  let urgent :=
    length (List.filter (holds (heap s) isUrgent)
              (elementsOf (heap s) (filteredRequests s))) in
  let p := page s in
  withPage s
    {| typeFilter := typeFilter p; urgencyFilter := urgencyFilter p;
       statusFilter := statusFilter p; totalRequests := total;
       visibleRequests := visible; urgentRequests := urgent;
       loadingOverlay := loadingOverlay p;
       messages := messages p |}.

(** *** Filters *)

(** The predicate passed to [filter] in [applyFilters]. *)
Definition matchesFilters (filters : Filters) (request : Request) : bool :=
  (negb (truthyString (f_request_type filters))
   || strictEq (request_type request) (f_request_type filters))
  && (negb (truthyString (f_urgency_level filters))
      || strictEq (urgency_level request) (f_urgency_level filters))
  && (negb (truthyString (f_status filters))
      || strictEq (status request) (f_status filters)).

Definition readFilters (p : Page) : Filters :=
  {| f_request_type := typeFilter p;
     f_urgency_level := urgencyFilter p;
     f_status := statusFilter p |}.

Definition applyFilters (s : MapState) : MapState :=
  let filters := readFilters (page s) in
  let kept :=
    List.filter (holds (heap s) (matchesFilters filters))
      (elementsOf (heap s) (allRequests s)) in
  let '(a, h1) := alloc (heap s) (OArray kept) in
  let s1 :=
    {| heap := h1; markers := markers s; clusterLayers := clusterLayers s;
       currentFilters := filtersObject filters;
       allRequests := allRequests s; filteredRequests := a;
       page := page s |} in
  let s2 := updateMapMarkers s1 in
  let s3 := updateStatistics s2 in
  showMessage
    (FiltersApplied (length (elementsOf (heap s3) (filteredRequests s3))))
    "info" s3.

Definition clearFilters (s : MapState) : MapState :=
  let p := page s in
  let p1 :=
    {| typeFilter := ""; urgencyFilter := ""; statusFilter := "";
       totalRequests := totalRequests p;
       visibleRequests := visibleRequests p;
       urgentRequests := urgentRequests p;
       loadingOverlay := loadingOverlay p;
       messages := messages p |} in
  let '(a, h1) :=
    alloc (heap s) (OArray (elementsOf (heap s) (allRequests s))) in
  let s1 :=
    {| heap := h1; markers := markers s; clusterLayers := clusterLayers s;
       currentFilters := ∅;
       allRequests := allRequests s; filteredRequests := a;
       page := p1 |} in
  let s2 := updateMapMarkers s1 in
  let s3 := updateStatistics s2 in
  showMessage FiltersCleared "info" s3.

(** [loadRequests], given what the fetch of [/api/requests?size=1000]
    does. [updateMapBounds] only moves the viewport of the Leaflet map,
    which is not part of the state. *)
Definition loadRequests (s : MapState) (o : FetchOutcome) : MapState :=
  let s0 := showLoadingOverlay true s in
  let s' :=
    match o with
    | Response true (Some data) =>
        let '(ls, h1) := allocRequests (heap s0) (default [] (requests data)) in
        let '(all, h2) := alloc h1 (OArray ls) in
        let '(filtered, h3) := alloc h2 (OArray (elementsOf h2 all)) in
        let s1 :=
          {| heap := h3; markers := markers s0;
             clusterLayers := clusterLayers s0;
             currentFilters := currentFilters s0;
             allRequests := all; filteredRequests := filtered;
             page := page s0 |} in
        updateStatistics (updateMapMarkers s1)
    | _ => showMessage LoadFailed "error" s0
    end in
  showLoadingOverlay false s'.

(** The state the constructor leaves before the first load: three
    empty arrays and no filters. *)
Definition initial (p : Page) : MapState :=
  {| heap := <[3%positive := OArray []]>
               (<[2%positive := OArray []]> (<[1%positive := OArray []]> ∅));
     markers := 1%positive; clusterLayers := [];
     currentFilters := ∅;
     allRequests := 2%positive; filteredRequests := 3%positive;
     page := p |}.

End MapView.

(** ** The dashboard (class [DisasterReliefDashboard]) *)

Module Dashboard.
Import JS Api.
Local Open Scope string_scope.
Local Open Scope Z_scope.

(** What [createRequestCard] renders for one request. *)
Record Card := {
  card_title : string;
  card_assigned : option (string * option string);
  card_actions : list Action;
  card_inserted : list Insertion
}.

(** The content of the [requestsList] container. *)
Inductive Container :=
| Untouched
| EmptyState
| Cards (cards : list Card)
| ErrorState.

Inductive Message :=
| LoadFailed
| FiltersApplied
| FiltersCleared
| Refreshing.

(** The elements of the page the script writes; [None] stands for an
    element that the document does not have, which the script skips. *)
Record Page := {
  requestsList : option Container;
  paginationInfo : option (nat * Z);
  pageInfo : option (Z * Z);
  prevBtn : option bool;
  nextBtn : option bool;
  pendingCount : option nat;
  urgentCount : option nat;
  progressCount : option nat;
  completedCount : option nat;
  message : option (Message * string)
}.

Record State := {
  requests : list Request;
  currentPage : Z;
  pageSize : Z;
  totalPages : Z;
  currentFilters : gmap string string;
  sortBy : string;
  sortOrder : string;
  page : Page
}.

(** The query parameters of the listing request. *)
Record Params := {
  p_page : Z;
  p_size : Z;
  p_sort_by : string;
  p_sort_order : string;
  p_filters : gmap string string
}.

Definition listingParams (s : State) : Params :=
  {| p_page := currentPage s; p_size := pageSize s;
     p_sort_by := sortBy s; p_sort_order := sortOrder s;
     p_filters := currentFilters s |}.

Definition withPage (s : State) (p : Page) : State :=
  {| requests := requests s; currentPage := currentPage s;
     pageSize := pageSize s; totalPages := totalPages s;
     currentFilters := currentFilters s; sortBy := sortBy s;
     sortOrder := sortOrder s; page := p |}.

(** Writing an element that exists; an absent one stays absent. *)
Definition write {A} (element : option A) (content : A) : option A :=
  match element with
  | Some _ => Some content
  | None => None
  end.

(** The call a button of the card makes for an action. *)
Definition callOf (a : Action) : option string :=
  match a with
  | ViewDetails n =>
      Some ("window.dashboard.viewRequestDetails(" ++ pretty n ++ ")")
  | Assign n =>
      Some ("window.dashboard.assignRequest(" ++ pretty n ++ ")")
  | Complete n =>
      Some ("window.dashboard.completeRequest(" ++ pretty n ++ ")")
  | Directions _ _ => None
  end.

(** [createRequestCard]: the action buttons at the foot of the card,
    the assignment banner above them, and the strings of the request
    that the template inserts into the content of its elements, in the
    order of the template (the Numbers and the phrase of
    [formatTimeAgo] it also writes hold no markup; the colours and the
    [tel:] link are attribute values and are not kept). *)
Definition createRequestCard (request : Request) : Card :=
  {| card_title := Api.title request;
     card_assigned :=
       if present (assigned_to request)
       then Some (default "" (assigned_to request), assigned_contact request)
       else None;
     card_actions :=
       [ViewDetails (id request)]
       ++ (if strictEq (toLowerCase (status request)) "pending"
           then [Assign (id request)] else [])
       ++ (if strictEq (toLowerCase (status request)) "in_progress"
           then [Complete (id request)] else [])
       ++ [Directions (latitude request) (longitude request)];
     card_inserted :=
       [Plain (Api.title request);
        Plain (request_type request);
        Plain (urgency_level request);
        Plain (replaceFirst "_" " " (status request));
        Plain (shorten 150 (description request));
        Plain (contact_name request);
        Plain (contact_phone request);
        Plain (shorten 40 (address request))]
       ++ (if present (assigned_to request)
           then [inserted (assigned_to request);
                 inserted (assigned_contact request)]
           else []) |}.

(** What a click on the card can start. *)
Definition offers (card : Card) : Action -> Prop :=
  offered callOf (card_actions card) (card_inserted card).

Definition renderRequestsList (s : State) : State :=
  let p := page s in
  let content :=
    match requests s with
    | [] => EmptyState
    | rs => Cards (map createRequestCard rs)
    end in
  withPage s
    {| requestsList := write (requestsList p) content;
       paginationInfo := paginationInfo p; pageInfo := pageInfo p;
       prevBtn := prevBtn p; nextBtn := nextBtn p;
       pendingCount := pendingCount p; urgentCount := urgentCount p;
       progressCount := progressCount p;
       completedCount := completedCount p; message := message p |}.

Definition renderErrorState (s : State) : State :=
  let p := page s in
  withPage s
    {| requestsList := write (requestsList p) ErrorState;
       paginationInfo := paginationInfo p; pageInfo := pageInfo p;
       prevBtn := prevBtn p; nextBtn := nextBtn p;
       pendingCount := pendingCount p; urgentCount := urgentCount p;
       progressCount := progressCount p;
       completedCount := completedCount p; message := message p |}.

(** [showMessage] removes the message on display and appends the new
    one to the document body. *)
Definition showMessage (m : Message) (type : string) (s : State) : State :=
  let p := page s in
  withPage s
    {| requestsList := requestsList p;
       paginationInfo := paginationInfo p; pageInfo := pageInfo p;
       prevBtn := prevBtn p; nextBtn := nextBtn p;
       pendingCount := pendingCount p; urgentCount := urgentCount p;
       progressCount := progressCount p;
       completedCount := completedCount p;
       message := Some (m, type) |}.

Definition updatePaginationInfo (data : Listing) (s : State) : State :=
  let p := page s in
  withPage s
    {| requestsList := requestsList p;
       paginationInfo :=
         write (paginationInfo p)
           (length (requests s), orDefault (total data) 0);
       pageInfo := write (pageInfo p) (currentPage s, totalPages s);
       prevBtn := write (prevBtn p) (currentPage s <=? 1);
       nextBtn := write (nextBtn p) (totalPages s <=? currentPage s);
       pendingCount := pendingCount p; urgentCount := urgentCount p;
       progressCount := progressCount p;
       completedCount := completedCount p; message := message p |}.

(** [r.urgency_level === 'CRITICAL' || r.urgency_level === 'HIGH'] *)
Definition isUrgent (r : Request) : bool :=
  strictEq (urgency_level r) "CRITICAL" || strictEq (urgency_level r) "HIGH".

Definition hasStatus (wanted : string) (r : Request) : bool :=
  strictEq (status r) wanted.

Definition calculateStatistics (s : State) : State :=
  let pending := length (List.filter (hasStatus "pending") (requests s)) in
  let urgent := length (List.filter isUrgent (requests s)) in
  let inProgress :=
    length (List.filter (hasStatus "in_progress") (requests s)) in
  let completed :=
    length (List.filter (hasStatus "completed") (requests s)) in
  let p := page s in
  withPage s
    {| requestsList := requestsList p;
       paginationInfo := paginationInfo p; pageInfo := pageInfo p;
       prevBtn := prevBtn p; nextBtn := nextBtn p;
       pendingCount := write (pendingCount p) pending;
       urgentCount := write (urgentCount p) urgent;
       progressCount := write (progressCount p) inProgress;
       completedCount := write (completedCount p) completed;
       message := message p |}.

(** [loadRequests], given what the fetch of the listing does. The
    [try] block assigns [requests] and [totalPages] only after the
    response was fetched, found [ok] and parsed; every failure before
    that lands in the [catch] block. *)
Definition loadRequests (s : State) (o : FetchOutcome) : State :=
  match o with
  | Response true (Some data) =>
      let s1 :=
        {| requests := default [] (Api.requests data);
           currentPage := currentPage s; pageSize := pageSize s;
           totalPages := orDefault (total_pages data) 1;
           currentFilters := currentFilters s; sortBy := sortBy s;
           sortOrder := sortOrder s; page := page s |} in
      calculateStatistics (updatePaginationInfo data (renderRequestsList s1))
  | _ => renderErrorState (showMessage LoadFailed "error" s)
  end.

Definition withCurrentPage (s : State) (n : Z) : State :=
  {| requests := requests s; currentPage := n;
     pageSize := pageSize s; totalPages := totalPages s;
     currentFilters := currentFilters s; sortBy := sortBy s;
     sortOrder := sortOrder s; page := page s |}.

Definition previousPage (s : State) (o : FetchOutcome) : State :=
  if 1 <? currentPage s
  then loadRequests (withCurrentPage s (currentPage s - 1)) o
  else s.

Definition nextPage (s : State) (o : FetchOutcome) : State :=
  if currentPage s <? totalPages s
  then loadRequests (withCurrentPage s (currentPage s + 1)) o
  else s.

(** The state the constructor leaves before the first load. *)
Definition initial (p : Page) : State :=
  {| requests := []; currentPage := 1; pageSize := 10; totalPages := 1;
     currentFilters := ∅; sortBy := "created_at"; sortOrder := "desc";
     page := p |}.

End Dashboard.

(** ** The request-intake core of the design document

  The server side (the store in [crud.py], the routes and the
  duplicate filter in [utils/filters.py]) is described by the design
  document only; this module follows its sections 3, 4 and 7. *)

Module Core.
Import JS.
Local Open Scope string_scope.
Local Open Scope Z_scope.

(** Modelled from the spec: the enumerations of section 3. *)
Inductive RequestType :=
| RESCUE | MEDICAL | FOOD | WATER | SHELTER | CLOTHING | TRANSPORTATION | OTHER.

(** Modelled from the spec: the urgency levels of section 3. *)
Inductive Urgency := LOW | MEDIUM | HIGH | CRITICAL.

(** Modelled from the spec: the statuses of section 3. *)
Inductive Status := pending | in_progress | completed.

#[global] Instance RequestType_eq_dec : EqDecision RequestType.
Proof. solve_decision. Defined.
#[global] Instance Urgency_eq_dec : EqDecision Urgency.
Proof. solve_decision. Defined.
#[global] Instance Status_eq_dec : EqDecision Status.
Proof. solve_decision. Defined.

(** Modelled from the spec: the payload of the intake boundary, the
    fields of a relief request minus identifier, status, assignment
    and timestamps (sections 3 and 6). *)
Record Payload := {
  title : string;
  description : string;
  request_type : RequestType;
  urgency_level : Urgency;
  contact_name : string;
  contact_phone : string;
  contact_email : option string;
  address : string;
  landmark : option string;
  latitude : number;
  longitude : number;
  people_affected : Z;
  estimated_cost : option number;
  additional_notes : option string
}.

(** Modelled from the spec: [assigned_to] and [assigned_contact] are
    set together, so a request carries both or neither. *)
Record Assignment := {
  assigned_to : string;
  assigned_contact : string
}.

(** Modelled from the spec: the relief request of section 3, the only
    entity of the store. *)
Record ReliefRequest := {
  identifier : Z;
  details : Payload;
  status : Status;
  assignment : option Assignment;
  created_at : Z;
  updated_at : Z
}.

(** Modelled from the spec: the reasons the filter gives, "duplicate of
    request #X within window" and "rate limit exceeded for this
    contact". *)
Inductive RejectReason :=
| DuplicateOf (request : Z)
| RateLimitExceeded.

(** Modelled from the spec: the error taxonomy of section 7. *)
Inductive Error :=
| ValidationError (field : string)
| DuplicateRejected (reason : RejectReason)
| NotFoundError (request : Z)
| InvalidTransitionError (request : Z) (current : Status)
| TransientStoreError.

(** *** Request store *)

(** Modelled from the spec: the rows of the single [requests] table,
    in the order in which the table holds them. *)
Definition Store := list ReliefRequest.

(** Modelled from the spec: the position of a status in the lifecycle
    pending, in_progress, completed. *)
Definition stage (s : Status) : Z :=
  match s with
  | pending => 0
  | in_progress => 1
  | completed => 2
  end.

(** Modelled from the spec: membership in a closed range of section 3;
    NaN is in no range. *)
Definition between (lo hi x : number) : bool := le lo x && le x hi.

(** Modelled from the spec: the field checks of [create], "required
    fields are missing or out of range (per section 3)": the first
    field at fault, if any. *)
Definition validate (p : Payload) : option string :=
  if negb (truthyString (title p)) then Some "title"
  else if negb (truthyString (description p)) then Some "description"
  else if negb (truthyString (contact_name p)) then Some "contact_name"
  else if negb (truthyString (contact_phone p)) then Some "contact_phone"
  else if negb (truthyString (address p)) then Some "address"
  else if negb (between (neg (ofZ 90)) (ofZ 90) (latitude p))
    then Some "latitude"
  else if negb (between (neg (ofZ 180)) (ofZ 180) (longitude p))
    then Some "longitude"
  else if people_affected p <=? 0 then Some "people_affected"
  else match estimated_cost p with
       | Some c => if le (ofZ 0) c then None else Some "estimated_cost"
       | None => None
       end.

(** Modelled from the spec: the identifier assigned on creation, one
    above every identifier in the store. *)
Definition nextIdentifier (store : Store) : Z :=
  1 + fold_right Z.max 0 (map identifier store).

(** Modelled from the spec: [get(id)]. *)
Definition get (store : Store) (id : Z) : Error + ReliefRequest :=
  match List.find (fun r => identifier r =? id) store with
  | Some r => inr r
  | None => inl (NotFoundError id)
  end.

(** Modelled from the spec: the write of a mutated record over the
    stored record with its identifier. *)
Definition replace (store : Store) (r' : ReliefRequest) : Store :=
  map (fun r => if identifier r =? identifier r' then r' else r) store.

(** Modelled from the spec: [create(request)] "assigns identifier,
    sets status=pending, created_at=updated_at=now; fails with
    ValidationError". *)
Definition create (store : Store) (p : Payload) (now : Z)
  : Error + (Store * ReliefRequest) :=
  match validate p with
  | Some field => inl (ValidationError field)
  | None =>
      let r := {| identifier := nextIdentifier store; details := p;
                  status := pending; assignment := None;
                  created_at := now; updated_at := now |} in
      inr ((store ++ [r])%list, r)
  end.

(** Modelled from the spec: [assign(id, assignee_name,
    assignee_contact)] "fails with NotFoundError if id unknown,
    InvalidTransitionError if status is not pending; otherwise sets
    assigned_to/assigned_contact, status=in_progress,
    updated_at=now". *)
Definition assign (store : Store) (id : Z) (name contact : string) (now : Z)
  : Error + Store :=
  match get store id with
  | inl e => inl e
  | inr r =>
      match status r with
      | pending =>
          inr (replace store
                 {| identifier := identifier r; details := details r;
                    status := in_progress;
                    assignment := Some {| assigned_to := name;
                                          assigned_contact := contact |};
                    created_at := created_at r; updated_at := now |})
      | current => inl (InvalidTransitionError id current)
      end
  end.

(** Modelled from the spec: [complete(id)] "fails with NotFoundError
    if unknown, InvalidTransitionError if status is not in_progress;
    otherwise status=completed, updated_at=now". *)
Definition complete (store : Store) (id : Z) (now : Z) : Error + Store :=
  match get store id with
  | inl e => inl e
  | inr r =>
      match status r with
      | in_progress =>
          inr (replace store
                 {| identifier := identifier r; details := details r;
                    status := completed; assignment := assignment r;
                    created_at := created_at r; updated_at := now |})
      | current => inl (InvalidTransitionError id current)
      end
  end.

(** Modelled from the spec: the mutations the store exposes; there is
    no deletion. *)
Inductive Operation :=
| Create (p : Payload)
| AssignTo (id : Z) (name contact : string)
| CompleteIt (id : Z).

(** Modelled from the spec: one mutation at time [now]; a failed
    mutation leaves the store as it was. *)
Definition apply (store : Store) (op : Operation) (now : Z) : Store :=
  match op with
  | Create p =>
      match create store p now with inr (s, _) => s | inl _ => store end
  | AssignTo id name contact =>
      match assign store id name contact now with
      | inr s => s | inl _ => store
      end
  | CompleteIt id =>
      match complete store id now with inr s => s | inl _ => store end
  end.

(** Modelled from the spec: a history of mutations, each with the
    time at which it is made. *)
Definition run (store : Store) (ops : list (Operation * Z)) : Store :=
  fold_left (fun s op => apply s (fst op) (snd op)) ops store.

(** *** Duplicate/spam filter *)

(** Modelled from the spec: the thresholds the design document leaves
    open (section 9): the length of the duplicate window, when two
    positions count as near-identical, and how many recent requests a
    contact may have. *)
Record Policy := {
  window : Z;
  near : number * number -> number * number -> bool;
  rate_limit : nat
}.

(** Modelled from the spec: the filter "returns one of: accept,
    reject(reason)". *)
Inductive Verdict :=
| Accept
| Reject (reason : RejectReason).

(** Modelled from the spec: a stored request is in the duplicate
    window when it was created at most [window] before [now]. *)
Definition recent (policy : Policy) (now : Z) (r : ReliefRequest) : bool :=
  (now - window policy <=? created_at r) && (created_at r <=? now).

(** Modelled from the spec: identical contact_phone. *)
Definition sameContact (candidate : Payload) (r : ReliefRequest) : bool :=
  String.eqb (contact_phone candidate) (contact_phone (details r)).

(** Modelled from the spec: the similarity rule the document fixes,
    identical contact_phone and near-identical coordinates within the
    window (section 8). *)
Definition duplicates (policy : Policy) (now : Z) (candidate : Payload)
  (r : ReliefRequest) : bool :=
  recent policy now r
  && sameContact candidate r
  && near policy (latitude candidate, longitude candidate)
       (latitude (details r), longitude (details r)).

(** Modelled from the spec: the filter of section 4.1. It reads the
    history and decides; it returns "duplicate of request #X within
    window" for the first stored duplicate and "rate limit exceeded
    for this contact" when the contact has more recent requests than
    the policy allows. *)
Definition screen (policy : Policy) (history : Store) (candidate : Payload)
  (now : Z) : Verdict :=
  match List.find (duplicates policy now candidate) history with
  | Some r => Reject (DuplicateOf (identifier r))
  | None =>
      if (rate_limit policy
          <? length (List.filter
                       (fun r => recent policy now r && sameContact candidate r)
                       history))%nat
      then Reject RateLimitExceeded
      else Accept
  end.

(** Modelled from the spec: the intake boundary (sections 2 and 6):
    the payload is validated, the filter evaluates it against the
    store, and an accepted request enters the store as pending. *)
Definition submit (policy : Policy) (store : Store) (p : Payload) (now : Z)
  : Error + (Store * ReliefRequest) :=
  match validate p with
  | Some field => inl (ValidationError field)
  | None =>
      match screen policy store p now with
      | Reject reason => inl (DuplicateRejected reason)
      | Accept => create store p now
      end
  end.

(** *** Query/filter engine *)

(** Modelled from the spec: [sort_by], one of created_at,
    urgency_level, status. *)
Inductive SortBy := by_created_at | by_urgency_level | by_status.

(** Modelled from the spec: [sort_order], asc or desc. *)
Inductive SortOrder := asc | desc.

(** Modelled from the spec: the configuration of section 4.3. *)
Record Config := {
  page : positive;
  page_size : positive;
  sort_by : SortBy;
  sort_order : SortOrder;
  only_type : option RequestType;
  only_urgency : option Urgency;
  only_status : option Status
}.

(** Modelled from the spec: what the listing boundary returns,
    [{requests, total, total_pages}]. *)
Record Listing := {
  requests : list ReliefRequest;
  total : nat;
  total_pages : nat
}.

(** Modelled from the spec: what the document leaves open about the
    engine: the cap on [page_size] and the order of the urgency
    levels. *)
Record Limits := {
  max_page_size : positive;
  urgency_rank : Urgency -> Z
}.

(** Modelled from the spec: one optional filter against the value of
    a record. *)
Definition allows {A} `{EqDecision A} (wanted : option A) (x : A) : bool :=
  match wanted with
  | Some w => bool_decide (x = w)
  | None => true
  end.

(** Modelled from the spec: an absent filter is no constraint. *)
Definition matches (c : Config) (r : ReliefRequest) : bool :=
  allows (only_type c) (request_type (details r))
  && allows (only_urgency c) (urgency_level (details r))
  && allows (only_status c) (status r).

(** Modelled from the spec: the key a record is sorted by. *)
Definition sortKey (limits : Limits) (c : Config) (r : ReliefRequest) : Z :=
  match sort_by c with
  | by_created_at => created_at r
  | by_urgency_level => urgency_rank limits (urgency_level (details r))
  | by_status => stage (status r)
  end.

(** Modelled from the spec: the order of the result, by the sort key
    in the direction asked for, "secondary sort by identifier
    ascending". *)
Definition before (limits : Limits) (c : Config) (a b : ReliefRequest) : bool :=
  let ka := sortKey limits c a in
  let kb := sortKey limits c b in
  match sort_order c with
  | asc => ka <? kb
  | desc => kb <? ka
  end
  || (ka =? kb) && (identifier a <=? identifier b).

(** Modelled from the spec: [before] as a relation. *)
Definition Before (limits : Limits) (c : Config) : relation ReliefRequest :=
  fun a b => before limits c a b = true.

#[global] Instance Before_dec limits c a b : Decision (Before limits c a b).
Proof. unfold Before. apply _. Defined.

(** Modelled from the spec: [ceil(total / page_size)]. *)
Definition ceilDiv (n : nat) (d : positive) : nat :=
  ((n + (Pos.to_nat d - 1)) / Pos.to_nat d)%nat.

(** Modelled from the spec: [page_size] "capped at a maximum". *)
Definition effectiveSize (limits : Limits) (c : Config) : positive :=
  Pos.min (page_size c) (max_page_size limits).

(** Modelled from the spec: the matching records in the order of the
    result. *)
Definition sortedMatching (limits : Limits) (c : Config) (store : Store)
  : list ReliefRequest :=
  merge_sort (Before limits c) (List.filter (matches c) store).

(** Modelled from the spec: the listing of section 4.3: the matching
    records in order, cut to the page asked for, with the total count
    and the total pages. *)
Definition query (limits : Limits) (c : Config) (store : Store) : Listing :=
  let matching := List.filter (matches c) store in
  let sorted := sortedMatching limits c store in
  let size := Pos.to_nat (effectiveSize limits c) in
  {| requests := take size (drop ((Pos.to_nat (page c) - 1) * size)%nat sorted);
     total := length matching;
     total_pages := ceilDiv (length matching) (effectiveSize limits c) |}.

End Core.

(** ** Sample data *)

Module Samples.
Import JS.
Local Open Scope string_scope.

(** A request of the listing with the given identifier, type, urgency
    and status. *)
Definition request (i : Z) (type urgency status : string) : Api.Request :=
  {| Api.id := i;
     Api.title := "Need food";
     Api.description := "Family of 4 stranded";
     Api.request_type := type;
     Api.urgency_level := urgency;
     Api.status := status;
     Api.contact_name := "Asha";
     Api.contact_phone := "+91-9999999999";
     Api.contact_email := None;
     Api.address := "Near XYZ bridge, sector 5";
     Api.landmark := None;
     Api.latitude := ofZ 19;
     Api.longitude := ofZ 72;
     Api.people_affected := 4;
     Api.estimated_cost := None;
     Api.additional_notes := None;
     Api.assigned_to := None;
     Api.assigned_contact := None;
     Api.created_at := "2024-01-01T00:00:00";
     Api.updated_at := "2024-01-01T00:00:00" |}.

(** The request with a title that is the markup of a button. *)
Definition markupRequest (i : Z) (status call : string) : Api.Request :=
  {| Api.id := i;
     Api.title := Api.buttonMarkup call "Mark Complete";
     Api.description := "Family of 4 stranded";
     Api.request_type := "FOOD";
     Api.urgency_level := "HIGH";
     Api.status := status;
     Api.contact_name := "Asha";
     Api.contact_phone := "+91-9999999999";
     Api.contact_email := None;
     Api.address := "Near XYZ bridge, sector 5";
     Api.landmark := None;
     Api.latitude := ofZ 19;
     Api.longitude := ofZ 72;
     Api.people_affected := 4;
     Api.estimated_cost := None;
     Api.additional_notes := None;
     Api.assigned_to := None;
     Api.assigned_contact := None;
     Api.created_at := "2024-01-01T00:00:00";
     Api.updated_at := "2024-01-01T00:00:00" |}.

Definition listing : Api.Listing :=
  {| Api.requests :=
       Some [request 1 "FOOD" "HIGH" "pending";
             request 2 "WATER" "CRITICAL" "pending";
             request 3 "FOOD" "LOW" "in_progress";
             request 4 "FOOD" "MEDIUM" "completed"];
     Api.total := Some 4%Z;
     Api.total_pages := Some 1%Z |}.

Definition mapPage (type urgency status : string) : MapView.Page :=
  {| MapView.typeFilter := type;
     MapView.urgencyFilter := urgency;
     MapView.statusFilter := status;
     MapView.totalRequests := 0;
     MapView.visibleRequests := 0;
     MapView.urgentRequests := 0;
     MapView.loadingOverlay := false;
     MapView.messages := [] |}.

(** The map after a successful load, with the selects set. *)
Definition loadedMap (type urgency status : string) : MapView.MapState :=
  MapView.loadRequests (MapView.initial (mapPage type urgency status))
    (Api.Response true (Some listing)).

Definition dashboardPage : Dashboard.Page :=
  {| Dashboard.requestsList := Some Dashboard.Untouched;
     Dashboard.paginationInfo := Some (0%nat, 0%Z);
     Dashboard.pageInfo := Some (1%Z, 1%Z);
     Dashboard.prevBtn := Some true;
     Dashboard.nextBtn := Some true;
     Dashboard.pendingCount := Some 0%nat;
     Dashboard.urgentCount := Some 0%nat;
     Dashboard.progressCount := Some 0%nat;
     Dashboard.completedCount := Some 0%nat;
     Dashboard.message := None |}.

(** The dashboard after a successful load. *)
Definition loadedDashboard : Dashboard.State :=
  Dashboard.loadRequests (Dashboard.initial dashboardPage)
    (Api.Response true (Some listing)).

(** The dashboard after the load of page 1 of 3. *)
Definition pagedDashboard : Dashboard.State :=
  Dashboard.loadRequests (Dashboard.initial dashboardPage)
    (Api.Response true
       (Some {| Api.requests := Api.requests listing;
                Api.total := Some 25%Z;
                Api.total_pages := Some 3%Z |})).

(** The form of the scenario with the latitude and the number of
    people as typed. *)
Definition crowdForm (latitude people : string) : Form.FormData :=
  [("title", "Need food");
   ("description", "Family of 4 stranded");
   ("request_type", "FOOD");
   ("urgency_level", "HIGH");
   ("contact_name", "Asha");
   ("contact_phone", "+91-9999999999");
   ("address", "Near XYZ bridge, sector 5");
   ("latitude", latitude);
   ("longitude", "72.8");
   ("people_affected", people)].

(** The payload of the scenario of the design document. *)
Definition payload (phone : string) (lat lng : Z) : Core.Payload :=
  {| Core.title := "Need food";
     Core.description := "Family of 4 stranded";
     Core.request_type := Core.FOOD;
     Core.urgency_level := Core.HIGH;
     Core.contact_name := "Asha";
     Core.contact_phone := phone;
     Core.contact_email := None;
     Core.address := "Near XYZ bridge, sector 5";
     Core.landmark := None;
     Core.latitude := ofZ lat;
     Core.longitude := ofZ lng;
     Core.people_affected := 4;
     Core.estimated_cost := None;
     Core.additional_notes := None |}.

(** A policy: a window of 3600 time units, positions near when they
    are equal as Numbers, at most five recent requests per contact. *)
Definition policy : Core.Policy :=
  {| Core.window := 3600;
     Core.near := fun a b =>
       SFeqb (fst a) (fst b) && SFeqb (snd a) (snd b);
     Core.rate_limit := 5 |}.

Definition limits : Core.Limits :=
  {| Core.max_page_size := 1000;
     Core.urgency_rank := fun u =>
       match u with
       | Core.LOW => 0 | Core.MEDIUM => 1 | Core.HIGH => 2
       | Core.CRITICAL => 3
       end%Z |}.

(** The record the store holds after the scenario payload is accepted
    into an empty store at time 0. *)
Definition accepted : Core.ReliefRequest :=
  {| Core.identifier := 1;
     Core.details := payload "+91-9999999999" 19 72;
     Core.status := Core.pending;
     Core.assignment := None;
     Core.created_at := 0;
     Core.updated_at := 0 |}.

(** The same record after [assign] at time 10 and after [complete] at
    time 20. *)
Definition inProgress : Core.ReliefRequest :=
  {| Core.identifier := 1;
     Core.details := payload "+91-9999999999" 19 72;
     Core.status := Core.in_progress;
     Core.assignment :=
       Some {| Core.assigned_to := "NGO A";
               Core.assigned_contact := "+91-8888888888" |};
     Core.created_at := 0;
     Core.updated_at := 10 |}.

Definition done : Core.ReliefRequest :=
  {| Core.identifier := 1;
     Core.details := payload "+91-9999999999" 19 72;
     Core.status := Core.completed;
     Core.assignment :=
       Some {| Core.assigned_to := "NGO A";
               Core.assigned_contact := "+91-8888888888" |};
     Core.created_at := 0;
     Core.updated_at := 20 |}.

Definition stored (i : nat) : Core.ReliefRequest :=
  {| Core.identifier := Z.of_nat i;
     Core.details := payload "+91-9999999999" 19 72;
     Core.status := Core.pending;
     Core.assignment := None;
     Core.created_at := Z.of_nat (100 - i);
     Core.updated_at := Z.of_nat (100 - i) |}.

(** Twenty-five stored records. *)
Definition store25 : Core.Store := map stored (seq 1 25).

Definition config (page size : positive) : Core.Config :=
  {| Core.page := page; Core.page_size := size;
     Core.sort_by := Core.by_urgency_level; Core.sort_order := Core.desc;
     Core.only_type := None; Core.only_urgency := None;
     Core.only_status := None |}.

End Samples.

(** ** More of the request form ([main.js]) *)

Module FormAssist.
Import JS Form.
Local Open Scope string_scope.

(** Every code unit of the string passes the test. *)
Fixpoint allChars (p : ascii -> bool) (s : string) : bool :=
  match s with
  | EmptyString => true
  | String c s' => p c && allChars p s'
  end.

(** [s.replace(/[^...]/g, '')]: the characters of the class are kept,
    the others are dropped. *)
Fixpoint keepChars (p : ascii -> bool) (s : string) : string :=
  match s with
  | EmptyString => EmptyString
  | String c s' => if p c then String c (keepChars p s') else keepChars p s'
  end.

(** What the class [[^0-9+()-\s]] of [formatPhoneNumber] lets
    through. *)
Definition phoneInputChar (c : ascii) : bool :=
  isDigit c || charIs "+" c || charIs "(" c || charIs ")" c
  || charIs "-" c || isWhiteSpace c.

(** What the class [[0-9-\s()]] of [isValidPhoneNumber] accepts. *)
Definition phoneBodyChar (c : ascii) : bool :=
  isDigit c || charIs "-" c || isWhiteSpace c
  || charIs "(" c || charIs ")" c.

(** What the class [[^\s@]] of [isValidEmail] accepts. *)
Definition emailChar (c : ascii) : bool :=
  negb (isWhiteSpace c || charIs "@" c).

(** [/^[0-9]{10}$/] *)
Definition tenDigits : regex := RRep 10 10 (RClass isDigit).

(** [formatPhoneNumber]: the value the input is left with. *)
Definition formatPhoneNumber (inputValue : string) : string :=
  let value := keepChars phoneInputChar inputValue in
  if test tenDigits value then "+91-" ++ value else value.

(** [showLocationOnMap]: the error message, or the map page opened
    with the two values in its query. *)
Inductive MapLink :=
| CoordinatesError
| OpenMap (lat lng : string).

Definition showLocationOnMap (lat lng : string) : MapLink :=
  if negb (truthyString lat) || negb (truthyString lng)
     || negb (isValidLatitude (parseFloat lat))
     || negb (isValidLongitude (parseFloat lng))
  then CoordinatesError
  else OpenMap lat lng.

(** The body of the loop of [autoSaveFormData]. *)
Definition saveEntry (data : gmap string string) (entry : string * string)
  : gmap string string :=
  let '(key, value) := entry in
  if truthyString (trim value) then <[key := trim value]> data else data.

(** [autoSaveFormData]: the object written to the local storage. *)
Definition autoSaveFormData (form : FormData) : gmap string string :=
  fold_left saveEntry form ∅.

(** The value of the last entry of the form under a key that is not
    blank. *)
Fixpoint lastFilled (key : string) (form : FormData) : option string :=
  match form with
  | [] => None
  | (k, v) :: form' =>
      match lastFilled key form' with
      | Some w => Some w
      | None =>
          if String.eqb k key && truthyString (trim v) then Some v else None
      end
  end.

End FormAssist.

(** ** More of the map view ([map.js]) *)

Module MapTools.
Import JS Api MapView.
Local Open Scope string_scope.
Local Open Scope Z_scope.

(** [marker.requestData]: the request a marker refers to. *)
Definition markerTarget (h : gmap loc object) (m : loc) : option loc :=
  match h !! m with
  | Some (OMarker _ _ l) => Some l
  | _ => None
  end.

(** The popup bound to a marker. *)
Definition markerPopup (h : gmap loc object) (m : loc) : option Popup :=
  match h !! m with
  | Some (OMarker _ popup _) => Some popup
  | _ => None
  end.

(** The marker [createRequestMarker] makes for the element [l] of the
    filtered requests. *)
Definition markerFor (h : gmap loc object) (l : loc) : option object :=
  (fun request => createRequestMarker request l) <$> requestAt h l.

(** The phrases of [formatDate] and of [formatTimeAgo]: a count with
    its unit and whether the plural [s] is written, or one of the two
    fixed phrases. *)
Inductive TimeUnit := Day | Hour | Minute.

(** The length of a unit in milliseconds. *)
Definition unitMs (unit : TimeUnit) : Z :=
  match unit with
  | Day => 24 * (1000 * 60 * 60)
  | Hour => 1000 * 60 * 60
  | Minute => 1000 * 60
  end.

Inductive Phrase :=
| Ago (n : Z) (unit : TimeUnit) (plural : bool)
| LessThanAnHourAgo
| JustNow.

(** [formatDate], given [now - date] in milliseconds; [None] is the NaN
    of a date that does not parse. The differences are whole numbers of
    milliseconds, on which the division and [Math.floor] are exact. *)
Definition formatDate (diff : option Z) : Phrase :=
  match diff with
  | Some d =>
      let hours := d / (1000 * 60 * 60) in
      let days := hours / 24 in
      if 0 <? days then Ago days Day (1 <? days)
      else if 0 <? hours then Ago hours Hour (1 <? hours)
      else LessThanAnHourAgo
  | None => LessThanAnHourAgo
  end.

End MapTools.

(** ** The map in use *)

Module MapSession.
Import JS Api MapView MapTools.
Local Open Scope string_scope.

(** What happens to the map after the constructor: a load completes
    with the outcome given, the user changes the filter selects, or
    clicks one of the two filter buttons. One event is complete before
    the next. *)
Inductive Event :=
| Load (o : FetchOutcome)
| Select (filters : Filters)
| Apply
| Clear.

(** The user sets the three selects. *)
Definition select (f : Filters) (s : MapState) : MapState :=
  let p := page s in
  withPage s
    {| typeFilter := f_request_type f; urgencyFilter := f_urgency_level f;
       statusFilter := f_status f; totalRequests := totalRequests p;
       visibleRequests := visibleRequests p;
       urgentRequests := urgentRequests p;
       loadingOverlay := loadingOverlay p;
       messages := messages p |}.

Definition step (s : MapState) (e : Event) : MapState :=
  match e with
  | Load o => loadRequests s o
  | Select f => select f s
  | Apply => applyFilters s
  | Clear => clearFilters s
  end.

(** The map after the constructor and a history of events. *)
Definition after (p : Page) (events : list Event) : MapState :=
  fold_left step events (initial p).

(** The store between two events: the array of loaded requests holds
    requests, the filtered ones are among them in their order, and the
    layers of the cluster group are the markers of the filtered
    requests. *)
Definition drawn (s : MapState) : Prop :=
  is_Some (heap s !! allRequests s)
  /\ Forall (fun l => is_Some (requestAt (heap s) l))
       (elementsOf (heap s) (allRequests s))
  /\ sublist (elementsOf (heap s) (filteredRequests s))
       (elementsOf (heap s) (allRequests s))
  /\ clusterLayers s = elementsOf (heap s) (markers s)
  /\ (heap s !!.) <$> clusterLayers s
     = Some <$> omap (markerFor (heap s))
                  (elementsOf (heap s) (filteredRequests s)).

(** The three counters tell what the arrays hold. *)
Definition counted (s : MapState) : Prop :=
  totalRequests (page s) = length (elementsOf (heap s) (allRequests s))
  /\ visibleRequests (page s)
     = length (elementsOf (heap s) (filteredRequests s))
  /\ urgentRequests (page s)
     = length (List.filter (holds (heap s) isUrgent)
                 (elementsOf (heap s) (filteredRequests s))).

End MapSession.

(** ** More of the dashboard *)

Module DashboardControls.
Import JS Api Dashboard MapTools.
Local Open Scope string_scope.
Local Open Scope Z_scope.

(** [formatTimeAgo], given [now - date] in milliseconds. *)
Definition formatTimeAgo (diff : option Z) : Phrase :=
  match diff with
  | Some diffMs =>
      let diffHours := diffMs / (1000 * 60 * 60) in
      let diffDays := diffHours / 24 in
      if 0 <? diffDays then Ago diffDays Day (1 <? diffDays)
      else if 0 <? diffHours then Ago diffHours Hour (1 <? diffHours)
      else
        let diffMinutes := diffMs / (1000 * 60) in
        if 0 <? diffMinutes then Ago diffMinutes Minute (1 <? diffMinutes)
        else JustNow
  | None => JustNow
  end.

(** The value of the three filter selects of the dashboard; [None] is
    a select the document does not have. *)
Record Selects := {
  dashboardTypeFilter : option string;
  dashboardUrgencyFilter : option string;
  dashboardStatusFilter : option string
}.

(** [if (select && select.value) filters.key = select.value] *)
Definition addFilter (key : string) (select : option string)
  (filters : gmap string string) : gmap string string :=
  match select with
  | Some value => if truthyString value then <[key := value]> filters else filters
  | None => filters
  end.

(** The object [filters] that [applyFilters] builds. *)
Definition readFilters (selects : Selects) : gmap string string :=
  addFilter "status" (dashboardStatusFilter selects)
    (addFilter "urgency_level" (dashboardUrgencyFilter selects)
       (addFilter "request_type" (dashboardTypeFilter selects) ∅)).

(** [this.currentFilters = filters; this.currentPage = 1] *)
Definition withFilters (s : State) (filters : gmap string string) : State :=
  {| requests := requests s; currentPage := 1;
     pageSize := pageSize s; totalPages := totalPages s;
     currentFilters := filters; sortBy := sortBy s;
     sortOrder := sortOrder s; page := page s |}.

(** [applyFilters]: the load is started, the message is shown, and the
    load completes with the outcome given. *)
Definition applyFilters (selects : Selects) (s : State) (o : FetchOutcome)
  : State :=
  loadRequests
    (showMessage FiltersApplied "info" (withFilters s (readFilters selects))) o.

(** [if (select) select.value = ''] *)
Definition clearSelect (select : option string) : option string :=
  match select with
  | Some _ => Some ""
  | None => None
  end.

Definition clearFilters (selects : Selects) (s : State) (o : FetchOutcome)
  : State * Selects :=
  (loadRequests (showMessage FiltersCleared "info" (withFilters s ∅)) o,
   {| dashboardTypeFilter := clearSelect (dashboardTypeFilter selects);
      dashboardUrgencyFilter := clearSelect (dashboardUrgencyFilter selects);
      dashboardStatusFilter := clearSelect (dashboardStatusFilter selects) |}).

Definition refreshData (s : State) (o : FetchOutcome) : State :=
  loadRequests (showMessage Refreshing "info" s) o.

(** What the user and the page can do to the dashboard, each with the
    outcome of the fetch it starts; one load is complete before the
    next event. *)
Inductive Event :=
| Load (o : FetchOutcome)
| Refresh (o : FetchOutcome)
| Previous (o : FetchOutcome)
| Next (o : FetchOutcome)
| Apply (selects : Selects) (o : FetchOutcome)
| Clear (selects : Selects) (o : FetchOutcome).

Definition step (s : State) (e : Event) : State :=
  match e with
  | Load o => loadRequests s o
  | Refresh o => refreshData s o
  | Previous o => previousPage s o
  | Next o => nextPage s o
  | Apply selects o => applyFilters selects s o
  | Clear selects o => fst (clearFilters selects s o)
  end.

(** The dashboard after the constructor and a history of events. *)
Definition after (p : Page) (events : list Event) : State :=
  fold_left step events (initial p).

(** What every listing request of the dashboard has in common. *)
Definition steady (s : State) : Prop :=
  1 <= currentPage s
  /\ pageSize s = 10
  /\ sortBy s = "created_at"
  /\ sortOrder s = "desc"
  /\ forall key value,
       currentFilters s !! key = Some value ->
       In key ["request_type"; "urgency_level"; "status"] /\ value <> "".

End DashboardControls.

(** * Properties *)

(** ** The request form *)

Module FormProps.
Import JS Form FormAssist.
Local Open Scope string_scope.
Local Open Scope list_scope.

Lemma truthyNumber_spec (x : number) :
  truthyNumber x = negb (isNaN x || isZero x).
Proof. by destruct x. Qed.

Lemma buildRequestData_snoc (form : FormData) (entry : string * string) :
  buildRequestData (form ++ [entry]) = setEntry (buildRequestData form) entry.
Proof. unfold buildRequestData. by rewrite fold_left_app. Qed.

Lemma coerce_spec (key value : string) :
  coerce key value =
    if isNaN (parseFloat value) || isZero (parseFloat value)
    then (if String.eqb key "people_affected" then Some (ofZ 1) else None)
    else Some (parseFloat value).
Proof.
  unfold coerce, strictEq. rewrite truthyNumber_spec.
  by destruct (isNaN _ || isZero _).
Qed.

(** *** The entry that decides a key *)

Lemma lastFilled_snoc (key : string) (form : FormData) (k v : string) :
  lastFilled key (form ++ [(k, v)])
  = if String.eqb k key && truthyString (trim v) then Some v
    else lastFilled key form.
Proof.
  induction form as [|[k0 v0] form IH]; cbn [app lastFilled].
  - by destruct (String.eqb k key && truthyString (trim v)).
  - rewrite IH. by destruct (String.eqb k key && truthyString (trim v)).
Qed.

Lemma lastFilled_app (key : string) (before after : FormData) :
  lastFilled key (before ++ after)
  = match lastFilled key after with
    | Some w => Some w
    | None => lastFilled key before
    end.
Proof.
  induction before as [|[k0 v0] before IH]; cbn [app lastFilled].
  - by destruct (lastFilled key after).
  - rewrite IH. by destruct (lastFilled key after).
Qed.

Lemma lastFilled_None (key : string) (form : FormData) :
  lastFilled key form = None
  <-> forall value, In (key, value) form -> truthyString (trim value) = false.
Proof.
  induction form as [|[k0 v0] form IH]; [done|].
  cbn [lastFilled In]. destruct (lastFilled key form) as [w|].
  - split; [done|]. intros Hall.
    assert (Some w = None) as Hw by (apply IH; intros v Hv; apply Hall; by right).
    done.
  - destruct (String.eqb_spec k0 key) as [->|Hne]; cbn [andb].
    + destruct (truthyString (trim v0)) eqn:Hv0.
      * split; [done|]. intros Hall. rewrite (Hall v0) in Hv0; [done|by left].
      * split; [|done]. intros _ value [[= <-]|Hin]; [done|].
        by apply (proj1 IH).
    + split; [|done]. intros _ value [[= -> _]|Hin]; [done|].
      by apply (proj1 IH).
Qed.

(** [lastFilled] is the value of the last entry of the key that is not
    blank. *)
Lemma lastFilled_spec (key value : string) (form : FormData) :
  lastFilled key form = Some value
  <-> exists before after,
        form = before ++ (key, value) :: after
        /\ truthyString (trim value) = true
        /\ forall later, In (key, later) after ->
             truthyString (trim later) = false.
Proof.
  split.
  - induction form as [|[k0 v0] form IH]; [done|].
    cbn [lastFilled]. destruct (lastFilled key form) as [w|] eqn:Hlast.
    + intros [= ->]. destruct (IH eq_refl) as (before & after & -> & Hv & Hafter).
      by exists ((k0, v0) :: before), after.
    + destruct (String.eqb_spec k0 key) as [->|]; [|done].
      destruct (truthyString (trim v0)) eqn:Hv0; [|done].
      intros [= ->]. exists [], form. split; [done|]. split; [done|].
      by apply lastFilled_None.
  - intros (before & after & -> & Hv & Hafter).
    rewrite lastFilled_app. cbn [lastFilled].
    rewrite (proj2 (lastFilled_None key after) Hafter).
    by rewrite String.eqb_refl, Hv.
Qed.

(** What the loop leaves under a key is decided by the last entry of
    the key that is not blank: its trimmed text under a key that is not
    numeric, its coerced Number under a numeric key. *)
Lemma payload_lookup (form : FormData) (key : string) :
  text (buildRequestData form) !! key
  = (if includes numericKeys key then None
     else trim <$> lastFilled key form)
  /\ numeric (buildRequestData form) !! key
     = (if includes numericKeys key
        then coerce key <$> lastFilled key form else None).
Proof.
  induction form as [|[k v] form (IHt & IHn)] using rev_ind.
  - change (buildRequestData []) with emptyData.
    cbn [text numeric emptyData lastFilled fmap option_fmap option_map].
    rewrite !lookup_empty. by destruct (includes numericKeys key).
  - rewrite buildRequestData_snoc, lastFilled_snoc.
    unfold setEntry.
    destruct (truthyString (trim v)) eqn:Hv; rewrite ?andb_false_r;
      [|done].
    rewrite andb_true_r.
    destruct (String.eqb_spec k key) as [->|Hne].
    + destruct (includes numericKeys key) eqn:Hk; cbn [text numeric];
        rewrite ?lookup_insert_eq, ?IHt, ?IHn, ?Hk; done.
    + destruct (includes numericKeys k) eqn:Hk; cbn [text numeric];
        rewrite ?lookup_insert_ne by done; done.
Qed.

(** What the loop leaves under a numeric key is never NaN and never
    zero, and [people_affected] is never [null]. *)
Lemma numeric_fields_truthy (form : FormData) (key : string)
  (v : option number) :
  numeric (buildRequestData form) !! key = Some v ->
  includes numericKeys key = true
  /\ match v with
     | Some x => truthyNumber x = true
     | None => key <> "people_affected"
     end.
Proof.
  revert key v. induction form as [|[k value] form IH] using rev_ind;
    intros key v.
  - cbn. by rewrite lookup_empty.
  - rewrite buildRequestData_snoc. unfold setEntry.
    destruct (truthyString (trim value)); [|by apply IH].
    destruct (includes numericKeys k) eqn:Hk; cbn [numeric]; [|by apply IH].
    destruct (decide (k = key)) as [->|Hne].
    + rewrite lookup_insert_eq. intros [= <-]. split; [done|].
      unfold coerce, strictEq.
      destruct (truthyNumber (parseFloat value)) eqn:Ht; [done|].
      destruct (String.eqb key "people_affected") eqn:He; [done|].
      by apply String.eqb_neq.
    + rewrite lookup_insert_ne by done. by apply IH.
Qed.

Lemma in_pushIf (c : bool) (message m : string) (errors : list string) :
  In m (pushIf c message errors) <-> In m errors \/ (c = true /\ m = message).
Proof.
  unfold pushIf. destruct c.
  - rewrite in_app_iff. cbn. intuition congruence.
  - intuition congruence.
Qed.

(** [validateRequestData] reports the latitude exactly when the
    property is unset, [null], NaN, zero or out of range. *)
Lemma latitude_error_iff (data : RequestData) :
  In latitudeError (validateRequestData data)
  <-> missingOrInvalid (numeric data !! "latitude") isValidLatitude = true.
Proof.
  unfold validateRequestData. rewrite !in_pushIf. cbn.
  split; [|by auto].
  intros H. repeat (destruct H as [H|H]); try done; by destruct H.
Qed.

Lemma longitude_error_iff (data : RequestData) :
  In longitudeError (validateRequestData data)
  <-> missingOrInvalid (numeric data !! "longitude") isValidLongitude = true.
Proof.
  unfold validateRequestData. rewrite !in_pushIf. cbn.
  split; [|by auto 10].
  intros H. repeat (destruct H as [H|H]); try done; by destruct H.
Qed.

(** A payload with an error is not posted. *)
Lemma rejected_when_error (form : FormData) (m : string) :
  In m (validateRequestData (buildRequestData form)) ->
  handleFormSubmission form
  = ShowErrors (validateRequestData (buildRequestData form)).
Proof.
  unfold handleFormSubmission. cbv zeta.
  destruct (validateRequestData (buildRequestData form)); [done|].
  by intros _.
Qed.

(** The latitude typed into the form passes [validateRequestData]
    exactly when it parses to a Number in range that is not zero. *)
Lemma latitude_accepted_iff (form : FormData) (value : string) :
  truthyString (trim value) = true ->
  let data := buildRequestData (form ++ [("latitude", value)]) in
  ~ In latitudeError (validateRequestData data)
  <-> isValidLatitude (parseFloat value) = true
      /\ isZero (parseFloat value) = false.
Proof.
  intros Hv data. rewrite latitude_error_iff. subst data.
  rewrite buildRequestData_snoc. unfold setEntry. rewrite Hv.
  change (includes numericKeys "latitude") with true. cbn [numeric].
  rewrite lookup_insert_eq, coerce_spec.
  change ("latitude" =? "people_affected")%string with false.
  unfold missingOrInvalid.
  unfold isValidLatitude.
  destruct (parseFloat value) as [sz|si| |sf m e]; cbn;
    try (destruct (ge _ _ && le _ _)); cbn; intuition (try congruence).
Qed.

Lemma longitude_accepted_iff (form : FormData) (value : string) :
  truthyString (trim value) = true ->
  let data := buildRequestData (form ++ [("longitude", value)]) in
  ~ In longitudeError (validateRequestData data)
  <-> isValidLongitude (parseFloat value) = true
      /\ isZero (parseFloat value) = false.
Proof.
  intros Hv data. rewrite longitude_error_iff. subst data.
  rewrite buildRequestData_snoc. unfold setEntry. rewrite Hv.
  change (includes numericKeys "longitude") with true. cbn [numeric].
  rewrite lookup_insert_eq, coerce_spec.
  change ("longitude" =? "people_affected")%string with false.
  unfold missingOrInvalid.
  unfold isValidLongitude.
  destruct (parseFloat value) as [sz|si| |sf m e]; cbn;
    try (destruct (ge _ _ && le _ _)); cbn; intuition (try congruence).
Qed.

(** C8, as amended: when the form is converted into the request
    payload, what a numeric key holds is decided by the last entry of
    the key that is not blank, wherever it stands in the form and
    whatever the other entries are: a value that parses to NaN or to
    zero becomes 1 for [people_affected] and [null] for [latitude],
    [longitude] and [estimated_cost], and any other value is stored as
    parsed. A numeric key all of whose entries are blank, or that has
    no entry, is left unset, and so is the string part of a numeric
    key. A latitude entered as "0" is [null] in the payload. *)
Theorem numeric_fields_coerced
  (form : FormData) (key : string)
  (Hkey : includes numericKeys key = true) :
  let data := buildRequestData form in
  let coerced (value : string) :=
    let x := parseFloat value in
    if isNaN x || isZero x
    then (if String.eqb key "people_affected" then Some (ofZ 1) else None)
    else Some x in
  (forall value,
     (exists before after,
        form = before ++ (key, value) :: after
        /\ truthyString (trim value) = true
        /\ forall later, In (key, later) after ->
             truthyString (trim later) = false) ->
     numeric data !! key = Some (coerced value))
  /\ ((forall value, In (key, value) form ->
         truthyString (trim value) = false) ->
      numeric data !! key = None)
  /\ numeric data !! key = coerced <$> lastFilled key form
  /\ text data !! key = None
  /\ (forall value,
        truthyString (trim value) = true ->
        numeric (buildRequestData (form ++ [(key, value)])) !! key
        = Some (coerced value))
  /\ (forall blank : string,
        truthyString (trim blank) = false ->
        buildRequestData (form ++ [(key, blank)]) = buildRequestData form)
  /\ (forall k v, numeric data !! k = Some v ->
        match v with
        | Some y => isNaN y = false /\ isZero y = false
        | None => k <> "people_affected"
        end)
  /\ numeric (buildRequestData (scenarioForm "0" "72.8")) !! "latitude"
     = Some None
  /\ numeric (buildRequestData (scenarioForm "19.0" "72.8")) !! "latitude"
     = Some (Some (parseFloat "19.0")).
Proof.
  intros data coerced. subst data.
  destruct (payload_lookup form key) as [Htext Hnumeric].
  rewrite Hkey in Htext, Hnumeric.
  assert (forall value, coerce key value = coerced value) as Hcoerce
    by (intros value; apply coerce_spec).
  assert (numeric (buildRequestData form) !! key
          = coerced <$> lastFilled key form) as Hlast.
  { rewrite Hnumeric. destruct (lastFilled key form); [|done].
    cbn [fmap option_fmap option_map]. by rewrite Hcoerce. }
  split; [|split; [|split; [|split; [|split; [|split; [|split; [|split]]]]]]].
  - intros value Hvalue. apply lastFilled_spec in Hvalue.
    by rewrite Hlast, Hvalue.
  - intros Hblank. apply lastFilled_None in Hblank.
    by rewrite Hlast, Hblank.
  - exact Hlast.
  - exact Htext.
  - intros value Hvalue. rewrite buildRequestData_snoc. unfold setEntry.
    rewrite Hvalue, Hkey. cbn [numeric].
    by rewrite lookup_insert_eq, Hcoerce.
  - intros blank Hb. rewrite buildRequestData_snoc. unfold setEntry.
    by rewrite Hb.
  - intros k v Hk. apply numeric_fields_truthy in Hk as [_ Hk].
    destruct v as [y|]; [|done].
    rewrite truthyNumber_spec in Hk. by destruct (isNaN y), (isZero y).
  - vm_compute. reflexivity.
  - vm_compute. reflexivity.
Qed.

Lemma numeric_fields_coerced_witness :
  includes numericKeys "latitude" = true
  /\ numeric (buildRequestData
                [("latitude", "0"); ("title", "Need food"); ("latitude", " ")])
       !! "latitude"
     = Some None
  /\ text (buildRequestData
             [("latitude", "0"); ("title", "Need food"); ("latitude", " ")])
       !! "latitude"
     = None.
Proof.
  split; [reflexivity|].
  destruct (numeric_fields_coerced
              [("latitude", "0"); ("title", "Need food"); ("latitude", " ")]
              "latitude" eq_refl) as (Hlast & _ & _ & Htext & _).
  split; [|exact Htext].
  apply (Hlast "0").
  exists [], [("title", "Need food"); ("latitude", " ")].
  split; [reflexivity|]. split; [reflexivity|].
  intros later [[=]|[[= <-]|[]]]. reflexivity.
Defined.

(** C8, as stated, fails on blank values: an empty [people_affected]
    parses to NaN and is not replaced by 1, and a blank [latitude]
    parses to NaN and is not replaced by [null]; the loop skips both and
    the keys stay unset. *)
Lemma blank_numeric_field_unset :
  isNaN (parseFloat "") = true
  /\ numeric (buildRequestData [("people_affected", "")]) !! "people_affected"
     = None
  /\ numeric (buildRequestData [("people_affected", "")]) !! "people_affected"
     <> Some (Some (ofZ 1))
  /\ isNaN (parseFloat "  ") = true
  /\ numeric (buildRequestData [("latitude", "  ")]) !! "latitude" = None
  /\ numeric (buildRequestData [("latitude", "  ")]) !! "latitude"
     <> Some None.
Proof. repeat split; vm_compute; congruence. Qed.

(** C1: a latitude of zero is inside [-90, 90] and [isValidLatitude]
    and the blur check [validateField] accept it, but
    [validateRequestData] reports it and the form is not posted; the
    same holds for a longitude of zero. Coordinates in range that are
    not zero are accepted. *)
Theorem zero_coordinate_rejected :
  isValidLatitude (parseFloat "0") = true
  /\ validateField "latitude" "0" = None
  /\ handleFormSubmission (scenarioForm "0" "72.8")
     = ShowErrors [latitudeError]
  /\ isValidLongitude (parseFloat "0") = true
  /\ validateField "longitude" "0" = None
  /\ handleFormSubmission (scenarioForm "19.0" "0")
     = ShowErrors [longitudeError]
  /\ validateRequestData (buildRequestData (scenarioForm "19.0" "72.8")) = [].
Proof. repeat split; vm_compute; reflexivity. Qed.

End FormProps.

(** ** The map view *)

Module MapProps.
Import JS Api MapView.
Local Open Scope string_scope.
Local Open Scope list_scope.

(** *** The store only grows *)

Lemma alloc_fresh (h : gmap loc object) (o : object) :
  h !! (alloc h o).1 = None.
Proof. cbn. apply not_elem_of_dom, is_fresh. Qed.

Lemma alloc_lookup (h : gmap loc object) (o : object) :
  (alloc h o).2 !! (alloc h o).1 = Some o.
Proof. cbn. apply lookup_insert_eq. Qed.

Lemma alloc_subseteq (h : gmap loc object) (o : object) :
  h ⊆ (alloc h o).2.
Proof. cbn. apply insert_subseteq, not_elem_of_dom, is_fresh. Qed.

Lemma sameRequests_refl h : sameRequests h h.
Proof. by intros l. Qed.

Lemma sameRequests_trans h1 h2 h3 :
  sameRequests h1 h2 -> sameRequests h2 h3 -> sameRequests h1 h3.
Proof. intros H12 H23 l. by rewrite H23, H12. Qed.

Lemma alloc_sameRequests (h : gmap loc object) (o : object) :
  isRequest o = false -> sameRequests h (alloc h o).2.
Proof.
  intros Ho l. unfold requestAt. cbn.
  destruct (decide (fresh (dom h) = l)) as [<-|Hne].
  - rewrite lookup_insert_eq.
    assert (h !! fresh (dom h) = None) as ->
      by apply not_elem_of_dom, is_fresh.
    by destruct o.
  - by rewrite lookup_insert_ne.
Qed.

Lemma push_sameRequests (h : gmap loc object) (a x : loc) :
  sameRequests h (push h a x).
Proof.
  intros l. unfold push.
  destruct (h !! a) as [[r|ls|pos pop rd]|] eqn:Ha; try done.
  unfold requestAt. destruct (decide (a = l)) as [<-|Hne].
  - by rewrite lookup_insert_eq, Ha.
  - by rewrite lookup_insert_ne.
Qed.

(** Pushing onto an array that [h0] does not have leaves the objects
    of [h0] alone. *)
Lemma push_subseteq (h0 h : gmap loc object) (a x : loc) :
  h0 ⊆ h -> h0 !! a = None -> h0 ⊆ push h a x.
Proof.
  intros Hsub Ha. unfold push.
  destruct (h !! a) as [[r|ls|pos pop rd]|]; try done.
  apply map_subseteq_spec. intros l o Hl.
  rewrite lookup_insert_ne by congruence.
  by eapply lookup_weaken.
Qed.

Local Arguments alloc : simpl never.

Lemma addMarkers_sameRequests (rs : list loc) :
  forall h ms layers, sameRequests h (addMarkers h ms layers rs).1.
Proof.
  induction rs as [|l rs IH]; intros h ms layers; cbn.
  - apply sameRequests_refl.
  - destruct (requestAt h l) as [request|]; [|apply IH].
    pose proof (alloc_sameRequests h (createRequestMarker request l) eq_refl)
      as Hsame.
    destruct (alloc h (createRequestMarker request l)) as [m h1].
    eapply sameRequests_trans; [|apply IH].
    eapply sameRequests_trans; [exact Hsame|apply push_sameRequests].
Qed.

Lemma addMarkers_subseteq (rs : list loc) :
  forall h0 h ms layers,
    h0 ⊆ h -> h0 !! ms = None -> h0 ⊆ (addMarkers h ms layers rs).1.
Proof.
  induction rs as [|l rs IH]; intros h0 h ms layers Hsub Hms; cbn.
  - done.
  - destruct (requestAt h l) as [request|]; [|by apply IH].
    pose proof (alloc_subseteq h (createRequestMarker request l)) as Hsub1.
    destruct (alloc h (createRequestMarker request l)) as [m h1].
    apply IH; [|done]. apply push_subseteq; [|done]. by etrans.
Qed.

Lemma updateMapMarkers_heap (s : MapState) :
  heap s ⊆ heap (updateMapMarkers s)
  /\ sameRequests (heap s) (heap (updateMapMarkers s))
  /\ allRequests (updateMapMarkers s) = allRequests s
  /\ filteredRequests (updateMapMarkers s) = filteredRequests s
  /\ currentFilters (updateMapMarkers s) = currentFilters s
  /\ readFilters (page (updateMapMarkers s)) = readFilters (page s).
Proof.
  unfold updateMapMarkers.
  pose proof (alloc_fresh (heap s) (OArray [])) as Hfresh.
  pose proof (alloc_subseteq (heap s) (OArray [])) as Hsub.
  pose proof (alloc_sameRequests (heap s) (OArray []) eq_refl) as Hsame.
  destruct (alloc (heap s) (OArray [])) as [ms h1]. cbn in Hfresh, Hsub, Hsame.
  pose proof (addMarkers_subseteq (elementsOf h1 (filteredRequests s))
                (heap s) h1 ms [] Hsub Hfresh) as Hsub2.
  pose proof (addMarkers_sameRequests (elementsOf h1 (filteredRequests s))
                h1 ms []) as Hsame2.
  destruct (addMarkers h1 ms [] (elementsOf h1 (filteredRequests s)))
    as [h2 layers]. cbn in *.
  repeat split; try done. by eapply sameRequests_trans.
Qed.

Lemma elementsOf_weaken (h h' : gmap loc object) (a : loc) :
  h ⊆ h' -> is_Some (h !! a) -> elementsOf h' a = elementsOf h a.
Proof.
  intros Hsub [o Ho]. unfold elementsOf.
  by rewrite (lookup_weaken _ _ _ _ Ho Hsub), Ho.
Qed.

Lemma requestsOf_weaken (h h' : gmap loc object) (a : loc) :
  h ⊆ h' -> sameRequests h h' -> is_Some (h !! a) ->
  requestsOf h' a = requestsOf h a.
Proof.
  intros Hsub Hsame Ha. unfold requestsOf.
  rewrite (elementsOf_weaken h h' a Hsub Ha).
  induction (elementsOf h a) as [|l ls IH]; [done|].
  cbn. by rewrite Hsame, IH.
Qed.

Lemma omap_filter_holds (h : gmap loc object) (p : Request -> bool)
  (ls : list loc) :
  omap (requestAt h) (List.filter (holds h p) ls)
  = List.filter p (omap (requestAt h) ls).
Proof.
  induction ls as [|l ls IH]; [done|].
  cbn. unfold holds at 1.
  destruct (requestAt h l) as [r|] eqn:Hl; [|done].
  destruct (p r) eqn:Hp; cbn; rewrite ?Hl, ?Hp; by rewrite ?IH.
Qed.

Lemma omap_sameRequests (h h' : gmap loc object) (ls : list loc) :
  sameRequests h h' -> omap (requestAt h') ls = omap (requestAt h) ls.
Proof.
  intros Hsame. induction ls as [|l ls IH]; [done|].
  cbn. by rewrite Hsame, IH.
Qed.

(** What putting a new array [ls] in [filteredRequests] and redrawing
    does to the store and to the references of the state. *)
Lemma redraw_heap (s : MapState) (ls : list loc) (fs : gmap string string)
  (p : Page) :
  let a := (alloc (heap s) (OArray ls)).1 in
  let s1 :=
    {| heap := (alloc (heap s) (OArray ls)).2; markers := markers s;
       clusterLayers := clusterLayers s; currentFilters := fs;
       allRequests := allRequests s; filteredRequests := a; page := p |} in
  let s3 := updateStatistics (updateMapMarkers s1) in
  heap s ⊆ heap s3
  /\ sameRequests (heap s) (heap s3)
  /\ allRequests s3 = allRequests s
  /\ filteredRequests s3 = a
  /\ heap s !! a = None
  /\ elementsOf (heap s3) a = ls
  /\ currentFilters s3 = fs
  /\ readFilters (page s3) = readFilters p.
Proof.
  intros a s1 s3.
  pose proof (alloc_fresh (heap s) (OArray ls)) as Hfresh.
  pose proof (alloc_subseteq (heap s) (OArray ls)) as Hsub.
  pose proof (alloc_sameRequests (heap s) (OArray ls) eq_refl) as Hsame.
  pose proof (alloc_lookup (heap s) (OArray ls)) as Hlook.
  destruct (updateMapMarkers_heap s1) as (Hsub2 & Hsame2 & Hall & Hfil & Hcf & Hrf).
  change (heap s3) with (heap (updateMapMarkers s1)).
  change (allRequests s3) with (allRequests (updateMapMarkers s1)).
  change (filteredRequests s3) with (filteredRequests (updateMapMarkers s1)).
  change (currentFilters s3) with (currentFilters (updateMapMarkers s1)).
  change (readFilters (page s3))
    with (readFilters (page (updateMapMarkers s1))).
  split; [by etrans|]. split; [by eapply sameRequests_trans|].
  split; [done|]. split; [done|]. split; [done|].
  split; [|done].
  unfold elementsOf. subst a.
  by rewrite (lookup_weaken _ _ _ _ Hlook Hsub2).
Qed.

Lemma applyFilters_heap (s : MapState) :
  heap s ⊆ heap (applyFilters s)
  /\ sameRequests (heap s) (heap (applyFilters s))
  /\ allRequests (applyFilters s) = allRequests s
  /\ heap s !! filteredRequests (applyFilters s) = None
  /\ elementsOf (heap (applyFilters s)) (filteredRequests (applyFilters s))
     = List.filter (holds (heap s) (matchesFilters (readFilters (page s))))
         (elementsOf (heap s) (allRequests s))
  /\ currentFilters (applyFilters s) = filtersObject (readFilters (page s))
  /\ readFilters (page (applyFilters s)) = readFilters (page s).
Proof.
  pose proof (redraw_heap s
    (List.filter (holds (heap s) (matchesFilters (readFilters (page s))))
       (elementsOf (heap s) (allRequests s)))
    (filtersObject (readFilters (page s))) (page s)) as H.
  cbv zeta in H. unfold applyFilters.
  destruct (alloc (heap s) (OArray _)) as [a h1]. cbn [fst snd] in H.
  destruct H as (H1 & H2 & H3 & H4 & H5 & H6 & H7 & H8).
  cbn [heap allRequests filteredRequests currentFilters page showMessage
       withPage readFilters typeFilter urgencyFilter statusFilter].
  rewrite H4. by repeat split.
Qed.

Lemma clearFilters_heap (s : MapState) :
  heap s ⊆ heap (clearFilters s)
  /\ sameRequests (heap s) (heap (clearFilters s))
  /\ allRequests (clearFilters s) = allRequests s
  /\ heap s !! filteredRequests (clearFilters s) = None
  /\ elementsOf (heap (clearFilters s)) (filteredRequests (clearFilters s))
     = elementsOf (heap s) (allRequests s)
  /\ currentFilters (clearFilters s) = ∅
  /\ readFilters (page (clearFilters s))
     = {| f_request_type := ""; f_urgency_level := ""; f_status := "" |}.
Proof.
  pose proof (redraw_heap s (elementsOf (heap s) (allRequests s)) ∅
    {| typeFilter := ""; urgencyFilter := ""; statusFilter := "";
       totalRequests := totalRequests (page s);
       visibleRequests := visibleRequests (page s);
       urgentRequests := urgentRequests (page s);
       loadingOverlay := loadingOverlay (page s);
       messages := messages (page s) |}) as H.
  cbv zeta in H. unfold clearFilters.
  destruct (alloc (heap s) (OArray _)) as [a h1]. cbn [fst snd] in H.
  destruct H as (H1 & H2 & H3 & H4 & H5 & H6 & H7 & H8).
  cbn [heap allRequests filteredRequests currentFilters page showMessage
       withPage readFilters typeFilter urgencyFilter statusFilter].
  rewrite H4. by repeat split.
Qed.

(** The requests shown after [applyFilters] are the loaded requests
    that pass the predicate, in the order of the loaded list. *)
Lemma applyFilters_shown (s : MapState) :
  requestsOf (heap (applyFilters s)) (filteredRequests (applyFilters s))
  = List.filter (matchesFilters (readFilters (page s)))
      (requestsOf (heap s) (allRequests s)).
Proof.
  destruct (applyFilters_heap s) as (_ & Hsame & _ & _ & Hel & _).
  unfold requestsOf. rewrite Hel, (omap_sameRequests _ _ _ Hsame).
  apply omap_filter_holds.
Qed.


Lemma applyFilters_all (s : MapState) :
  is_Some (heap s !! allRequests s) ->
  requestsOf (heap (applyFilters s)) (allRequests (applyFilters s))
  = requestsOf (heap s) (allRequests s).
Proof.
  intros Hall.
  destruct (applyFilters_heap s) as (Hsub & Hsame & -> & _).
  by apply requestsOf_weaken.
Qed.






(** C7: [applyFilters] and [clearFilters] leave the stored requests as
    they are: every object that was in the store is still there
    unchanged (the array of all requests and each record), the
    reference [allRequests] is the same, no request object is added,
    and the filtered view is a new array, not the array of all
    requests. *)
Theorem filters_preserve_requests (s s' : MapState)
  (Hall : is_Some (heap s !! allRequests s))
  (Hstep : s' = applyFilters s \/ s' = clearFilters s) :
  heap s ⊆ heap s'
  /\ allRequests s' = allRequests s
  /\ elementsOf (heap s') (allRequests s')
     = elementsOf (heap s) (allRequests s)
  /\ requestsOf (heap s') (allRequests s')
     = requestsOf (heap s) (allRequests s)
  /\ (forall l, requestAt (heap s') l = requestAt (heap s) l)
  /\ filteredRequests s' <> allRequests s'
  /\ heap s !! filteredRequests s' = None.
Proof.
  assert (heap s ⊆ heap s' /\ sameRequests (heap s) (heap s')
          /\ allRequests s' = allRequests s
          /\ heap s !! filteredRequests s' = None)
    as (Hsub & Hsame & Heq & Hnew).
  { destruct Hstep as [-> | ->].
    - destruct (applyFilters_heap s) as (? & ? & ? & ? & _). done.
    - destruct (clearFilters_heap s) as (? & ? & ? & ? & _). done. }
  rewrite Heq.
  split; [done|]. split; [done|].
  split; [by apply elementsOf_weaken|].
  split; [by apply requestsOf_weaken|].
  split; [done|]. split; [|done].
  intros E. rewrite E in Hnew. rewrite Hnew in Hall. by destruct Hall.
Qed.

Lemma filters_preserve_requests_witness :
  is_Some (heap (Samples.loadedMap "FOOD" "" "pending")
             !! allRequests (Samples.loadedMap "FOOD" "" "pending"))
  /\ requestsOf (heap (applyFilters (Samples.loadedMap "FOOD" "" "pending")))
       (allRequests (applyFilters (Samples.loadedMap "FOOD" "" "pending")))
     = requestsOf (heap (Samples.loadedMap "FOOD" "" "pending"))
         (allRequests (Samples.loadedMap "FOOD" "" "pending")).
Proof.
  assert (is_Some (heap (Samples.loadedMap "FOOD" "" "pending")
                     !! allRequests (Samples.loadedMap "FOOD" "" "pending")))
    as Hall by (vm_compute; eauto).
  split; [exact Hall|].
  exact (proj1 (proj2 (proj2 (proj2
           (filters_preserve_requests
              (Samples.loadedMap "FOOD" "" "pending")
              (applyFilters (Samples.loadedMap "FOOD" "" "pending"))
              Hall (or_introl eq_refl)))))).
Defined.

End MapProps.

(** ** The dashboard *)

Module DashboardProps.
Import JS Api.
Local Open Scope string_scope.
Local Open Scope list_scope.

(** Counting with a boolean test and counting the records that have
    the property it decides. *)
Lemma length_filter_bool {A} (p : A -> bool) (P : A -> Prop)
  `{forall x, Decision (P x)} (l : list A) :
  (forall x, p x = true <-> P x) ->
  length (List.filter p l) = length (filter P l).
Proof.
  intros Hp. induction l as [|x l IH]; [done|].
  rewrite filter_cons. cbn [List.filter].
  destruct (p x) eqn:Hx, (decide (P x)) as [HP|HP]; cbn [length];
    try by rewrite IH.
  - apply Hp in Hx. done.
  - apply Hp in HP. congruence.
Qed.

Lemma dashboard_isUrgent_spec (r : Request) :
  Dashboard.isUrgent r = true
  <-> urgency_level r = "CRITICAL" \/ urgency_level r = "HIGH".
Proof.
  unfold Dashboard.isUrgent, strictEq.
  by rewrite orb_true_iff, !String.eqb_eq.
Qed.

Lemma map_isUrgent_spec (r : Request) :
  MapView.isUrgent r = true
  <-> urgency_level r = "critical" \/ urgency_level r = "high".
Proof.
  unfold MapView.isUrgent, strictEq.
  by rewrite orb_true_iff, !String.eqb_eq.
Qed.

Lemma length_filter_holds (h : gmap MapView.loc MapView.object)
  (p : Request -> bool) (ls : list MapView.loc) :
  length (List.filter (MapView.holds h p) ls)
  = length (List.filter p (omap (MapView.requestAt h) ls)).
Proof.
  induction ls as [|l ls IH]; [done|].
  cbn. unfold MapView.holds at 1.
  destruct (MapView.requestAt h l) as [r|]; [|done].
  cbn. destruct (p r); cbn; by rewrite IH.
Qed.

Lemma updateStatistics_urgent (m : MapView.MapState) :
  MapView.urgentRequests (MapView.page (MapView.updateStatistics m))
  = length (List.filter MapView.isUrgent
              (MapView.requestsOf (MapView.heap m)
                 (MapView.filteredRequests m))).
Proof. apply length_filter_holds. Qed.

Lemma applyFilters_urgent (m : MapView.MapState) :
  MapView.urgentRequests (MapView.page (MapView.applyFilters m))
  = length (List.filter MapView.isUrgent
              (MapView.requestsOf (MapView.heap (MapView.applyFilters m))
                 (MapView.filteredRequests (MapView.applyFilters m)))).
Proof.
  unfold MapView.applyFilters.
  destruct (MapView.alloc _ _) as [a h1].
  apply length_filter_holds.
Qed.

Lemma upper_not_urgent_on_map (r : Request) :
  In (urgency_level r) ["LOW"; "MEDIUM"; "HIGH"; "CRITICAL"] ->
  MapView.isUrgent r = false.
Proof.
  unfold MapView.isUrgent, strictEq.
  intros [<-|[<-|[<-|[<-|[]]]]]; reflexivity.
Qed.

(** C9: the urgent counter of the dashboard is the number of loaded
    requests whose urgency_level is 'CRITICAL' or 'HIGH'; the urgent
    counter of the map is the number of filtered requests whose
    urgency_level is 'critical' or 'high'; so it is 0 whenever the
    urgency levels of the filtered requests are all upper case. *)
Theorem urgent_statistics
  (d : Dashboard.State) (data : Listing) (m : MapView.MapState)
  (Hupper :
     Forall (fun r => In (urgency_level r) ["LOW"; "MEDIUM"; "HIGH"; "CRITICAL"])
       (MapView.requestsOf (MapView.heap m) (MapView.filteredRequests m))) :
  let upper r := urgency_level r = "CRITICAL" \/ urgency_level r = "HIGH" in
  let lower r := urgency_level r = "critical" \/ urgency_level r = "high" in
  Dashboard.urgentCount (Dashboard.page (Dashboard.calculateStatistics d))
  = Dashboard.write (Dashboard.urgentCount (Dashboard.page d))
      (length (filter upper (Dashboard.requests d)))
  /\ Dashboard.urgentCount
       (Dashboard.page (Dashboard.loadRequests d (Response true (Some data))))
     = Dashboard.write (Dashboard.urgentCount (Dashboard.page d))
         (length (filter upper (default [] (requests data))))
  /\ MapView.urgentRequests (MapView.page (MapView.updateStatistics m))
     = length (filter lower
                 (MapView.requestsOf (MapView.heap m)
                    (MapView.filteredRequests m)))
  /\ MapView.urgentRequests (MapView.page (MapView.applyFilters m))
     = length (filter lower
                 (MapView.requestsOf (MapView.heap (MapView.applyFilters m))
                    (MapView.filteredRequests (MapView.applyFilters m))))
  /\ MapView.urgentRequests (MapView.page (MapView.updateStatistics m)) = 0.
Proof.
  intros upper lower.
  split; [|split; [|split; [|split]]].
  - cbn. f_equal. apply length_filter_bool, dashboard_isUrgent_spec.
  - cbn. f_equal. apply length_filter_bool, dashboard_isUrgent_spec.
  - rewrite updateStatistics_urgent.
    apply length_filter_bool, map_isUrgent_spec.
  - rewrite applyFilters_urgent.
    apply length_filter_bool, map_isUrgent_spec.
  - rewrite updateStatistics_urgent.
    induction Hupper as [|r rs Hr _ IH]; [done|].
    cbn. by rewrite (upper_not_urgent_on_map r Hr).
Qed.

Lemma urgent_statistics_witness :
  Forall (fun r => In (urgency_level r) ["LOW"; "MEDIUM"; "HIGH"; "CRITICAL"])
    (MapView.requestsOf (MapView.heap (Samples.loadedMap "" "" ""))
       (MapView.filteredRequests (Samples.loadedMap "" "" "")))
  /\ MapView.urgentRequests
       (MapView.page (MapView.updateStatistics (Samples.loadedMap "" "" "")))
     = 0
  /\ Dashboard.urgentCount (Dashboard.page Samples.loadedDashboard) = Some 2.
Proof.
  assert (Forall
            (fun r => In (urgency_level r) ["LOW"; "MEDIUM"; "HIGH"; "CRITICAL"])
            (MapView.requestsOf (MapView.heap (Samples.loadedMap "" "" ""))
               (MapView.filteredRequests (Samples.loadedMap "" "" ""))))
    as Hupper.
  { vm_compute. repeat constructor; cbn; tauto. }
  split; [exact Hupper|]. split.
  - exact (proj2 (proj2 (proj2 (proj2
             (urgent_statistics Samples.loadedDashboard Samples.listing
                (Samples.loadedMap "" "" "") Hupper))))).
  - vm_compute. reflexivity.
Defined.

(** C10: when the fetch of the listing throws, or the response is not
    ok (or its body cannot be parsed), [loadRequests] leaves
    [requests], [totalPages], [currentPage] and the rest of the
    configuration as they were; it only shows the error message and
    renders the error state in the list container. *)
Theorem loadRequests_failure_keeps_state
  (s : Dashboard.State) (o : FetchOutcome)
  (Hfail : o = NetworkError
           \/ (exists body, o = Response false body)
           \/ o = Response true None) :
  let s' := Dashboard.loadRequests s o in
  Dashboard.requests s' = Dashboard.requests s
  /\ Dashboard.totalPages s' = Dashboard.totalPages s
  /\ Dashboard.currentPage s' = Dashboard.currentPage s
  /\ Dashboard.pageSize s' = Dashboard.pageSize s
  /\ Dashboard.currentFilters s' = Dashboard.currentFilters s
  /\ Dashboard.sortBy s' = Dashboard.sortBy s
  /\ Dashboard.sortOrder s' = Dashboard.sortOrder s
  /\ Dashboard.page s'
     = {| Dashboard.requestsList :=
            Dashboard.write (Dashboard.requestsList (Dashboard.page s))
              Dashboard.ErrorState;
          Dashboard.paginationInfo :=
            Dashboard.paginationInfo (Dashboard.page s);
          Dashboard.pageInfo := Dashboard.pageInfo (Dashboard.page s);
          Dashboard.prevBtn := Dashboard.prevBtn (Dashboard.page s);
          Dashboard.nextBtn := Dashboard.nextBtn (Dashboard.page s);
          Dashboard.pendingCount := Dashboard.pendingCount (Dashboard.page s);
          Dashboard.urgentCount := Dashboard.urgentCount (Dashboard.page s);
          Dashboard.progressCount :=
            Dashboard.progressCount (Dashboard.page s);
          Dashboard.completedCount :=
            Dashboard.completedCount (Dashboard.page s);
          Dashboard.message := Some (Dashboard.LoadFailed, "error") |}.
Proof.
  destruct Hfail as [-> | [[body ->] | ->]]; cbn; by repeat split.
Qed.

Lemma loadRequests_failure_keeps_state_witness :
  (NetworkError = NetworkError
   \/ (exists body, NetworkError = Response false body)
   \/ NetworkError = Response true None)
  /\ map id (Dashboard.requests
               (Dashboard.loadRequests Samples.loadedDashboard NetworkError))
     = [1%Z; 2%Z; 3%Z; 4%Z]
  /\ Dashboard.requestsList
       (Dashboard.page
          (Dashboard.loadRequests Samples.loadedDashboard NetworkError))
     = Some Dashboard.ErrorState.
Proof.
  split; [left; reflexivity|]. split.
  - rewrite (proj1 (loadRequests_failure_keeps_state Samples.loadedDashboard
                      NetworkError (or_introl eq_refl))).
    vm_compute. reflexivity.
  - vm_compute. reflexivity.
Defined.

End DashboardProps.

(** ** The request-intake core *)

Module CoreProps.
Import JS Core.
Local Open Scope string_scope.
Local Open Scope list_scope.

(** *** Pages *)

Lemma ceilDiv_upper (n : nat) (d : positive) :
  n <= ceilDiv n d * Pos.to_nat d.
Proof.
  unfold ceilDiv. pose proof (Pos2Nat.is_pos d) as Hd.
  pose proof (Nat.div_mod (n + (Pos.to_nat d - 1)) (Pos.to_nat d)) as Hdm.
  pose proof (Nat.mod_upper_bound (n + (Pos.to_nat d - 1)) (Pos.to_nat d)) as Hm.
  nia.
Qed.

Lemma ceilDiv_least (n : nat) (d : positive) (k : nat) :
  n <= k * Pos.to_nat d -> ceilDiv n d <= k.
Proof.
  intros Hk. unfold ceilDiv. pose proof (Pos2Nat.is_pos d) as Hd.
  apply Nat.lt_succ_r, Nat.Div0.div_lt_upper_bound. nia.
Qed.

Lemma filter_Permutation_bool {A} (p : A -> bool) (l1 l2 : list A) :
  l1 ≡ₚ l2 -> List.filter p l1 ≡ₚ List.filter p l2.
Proof.
  induction 1 as [|x l1 l2 _ IH|x y l|l1 l2 l3 _ IH1 _ IH2]; cbn.
  - done.
  - destruct (p x); by rewrite IH.
  - destruct (p x), (p y); try done. apply perm_swap.
  - by etrans.
Qed.

Lemma matches_no_filter (c : Config) (store : Store) :
  only_type c = None -> only_urgency c = None -> only_status c = None ->
  List.filter (matches c) store = store.
Proof.
  intros Ht Hu Hs. induction store as [|r store IH]; [done|].
  cbn. unfold matches at 1. rewrite Ht, Hu, Hs. cbn. by rewrite IH.
Qed.

Lemma allows_spec {A} `{EqDecision A} (wanted : option A) (x : A) :
  allows wanted x = true <-> wanted = None \/ wanted = Some x.
Proof.
  destruct wanted as [w|]; cbn.
  - rewrite bool_decide_eq_true. split.
    + intros ->. by right.
    + intros [?|[= ->]]; done.
  - split; [by left|done].
Qed.

(** *** The order of the result *)

Lemma before_total limits c : Total (Before limits c).
Proof.
  intros a b. unfold Before, before.
  destruct (sort_order c);
    rewrite !orb_true_iff, !andb_true_iff, !Z.ltb_lt, !Z.eqb_eq, !Z.leb_le;
    lia.
Qed.

Lemma before_trans limits c : Transitive (Before limits c).
Proof.
  intros x y z. unfold Before, before.
  destruct (sort_order c);
    rewrite !orb_true_iff, !andb_true_iff, !Z.ltb_lt, !Z.eqb_eq, !Z.leb_le;
    lia.
Qed.

(** Two records in order both ways have the same identifier. *)
Lemma before_antisym limits c a b :
  Before limits c a b -> Before limits c b a -> identifier a = identifier b.
Proof.
  unfold Before, before.
  destruct (sort_order c);
    rewrite !orb_true_iff, !andb_true_iff, !Z.ltb_lt, !Z.eqb_eq, !Z.leb_le;
    lia.
Qed.

(** Records with the same sort key are ordered by identifier. *)
Lemma before_tie limits c a b :
  Before limits c a b -> sortKey limits c a = sortKey limits c b ->
  (identifier a <= identifier b)%Z.
Proof.
  unfold Before, before. intros H E. rewrite E in H.
  destruct (sort_order c);
    rewrite !orb_true_iff, !andb_true_iff, !Z.ltb_lt, !Z.eqb_eq, !Z.leb_le in H;
    lia.
Qed.

Lemma unique_identifier (store : Store) (a b : ReliefRequest) :
  NoDup (map identifier store) -> a ∈ store -> b ∈ store ->
  identifier a = identifier b -> a = b.
Proof.
  induction store as [|r store IH]; intros Hnd Ha Hb E.
  - by apply elem_of_nil in Ha.
  - cbn in Hnd. apply NoDup_cons in Hnd as [Hr Hnd].
    apply elem_of_cons in Ha as [->|Ha], Hb as [->|Hb]; try done.
    + exfalso. apply Hr. rewrite E.
      by apply list_elem_of_In, in_map, list_elem_of_In.
    + exfalso. apply Hr. rewrite <- E.
      by apply list_elem_of_In, in_map, list_elem_of_In.
    + by apply IH.
Qed.

Lemma sortedMatching_Permutation limits c store :
  sortedMatching limits c store ≡ₚ List.filter (matches c) store.
Proof. apply merge_sort_Permutation. Qed.

Lemma sortedMatching_sorted limits c store :
  StronglySorted (Before limits c) (sortedMatching limits c store).
Proof.
  apply StronglySorted_merge_sort;
    [apply before_trans | apply before_total].
Qed.

(** The order of the rows in the table does not show in the result
    when identifiers are unique. *)
Lemma sortedMatching_order_independent limits c (store1 store2 : Store) :
  NoDup (map identifier store1) -> store1 ≡ₚ store2 ->
  sortedMatching limits c store1 = sortedMatching limits c store2.
Proof.
  intros Hnd Hperm.
  apply (StronglySorted_unique_strong (Before limits c));
    [|apply sortedMatching_sorted..|].
  - intros x1 x2 H1 H2 H12 H21.
    apply (unique_identifier store1); [done| | |by eapply before_antisym].
    + rewrite sortedMatching_Permutation in H1.
      apply list_elem_of_In, filter_In in H1 as [H1 _].
      by apply list_elem_of_In.
    + rewrite sortedMatching_Permutation in H2.
      apply list_elem_of_In, filter_In in H2 as [H2 _].
      rewrite Hperm. by apply list_elem_of_In.
  - rewrite !sortedMatching_Permutation.
    by apply filter_Permutation_bool.
Qed.

Lemma query_unfold limits c store :
  query limits c store
  = {| requests :=
         take (Pos.to_nat (effectiveSize limits c))
           (drop ((Pos.to_nat (page c) - 1)
                  * Pos.to_nat (effectiveSize limits c))
              (sortedMatching limits c store));
       total := length (List.filter (matches c) store);
       total_pages :=
         ceilDiv (length (List.filter (matches c) store))
           (effectiveSize limits c) |}.
Proof. reflexivity. Qed.

Lemma StronglySorted_take_drop {A} (R : relation A) (l : list A) (n k : nat) :
  StronglySorted R l -> StronglySorted R (take n (drop k l)).
Proof.
  intros Hl. rewrite <- (take_drop k l) in Hl.
  apply StronglySorted_app_1_r in Hl.
  rewrite <- (take_drop n (drop k l)) in Hl.
  by apply StronglySorted_app_1_l in Hl.
Qed.

Lemma StronglySorted_lookup {A} (R : relation A) (l : list A) (i j : nat)
  (a b : A) :
  StronglySorted R l -> l !! i = Some a -> l !! j = Some b -> i < j -> R a b.
Proof.
  intros Hl. revert i j.
  induction Hl as [|x l _ IH Hx]; intros i j Hi Hj Hij; [done|].
  destruct j as [|j]; [lia|]. cbn in Hj.
  destruct i as [|i]; cbn in Hi.
  - injection Hi as ->. rewrite Forall_forall in Hx.
    apply Hx. by eapply list_elem_of_lookup_2.
  - apply (IH i j); [done..|lia].
Qed.

Lemma query_length limits c store :
  length (requests (query limits c store))
  = Nat.min (Pos.to_nat (effectiveSize limits c))
      (total (query limits c store)
       - (Pos.to_nat (page c) - 1) * Pos.to_nat (effectiveSize limits c)).
Proof.
  rewrite query_unfold. cbn [requests total].
  rewrite length_take, length_drop.
  by rewrite (Permutation_length (sortedMatching_Permutation limits c store)).
Qed.

(** C4: for every configuration whose page_size is within the cap, the
    listing returns a page of the matching records with the number of
    matching records and [total_pages = ceil(total / page_size)], the
    least number of pages of that size that hold them all; page 2 with
    page_size 10 over 25 stored records has 10 records, total 25 and
    total_pages 3. *)
Theorem listing_pages
  (limits : Limits) (c : Config) (store : Store)
  (c2 : Config) (records : Store)
  (Hwithin : (page_size c <= max_page_size limits)%positive)
  (H25 : length records = 25)
  (Hpage : page c2 = 2%positive)
  (Hsize : page_size c2 = 10%positive)
  (Hcap : (10 <= max_page_size limits)%positive)
  (Hnone : only_type c2 = None /\ only_urgency c2 = None
           /\ only_status c2 = None) :
  let r := query limits c store in
  let size := Pos.to_nat (page_size c) in
  total r = length (List.filter (matches c) store)
  /\ total_pages r = ((total r + (size - 1)) / size)%nat
  /\ total r <= total_pages r * size
  /\ (forall k, total r <= k * size -> total_pages r <= k)
  /\ length (requests r)
     = Nat.min size (total r - (Pos.to_nat (page c) - 1) * size)
  /\ (forall x, In x (requests r) -> In x store /\ matches c x = true)
  /\ (forall x, matches c x = true
        <-> (only_type c = None
             \/ only_type c = Some (request_type (details x)))
            /\ (only_urgency c = None
                \/ only_urgency c = Some (urgency_level (details x)))
            /\ (only_status c = None \/ only_status c = Some (status x)))
  /\ length (requests (query limits c2 records)) = 10
  /\ total (query limits c2 records) = 25
  /\ total_pages (query limits c2 records) = 3.
Proof.
  intros r size. subst r size.
  assert (effectiveSize limits c = page_size c) as Hc.
  { unfold effectiveSize. lia. }
  split; [done|].
  split; [rewrite query_unfold; cbn [total total_pages]; by rewrite Hc|].
  rewrite <- Hc.
  split; [apply ceilDiv_upper|].
  split; [intros k; apply ceilDiv_least|].
  split; [apply query_length|]. split.
  { intros x Hx. rewrite query_unfold in Hx. cbn [requests] in Hx.
    apply filter_In, list_elem_of_In.
    rewrite <- (sortedMatching_Permutation limits c store).
    apply list_elem_of_In in Hx.
    by eapply subseteq_drop, subseteq_take, Hx. }
  split.
  { intros x. unfold matches.
    rewrite !andb_true_iff, !allows_spec. tauto. }
  destruct Hnone as (Ht & Hu & Hs).
  assert (effectiveSize limits c2 = 10%positive) as Heff.
  { unfold effectiveSize. rewrite Hsize. lia. }
  assert (total (query limits c2 records) = 25) as Htotal.
  { rewrite query_unfold. cbn [total]. by rewrite matches_no_filter. }
  split; [|split; [done|]].
  - rewrite query_length, Htotal, Heff, Hpage. reflexivity.
  - rewrite query_unfold. cbn [total_pages].
    rewrite matches_no_filter, H25, Heff by done. reflexivity.
Qed.

Lemma listing_pages_witness :
  (page_size (Samples.config 2 10) <= max_page_size Samples.limits)%positive
  /\ length Samples.store25 = 25
  /\ (10 <= max_page_size Samples.limits)%positive
  /\ length (requests (query Samples.limits (Samples.config 2 10)
                         Samples.store25)) = 10
  /\ total (query Samples.limits (Samples.config 2 10) Samples.store25) = 25
  /\ total_pages (query Samples.limits (Samples.config 2 10) Samples.store25)
     = 3.
Proof.
  split; [by vm_compute|]. split; [reflexivity|]. split; [by vm_compute|].
  exact (proj2 (proj2 (proj2 (proj2 (proj2 (proj2 (proj2
           (listing_pages Samples.limits (Samples.config 2 10)
              Samples.store25 (Samples.config 2 10) Samples.store25
              ltac:(by vm_compute) eq_refl eq_refl eq_refl
              ltac:(by vm_compute)
              (conj eq_refl (conj eq_refl eq_refl)))))))))).
Defined.

(** C6: query results are deterministic. The listing depends on the
    records and not on the order in which the table holds them; its
    records are in order, records with equal sort keys by ascending
    identifier. On the map, [applyFilters] over the same loaded
    requests with the same selection shows the same requests in the
    same order, also when it is run a second time. *)
Theorem query_deterministic
  (limits : Limits) (c : Config) (store1 store2 : Store)
  (m1 m2 : MapView.MapState)
  (Hids : NoDup (map identifier store1))
  (Hperm : store1 ≡ₚ store2)
  (Hsnapshot :
     MapView.requestsOf (MapView.heap m1) (MapView.allRequests m1)
     = MapView.requestsOf (MapView.heap m2) (MapView.allRequests m2))
  (Hselection :
     MapView.readFilters (MapView.page m1)
     = MapView.readFilters (MapView.page m2))
  (Hall : is_Some (MapView.heap m1 !! MapView.allRequests m1)) :
  query limits c store1 = query limits c store2
  /\ StronglySorted (Before limits c) (requests (query limits c store1))
  /\ (forall i j a b,
        requests (query limits c store1) !! i = Some a ->
        requests (query limits c store1) !! j = Some b ->
        i < j ->
        sortKey limits c a = sortKey limits c b ->
        (identifier a <= identifier b)%Z)
  /\ MapView.shown (MapView.applyFilters m1) = MapView.shown (MapView.applyFilters m2)
  /\ MapView.shown (MapView.applyFilters (MapView.applyFilters m1))
     = MapView.shown (MapView.applyFilters m1).
Proof.
  assert (StronglySorted (Before limits c)
            (requests (query limits c store1))) as Hsorted.
  { rewrite query_unfold. cbn [requests].
    apply StronglySorted_take_drop, sortedMatching_sorted. }
  split.
  { rewrite !query_unfold.
    rewrite (sortedMatching_order_independent limits c store1 store2)
      by done.
    by rewrite (Permutation_length
                  (filter_Permutation_bool (matches c) _ _ Hperm)). }
  split; [done|]. split.
  { intros i j a b Hi Hj Hij Hkey.
    eapply before_tie; [|done].
    by eapply (StronglySorted_lookup _ _ i j). }
  unfold MapView.shown. rewrite !MapProps.applyFilters_shown.
  split; [by rewrite Hsnapshot, Hselection|].
  destruct (MapProps.applyFilters_heap m1) as (_ & _ & _ & _ & _ & _ & ->).
  by rewrite MapProps.applyFilters_all.
Qed.

Lemma query_deterministic_witness :
  NoDup (map identifier Samples.store25)
  /\ Samples.store25 ≡ₚ reverse Samples.store25
  /\ query Samples.limits (Samples.config 2 10) Samples.store25
     = query Samples.limits (Samples.config 2 10) (reverse Samples.store25)
  /\ map identifier
       (requests (query Samples.limits (Samples.config 2 10)
                    (reverse Samples.store25)))
     = [11; 12; 13; 14; 15; 16; 17; 18; 19; 20]%Z.
Proof.
  assert (NoDup (map identifier Samples.store25)) as Hids
    by (apply (bool_decide_unpack _); vm_compute; reflexivity).
  assert (Samples.store25 ≡ₚ reverse Samples.store25) as Hperm
    by (symmetry; apply reverse_Permutation).
  assert (is_Some (MapView.heap (Samples.loadedMap "" "" "")
                     !! MapView.allRequests (Samples.loadedMap "" "" "")))
    as Hall by (vm_compute; eauto).
  split; [exact Hids|]. split; [exact Hperm|]. split.
  - exact (proj1 (query_deterministic Samples.limits (Samples.config 2 10)
                    Samples.store25 (reverse Samples.store25)
                    (Samples.loadedMap "" "" "") (Samples.loadedMap "" "" "")
                    Hids Hperm eq_refl eq_refl Hall)).
  - vm_compute. reflexivity.
Defined.

(** *** The duplicate filter *)

Lemma screen_duplicate policy (history : Store) candidate now r :
  In r history -> duplicates policy now candidate r = true ->
  exists r', In r' history
    /\ duplicates policy now candidate r' = true
    /\ screen policy history candidate now
       = Reject (DuplicateOf (identifier r')).
Proof.
  intros Hin Hdup. unfold screen.
  destruct (List.find _ history) as [r'|] eqn:Hfind.
  - apply find_some in Hfind as [Hin' Hdup']. by exists r'.
  - by rewrite (find_none _ _ Hfind r Hin) in Hdup.
Qed.

Lemma screen_empty policy candidate now :
  screen policy [] candidate now = Accept.
Proof.
  unfold screen. cbn.
  by destruct (rate_limit policy).
Qed.

Lemma duplicates_intro policy now candidate r :
  contact_phone candidate = contact_phone (details r) ->
  near policy (latitude candidate, longitude candidate)
    (latitude (details r), longitude (details r)) = true ->
  (now - window policy <= created_at r <= now)%Z ->
  duplicates policy now candidate r = true.
Proof.
  intros Hphone Hnear Hwin. unfold duplicates, recent, sameContact.
  rewrite Hphone, String.eqb_refl, Hnear.
  rewrite !andb_true_iff, !Z.leb_le. lia.
Qed.

Lemma submit_accepted policy store p now store1 r1 :
  submit policy store p now = inr (store1, r1) ->
  store1 = store ++ [r1] /\ details r1 = p /\ created_at r1 = now
  /\ status r1 = pending /\ identifier r1 = nextIdentifier store.
Proof.
  unfold submit, create.
  destruct (validate p); [done|].
  destruct (screen policy store p now); [|done].
  by intros [= <- <-].
Qed.

(** C5: when a stored request has the phone of the candidate and a
    near-identical position and lies within the duplicate window, the
    filter rejects the candidate as a duplicate of a stored request,
    and the submission of a payload that passes field validation fails
    with DuplicateRejected; in particular the second of two such
    submissions does, after the first was accepted. With an empty
    history the filter accepts, and every valid payload enters the
    store as pending. *)
Theorem duplicate_rejected
  (policy : Policy)
  (store store1 : Store) (first second : Payload) (r1 : ReliefRequest)
  (t1 t2 : Z)
  (history : Store) (r : ReliefRequest) (candidate : Payload) (now : Z)
  (Hfirst : submit policy store first t1 = inr (store1, r1))
  (Hphone : contact_phone second = contact_phone first)
  (Hnear : near policy (latitude second, longitude second)
             (latitude first, longitude first) = true)
  (Hwindow : (t1 <= t2 <= t1 + window policy)%Z)
  (Hstored : In r history)
  (Hsame : contact_phone candidate = contact_phone (details r))
  (Hclose : near policy (latitude candidate, longitude candidate)
              (latitude (details r), longitude (details r)) = true)
  (Hrecent : (now - window policy <= created_at r <= now)%Z) :
  (exists id,
     screen policy store1 second t2 = Reject (DuplicateOf id)
     /\ In id (map identifier store1)
     /\ (validate second = None ->
         submit policy store1 second t2
         = inl (DuplicateRejected (DuplicateOf id))))
  /\ (exists id,
        screen policy history candidate now = Reject (DuplicateOf id)
        /\ In id (map identifier history)
        /\ (validate candidate = None ->
            submit policy history candidate now
            = inl (DuplicateRejected (DuplicateOf id))))
  /\ (forall p t, screen policy [] p t = Accept)
  /\ (forall p t, validate p = None ->
        exists r0,
          submit policy [] p t = inr ([r0], r0)
          /\ status r0 = pending /\ details r0 = p).
Proof.
  apply submit_accepted in Hfirst as (-> & Hd & Hc & _ & _).
  split; [|split; [|split]].
  - destruct (screen_duplicate policy (store ++ [r1]) second t2 r1)
      as (r' & Hin & _ & Hscreen).
    { apply in_app_iff. right. by left. }
    { apply duplicates_intro; rewrite ?Hd, ?Hc; done || lia. }
    exists (identifier r'). split; [done|]. split; [by apply in_map|].
    intros Hvalid. unfold submit. by rewrite Hvalid, Hscreen.
  - destruct (screen_duplicate policy history candidate now r Hstored)
      as (r' & Hin & _ & Hscreen).
    { by apply duplicates_intro. }
    exists (identifier r'). split; [done|]. split; [by apply in_map|].
    intros Hvalid. unfold submit. by rewrite Hvalid, Hscreen.
  - intros p t. apply screen_empty.
  - intros p t Hvalid. unfold submit, create.
    rewrite Hvalid, screen_empty. by eexists.
Qed.

Lemma duplicate_rejected_witness :
  submit Samples.policy [] (Samples.payload "+91-9999999999" 19 72) 0
  = inr ([Samples.accepted], Samples.accepted)
  /\ validate (Samples.payload "+91-9999999999" 19 72) = None
  /\ near Samples.policy (ofZ 19, ofZ 72) (ofZ 19, ofZ 72) = true
  /\ submit Samples.policy [Samples.accepted]
       (Samples.payload "+91-9999999999" 19 72) 60
     = inl (DuplicateRejected (DuplicateOf 1)).
Proof.
  split; [by vm_compute|]. split; [by vm_compute|].
  split; [by vm_compute|].
  destruct (proj1 (duplicate_rejected Samples.policy
              [] [Samples.accepted]
              (Samples.payload "+91-9999999999" 19 72)
              (Samples.payload "+91-9999999999" 19 72)
              Samples.accepted 0 60
              [Samples.accepted] Samples.accepted
              (Samples.payload "+91-9999999999" 19 72) 60
              ltac:(by vm_compute) eq_refl ltac:(by vm_compute)
              ltac:(by vm_compute)
              (or_introl eq_refl) eq_refl ltac:(by vm_compute)
              ltac:(by vm_compute)))
    as (id & _ & [<- | []] & Hsubmit).
  apply Hsubmit. by vm_compute.
Defined.

(** *** The lifecycle *)

Lemma get_inr (store : Store) (i : Z) (r : ReliefRequest) :
  get store i = inr r
  <-> List.find (fun x => identifier x =? i)%Z store = Some r.
Proof.
  unfold get. destruct (List.find _ store); split; congruence.
Qed.

Lemma get_identifier (store : Store) (i : Z) (r : ReliefRequest) :
  get store i = inr r -> identifier r = i.
Proof.
  rewrite get_inr. intros H. apply find_some in H as [_ H]. lia.
Qed.

(** Replacing a record by one with the same identifier keeps every
    identifier findable, with the new record in place of the old. *)
Lemma find_replace (store : Store) (r' : ReliefRequest) (i : Z) :
  List.find (fun x => identifier x =? i)%Z (replace store r')
  = (fun x => if (identifier x =? identifier r')%Z then r' else x)
      <$> List.find (fun x => identifier x =? i)%Z store.
Proof.
  induction store as [|x store IH]; [done|].
  cbn. destruct (identifier x =? identifier r')%Z eqn:E.
  - assert ((identifier r' =? i)%Z = (identifier x =? i)%Z) as ->
      by (apply Z.eqb_eq in E; by rewrite E).
    destruct (identifier x =? i)%Z; [cbn|done]. by rewrite E.
  - destruct (identifier x =? i)%Z; [cbn|done]. by rewrite E.
Qed.

Lemma find_app_l {A} (f : A -> bool) (l1 l2 : list A) (x : A) :
  List.find f l1 = Some x -> List.find f (l1 ++ l2) = Some x.
Proof.
  induction l1 as [|y l1 IH]; [done|].
  cbn. by destruct (f y).
Qed.

Lemma assign_inr store id name contact now store' :
  assign store id name contact now = inr store' ->
  exists r0 r1,
    get store id = inr r0 /\ status r0 = pending
    /\ get store' id = inr r1 /\ status r1 = in_progress
    /\ store' = replace store r1 /\ identifier r1 = id.
Proof.
  unfold assign. destruct (get store id) as [e|r0] eqn:Hget; [done|].
  destruct (status r0) eqn:Hst; try done. intros [= <-].
  pose proof (get_identifier _ _ _ Hget) as Hid.
  eexists r0, _. split; [done|]. split; [done|].
  split.
  { apply get_inr. rewrite find_replace.
    apply get_inr in Hget. rewrite Hget. cbn. by rewrite Z.eqb_refl. }
  split; [reflexivity|]. split; [reflexivity|exact Hid].
Qed.

Lemma complete_inr store id now store' :
  complete store id now = inr store' ->
  exists r0 r1,
    get store id = inr r0 /\ status r0 = in_progress
    /\ get store' id = inr r1 /\ status r1 = completed
    /\ store' = replace store r1 /\ identifier r1 = id.
Proof.
  unfold complete. destruct (get store id) as [e|r0] eqn:Hget; [done|].
  destruct (status r0) eqn:Hst; try done. intros [= <-].
  pose proof (get_identifier _ _ _ Hget) as Hid.
  eexists r0, _. split; [done|]. split; [done|].
  split.
  { apply get_inr. rewrite find_replace.
    apply get_inr in Hget. rewrite Hget. cbn. by rewrite Z.eqb_refl. }
  split; [reflexivity|]. split; [reflexivity|exact Hid].
Qed.

(** A mutation keeps every record and never moves its status back. *)
Lemma apply_forward store op now i r :
  get store i = inr r ->
  exists r', get (apply store op now) i = inr r'
    /\ (stage (status r) <= stage (status r'))%Z.
Proof.
  intros Hget. destruct op as [p|id name contact|id]; cbn.
  - unfold create. destruct (validate p); [by exists r|].
    exists r. split; [|done]. apply get_inr, find_app_l. by apply get_inr.
  - destruct (assign store id name contact now) as [e|store'] eqn:Ha;
      [by exists r|].
    apply assign_inr in Ha as (r0 & r1 & H0 & Hs0 & H1 & Hs1 & -> & Hid).
    destruct (decide (i = id)) as [->|Hne].
    + exists r1. split; [done|].
      assert (r = r0) as -> by congruence. by rewrite Hs0, Hs1.
    + exists r. split; [|done]. apply get_inr. rewrite find_replace.
      apply get_inr in Hget. rewrite Hget. cbn.
      pose proof (get_identifier _ _ _ (proj2 (get_inr _ _ _) Hget)).
      destruct (Z.eqb_spec (identifier r) (identifier r1)); [lia|done].
  - destruct (complete store id now) as [e|store'] eqn:Ha; [by exists r|].
    apply complete_inr in Ha as (r0 & r1 & H0 & Hs0 & H1 & Hs1 & -> & Hid).
    destruct (decide (i = id)) as [->|Hne].
    + exists r1. split; [done|].
      assert (r = r0) as -> by congruence. by rewrite Hs0, Hs1.
    + exists r. split; [|done]. apply get_inr. rewrite find_replace.
      apply get_inr in Hget. rewrite Hget. cbn.
      pose proof (get_identifier _ _ _ (proj2 (get_inr _ _ _) Hget)).
      destruct (Z.eqb_spec (identifier r) (identifier r1)); [lia|done].
Qed.

Lemma run_forward (ops : list (Operation * Z)) :
  forall store i r,
    get store i = inr r ->
    exists r', get (run store ops) i = inr r'
      /\ (stage (status r) <= stage (status r'))%Z.
Proof.
  induction ops as [|[op now] ops IH]; intros store i r Hget.
  - by exists r.
  - destruct (apply_forward store op now i r Hget) as (r1 & H1 & Hle1).
    destruct (IH _ _ _ H1) as (r2 & H2 & Hle2).
    exists r2. split; [exact H2|lia].
Qed.

(** *** The buttons *)

Lemma card_assign_iff (q : Api.Request) (k : Z) :
  In (Api.Assign k) (Dashboard.card_actions (Dashboard.createRequestCard q))
  <-> k = Api.id q /\ toLowerCase (Api.status q) = "pending".
Proof.
  unfold Dashboard.createRequestCard, strictEq. cbn.
  rewrite <- String.eqb_eq.
  destruct (toLowerCase (Api.status q) =? "pending")%string,
    (toLowerCase (Api.status q) =? "in_progress")%string; cbn;
    intuition congruence.
Qed.

Lemma card_complete_iff (q : Api.Request) (k : Z) :
  In (Api.Complete k) (Dashboard.card_actions (Dashboard.createRequestCard q))
  <-> k = Api.id q /\ toLowerCase (Api.status q) = "in_progress".
Proof.
  unfold Dashboard.createRequestCard, strictEq. cbn.
  rewrite <- String.eqb_eq.
  destruct (toLowerCase (Api.status q) =? "pending")%string,
    (toLowerCase (Api.status q) =? "in_progress")%string; cbn;
    intuition congruence.
Qed.

Lemma popup_assign_iff (q : Api.Request) (k : Z) :
  In (Api.Assign k) (MapView.popup_actions (MapView.createPopupContent q))
  <-> k = Api.id q /\ Api.status q = "pending".
Proof.
  unfold MapView.createPopupContent, strictEq. cbn.
  rewrite <- String.eqb_eq.
  destruct (Api.status q =? "pending")%string; cbn; intuition congruence.
Qed.

Lemma popup_no_complete (q : Api.Request) (k : Z) :
  ~ In (Api.Complete k) (MapView.popup_actions (MapView.createPopupContent q)).
Proof.
  unfold MapView.createPopupContent, strictEq. cbn.
  destruct (Api.status q =? "pending")%string; cbn; intuition congruence.
Qed.

(** On the three statuses of the data model [toLowerCase] changes
    nothing. *)
Lemma status_lower (s : string) :
  In s ["pending"; "in_progress"; "completed"] ->
  forall wanted, In wanted ["pending"; "in_progress"] ->
    toLowerCase s = wanted <-> s = wanted.
Proof.
  intros [<-|[<-|[<-|[]]]] wanted [<-|[<-|[]]]; cbn; done.
Qed.

(** A string of the request that begins with the markup of a button
    for an action puts that button on the card, whatever the status of
    the request. *)
Lemma card_offers_inserted (q : Api.Request) (a : Api.Action)
  (call label rest : string) :
  Dashboard.callOf a = Some call ->
  Api.title q = String.append (Api.buttonMarkup call label) rest ->
  Dashboard.offers (Dashboard.createRequestCard q) a.
Proof.
  intros Hcall Htitle. eapply Api.offered_by_insertion; [exact Hcall|].
  cbn [Dashboard.createRequestCard Dashboard.card_inserted].
  rewrite <- Htitle. apply in_or_app. left. by left.
Qed.

Lemma popup_offers_inserted (q : Api.Request) (a : Api.Action)
  (call label rest : string) :
  MapView.callOf a = Some call ->
  Api.title q = String.append (Api.buttonMarkup call label) rest ->
  MapView.offers (MapView.createPopupContent q) a.
Proof.
  intros Hcall Htitle. eapply Api.offered_by_insertion; [exact Hcall|].
  cbn [MapView.createPopupContent MapView.popup_inserted].
  rewrite <- Htitle. apply in_or_app. left. by left.
Qed.

(** C2: the status of a request only moves forward along pending,
    in_progress, completed. In the store, assign succeeds only on a
    pending request and makes it in_progress, complete succeeds only
    on an in_progress request and makes it completed, either fails
    with InvalidTransitionError on a request in another status, and no
    history of mutations moves a status back. The action block of the
    template of the dashboard card has the Assign button exactly when
    the status is pending and the Mark Complete button exactly when it
    is in_progress; the action block of the popup of the map has Assign
    exactly when the status is pending and never completion (the card
    compares the status after [toLowerCase], the popup as it is). But
    the action is not offered only there: the template inserts the
    title of the request into the HTML as it is, so a request in any
    status whose title begins with the markup of a button puts that
    button on its card or popup. A pending request can so offer Mark
    Complete on the dashboard, and a request that is not pending can
    offer Assign on the dashboard and on the map, outside the action
    block. *)
Theorem status_moves_forward
  (store store' : Store) (id : Z) (name contact : string) (now : Z)
  (store2 store2' : Store) (id2 now2 : Z)
  (store3 : Store) (ops : list (Operation * Z)) (i : Z) (r : ReliefRequest)
  (q : Api.Request)
  (Hassign : assign store id name contact now = inr store')
  (Hcomplete : complete store2 id2 now2 = inr store2')
  (Hget : get store3 i = inr r)
  (Hstatus : In (Api.status q) ["pending"; "in_progress"; "completed"]) :
  (exists r0 r1,
     get store id = inr r0 /\ status r0 = pending
     /\ get store' id = inr r1 /\ status r1 = in_progress)
  /\ (exists r0 r1,
        get store2 id2 = inr r0 /\ status r0 = in_progress
        /\ get store2' id2 = inr r1 /\ status r1 = completed)
  /\ (exists r',
        get (run store3 ops) i = inr r'
        /\ (stage (status r) <= stage (status r'))%Z)
  /\ (forall who phone time,
        status r <> pending ->
        assign store3 i who phone time
        = inl (InvalidTransitionError i (status r)))
  /\ (forall time,
        status r <> in_progress ->
        complete store3 i time = inl (InvalidTransitionError i (status r)))
  /\ (forall k,
        In (Api.Assign k)
          (Dashboard.card_actions (Dashboard.createRequestCard q))
        <-> k = Api.id q /\ Api.status q = "pending")
  /\ (forall k,
        In (Api.Complete k)
          (Dashboard.card_actions (Dashboard.createRequestCard q))
        <-> k = Api.id q /\ Api.status q = "in_progress")
  /\ (forall k,
        In (Api.Assign k)
          (MapView.popup_actions (MapView.createPopupContent q))
        <-> k = Api.id q /\ Api.status q = "pending")
  /\ (forall k,
        ~ In (Api.Complete k)
            (MapView.popup_actions (MapView.createPopupContent q)))
  /\ (forall (q' : Api.Request) k,
        (In (Api.Assign k)
           (Dashboard.card_actions (Dashboard.createRequestCard q'))
         <-> k = Api.id q' /\ toLowerCase (Api.status q') = "pending")
        /\ (In (Api.Complete k)
              (Dashboard.card_actions (Dashboard.createRequestCard q'))
            <-> k = Api.id q'
                /\ toLowerCase (Api.status q') = "in_progress"))
  /\ (forall (q' : Api.Request) k label rest,
        Api.status q' = "pending" ->
        Api.title q'
        = String.append
            (Api.buttonMarkup
               (String.append "window.dashboard.completeRequest("
                  (String.append (pretty k) ")")) label) rest ->
        Dashboard.offers (Dashboard.createRequestCard q') (Api.Complete k)
        /\ ~ In (Api.Complete k)
               (Dashboard.card_actions (Dashboard.createRequestCard q')))
  /\ (forall (q' : Api.Request) k label rest,
        Api.status q' <> "pending" ->
        Api.title q'
        = String.append
            (Api.buttonMarkup
               (String.append "window.disasterMap.showAssignmentForm("
                  (String.append (pretty k) ")")) label) rest ->
        MapView.offers (MapView.createPopupContent q') (Api.Assign k)
        /\ ~ In (Api.Assign k)
               (MapView.popup_actions (MapView.createPopupContent q')))
  /\ (forall (q' : Api.Request) (a : Api.Action) call label rest,
        Api.title q' = String.append (Api.buttonMarkup call label) rest ->
        (Dashboard.callOf a = Some call ->
         Dashboard.offers (Dashboard.createRequestCard q') a)
        /\ (MapView.callOf a = Some call ->
            MapView.offers (MapView.createPopupContent q') a)).
Proof.
  split.
  { apply assign_inr in Hassign
      as (r0 & r1 & H0 & Hs0 & H1 & Hs1 & _). by exists r0, r1. }
  split.
  { apply complete_inr in Hcomplete
      as (r0 & r1 & H0 & Hs0 & H1 & Hs1 & _). by exists r0, r1. }
  split; [by apply run_forward|].
  split.
  { intros who phone time Hne. unfold assign. rewrite Hget.
    by destruct (status r). }
  split.
  { intros time Hne. unfold complete. rewrite Hget. by destruct (status r). }
  split.
  { intros k. rewrite card_assign_iff, (status_lower _ Hstatus); [done|].
    by left. }
  split.
  { intros k. rewrite card_complete_iff, (status_lower _ Hstatus); [done|].
    right. by left. }
  split; [apply popup_assign_iff|].
  split; [apply popup_no_complete|].
  split.
  { intros q' k. split; [apply card_assign_iff|apply card_complete_iff]. }
  split.
  { intros q' k label rest Hpending Htitle. split.
    - by eapply card_offers_inserted.
    - rewrite card_complete_iff, Hpending. by intros [_ H]. }
  split.
  { intros q' k label rest Hpending Htitle. split.
    - by eapply popup_offers_inserted.
    - rewrite popup_assign_iff. by intros [_ H]. }
  intros q' a call label rest Htitle. split; intros Hcall.
  - by eapply card_offers_inserted.
  - by eapply popup_offers_inserted.
Qed.

Lemma status_moves_forward_witness :
  assign [Samples.accepted] 1 "NGO A" "+91-8888888888" 10
  = inr [Samples.inProgress]
  /\ complete [Samples.inProgress] 1 20 = inr [Samples.done]
  /\ get [Samples.accepted] 1 = inr Samples.accepted
  /\ In (Api.status (Samples.request 1 "FOOD" "HIGH" "pending"))
       ["pending"; "in_progress"; "completed"]
  /\ (exists r',
        get (run [Samples.accepted]
               [(AssignTo 1 "NGO A" "+91-8888888888", 10%Z);
                (CompleteIt 1, 20%Z); (CompleteIt 1, 30%Z)]) 1 = inr r'
        /\ (stage (status Samples.accepted) <= stage (status r'))%Z)
  /\ Api.status
       (Samples.markupRequest 1 "pending" "window.dashboard.completeRequest(1)")
     = "pending"
  /\ Dashboard.offers
       (Dashboard.createRequestCard
          (Samples.markupRequest 1 "pending"
             "window.dashboard.completeRequest(1)"))
       (Api.Complete 1).
Proof.
  split; [by vm_compute|]. split; [by vm_compute|].
  split; [by vm_compute|]. split; [by left|].
  pose proof (status_moves_forward
                [Samples.accepted] [Samples.inProgress] 1
                "NGO A" "+91-8888888888" 10
                [Samples.inProgress] [Samples.done] 1 20
                [Samples.accepted]
                [(AssignTo 1 "NGO A" "+91-8888888888", 10%Z);
                 (CompleteIt 1, 20%Z); (CompleteIt 1, 30%Z)]
                1 Samples.accepted
                (Samples.request 1 "FOOD" "HIGH" "pending")
                ltac:(by vm_compute) ltac:(by vm_compute)
                ltac:(by vm_compute) (or_introl eq_refl))
    as (_ & _ & Hrun & _ & _ & _ & _ & _ & _ & _ & Hcard & _).
  split; [exact Hrun|]. split; [reflexivity|].
  exact (proj1 (Hcard
                  (Samples.markupRequest 1 "pending"
                     "window.dashboard.completeRequest(1)")
                  1%Z "Mark Complete" "" eq_refl
                  ltac:(vm_compute; reflexivity))).
Defined.

End CoreProps.

(** ** The patterns and helpers of the request form *)

Module FormAssistProps.
Import JS Form FormAssist.
Local Open Scope string_scope.

Lemma append_cons (c : ascii) (a b : string) :
  String c a ++ b = String c (a ++ b).
Proof. reflexivity. Qed.

Lemma append_nil_l (s : string) : "" ++ s = s.
Proof. reflexivity. Qed.

Lemma append_nil_r (s : string) : s ++ "" = s.
Proof.
  induction s as [|c s IH]; [done|]. by rewrite append_cons, IH.
Qed.

Lemma append_assoc (a b c : string) : (a ++ b) ++ c = a ++ (b ++ c).
Proof.
  induction a as [|x a IH]; [done|]. by rewrite !append_cons, IH.
Qed.

Lemma length_append (a b : string) :
  String.length (a ++ b) = (String.length a + String.length b)%nat.
Proof.
  induction a as [|x a IH]; [done|]. rewrite append_cons. cbn. by rewrite IH.
Qed.

Lemma allChars_append (p : ascii -> bool) (a b : string) :
  allChars p (a ++ b) = allChars p a && allChars p b.
Proof.
  induction a as [|x a IH]; [done|].
  rewrite append_cons. cbn. rewrite IH. by destruct (p x).
Qed.

(** *** What [test] accepts, by the shape of the pattern *)

Lemma test_none (s : string) : test RNone s = false.
Proof. induction s as [|c s IH]; [done|]. exact IH. Qed.

Lemma test_eps (s : string) : test REps s = true <-> s = "".
Proof.
  destruct s as [|c s]; [done|]. cbn. rewrite test_none. by split.
Qed.

Lemma test_alt (a b : regex) (s : string) :
  test (RAlt a b) s = test a s || test b s.
Proof.
  revert a b. induction s as [|c s IH]; intros a b; [done|]. cbn. apply IH.
Qed.

Lemma test_class (p : ascii -> bool) (s : string) :
  test (RClass p) s = true <-> exists c, s = String c "" /\ p c = true.
Proof.
  destruct s as [|c s]; cbn.
  - split; [done|]. by intros (c & ? & _).
  - destruct (p c) eqn:Hp.
    + rewrite test_eps. split.
      * intros ->. by exists c.
      * by intros (c' & [= -> ->] & _).
    + rewrite test_none. split; [done|].
      intros (c' & [= -> ->] & ?). congruence.
Qed.

(** A sequence matches the strings that split into a match of each
    part. *)
Lemma test_seq (a b : regex) (s : string) :
  test (RSeq a b) s = true
  <-> exists s1 s2, s = s1 ++ s2 /\ test a s1 = true /\ test b s2 = true.
Proof.
  revert a. induction s as [|c s IH]; intros a.
  - cbn. rewrite andb_true_iff. split.
    + intros [Ha Hb]. by exists "", "".
    + intros (s1 & s2 & E & Ha & Hb).
      destruct s1 as [|c1 s1]; [|by rewrite append_cons in E].
      rewrite append_nil_l in E. by subst s2.
  - cbn [test deriv]. destruct (nullable a) eqn:Hn.
    + rewrite test_alt, orb_true_iff, IH. split.
      * intros [(s1 & s2 & -> & Ha & Hb) | Hb].
        -- by exists (String c s1), s2.
        -- by exists "", (String c s).
      * intros (s1 & s2 & E & Ha & Hb). destruct s1 as [|c1 s1].
        -- rewrite append_nil_l in E. subst s2. by right.
        -- rewrite append_cons in E. injection E as <- ->.
           left. by exists s1, s2.
    + rewrite IH. split.
      * intros (s1 & s2 & -> & Ha & Hb). by exists (String c s1), s2.
      * intros (s1 & s2 & E & Ha & Hb). destruct s1 as [|c1 s1].
        -- cbn in Ha. congruence.
        -- rewrite append_cons in E. injection E as <- ->.
           by exists s1, s2.
Qed.

Lemma test_star_class (p : ascii -> bool) (s : string) :
  test (RStar (RClass p)) s = true <-> allChars p s = true.
Proof.
  induction s as [|c s IH]; [done|].
  cbn [test deriv allChars]. rewrite test_seq, andb_true_iff. split.
  - intros (s1 & s2 & -> & H1 & H2). destruct (p c); [|by rewrite test_none in H1].
    apply test_eps in H1 as ->. split; [done|]. by apply IH.
  - intros [Hp Hs]. rewrite Hp. exists "", s. split; [done|].
    split; [done|]. by apply IH.
Qed.

Lemma test_plus_class (p : ascii -> bool) (s : string) :
  test (RPlus (RClass p)) s = true <-> s <> "" /\ allChars p s = true.
Proof.
  unfold RPlus. rewrite test_seq. split.
  - intros (s1 & s2 & -> & H1 & H2).
    apply test_class in H1 as (c & -> & Hc).
    apply test_star_class in H2. rewrite append_cons, append_nil_l.
    cbn. by rewrite Hc.
  - intros [Hne Hall]. destruct s as [|c s]; [done|].
    cbn in Hall. apply andb_true_iff in Hall as [Hc Hs].
    exists (String c ""), s. split; [done|]. split.
    + apply test_class. by exists c.
    + by apply test_star_class.
Qed.

(** A bounded repetition of a class matches the strings of the class
    whose length is within the bounds. *)
Lemma test_rep_class (p : ascii -> bool) (s : string) :
  forall lo hi,
    test (RRep lo hi (RClass p)) s = true
    <-> (lo <= String.length s <= hi)%nat /\ allChars p s = true.
Proof.
  induction s as [|c s IH]; intros lo hi.
  - cbn. rewrite orb_false_r, Nat.eqb_eq. split; [intros ->|]; lia.
  - cbn [test deriv]. destruct hi as [|hi].
    + rewrite test_none. cbn. split; [done|lia].
    + rewrite test_seq. cbn [allChars String.length].
      rewrite andb_true_iff. split.
      * intros (s1 & s2 & -> & H1 & H2).
        destruct (p c); [|by rewrite test_none in H1].
        apply test_eps in H1 as ->. cbn in *.
        apply IH in H2 as [Hlen Hs]. split; [lia|done].
      * intros [Hlen [Hc Hs]]. rewrite Hc. exists "", s.
        split; [done|]. split; [done|]. apply IH. split; [lia|done].
Qed.

(** *** The phone and email patterns *)

(** X1: [isValidPhoneNumber] accepts exactly an optional [+] followed
    by 10 to 20 characters that are digits, hyphens, blanks or round
    brackets. *)
Theorem phone_numbers_accepted (phone : string) :
  isValidPhoneNumber phone = true
  <-> exists body,
        (phone = body \/ phone = "+" ++ body)
        /\ (10 <= String.length body <= 20)%nat
        /\ allChars phoneBodyChar body = true.
Proof.
  unfold isValidPhoneNumber, phoneRegex, ROpt. rewrite test_seq. split.
  - intros (s1 & s2 & -> & H1 & H2).
    apply test_rep_class in H2 as [Hlen Hall].
    rewrite test_alt, orb_true_iff, test_eps, test_class in H1.
    exists s2. split; [|done].
    destruct H1 as [-> | (c & -> & Hc)]; [by left|right].
    unfold charIs in Hc. apply Ascii.eqb_eq in Hc. by subst c.
  - intros (body & Hphone & Hlen & Hall).
    destruct Hphone as [-> | ->].
    + exists "", body. split; [done|]. split; [done|].
      by apply test_rep_class.
    + exists "+", body. split; [done|]. split; [done|].
      by apply test_rep_class.
Qed.

(** X2: [isValidEmail] accepts exactly the strings [a@b.c] where [a],
    [b] and [c] are not empty and hold neither a blank nor an [@]. *)
Theorem email_addresses_accepted (email : string) :
  isValidEmail email = true
  <-> exists a b c,
        email = a ++ "@" ++ b ++ "." ++ c
        /\ a <> "" /\ b <> "" /\ c <> ""
        /\ allChars emailChar a = true
        /\ allChars emailChar b = true
        /\ allChars emailChar c = true.
Proof.
  unfold isValidEmail, emailRegex. cbv zeta. rewrite test_seq. split.
  - intros (a & r1 & -> & Ha & H1).
    apply test_seq in H1 as (at_ & r2 & -> & Hat & H2).
    apply test_seq in H2 as (b & r3 & -> & Hb & H3).
    apply test_seq in H3 as (dot & c & -> & Hdot & Hc).
    apply test_plus_class in Ha as [Ha1 Ha2], Hb as [Hb1 Hb2], Hc as [Hc1 Hc2].
    apply test_class in Hat as (x & -> & Hx), Hdot as (y & -> & Hy).
    unfold charIs in Hx, Hy. apply Ascii.eqb_eq in Hx, Hy. subst x y.
    by exists a, b, c.
  - intros (a & b & c & -> & Ha & Hb & Hc & Ha' & Hb' & Hc').
    exists a, ("@" ++ b ++ "." ++ c). split; [done|].
    split; [by apply test_plus_class|].
    apply test_seq. exists "@", (b ++ "." ++ c). split; [done|].
    split; [apply test_class; by exists "@"%char|].
    apply test_seq. exists b, ("." ++ c). split; [done|].
    split; [by apply (test_plus_class (fun c => negb (isWhiteSpace c || charIs "@" c)))|].
    apply test_seq. exists ".", c. split; [done|].
    split; [apply test_class; by exists "."%char|].
    by apply (test_plus_class (fun c => negb (isWhiteSpace c || charIs "@" c))).
Qed.

(** *** formatPhoneNumber *)

Lemma allChars_keepChars (p : ascii -> bool) (s : string) :
  allChars p (keepChars p s) = true.
Proof.
  induction s as [|c s IH]; [done|].
  cbn. destruct (p c) eqn:Hp; [|done]. cbn. by rewrite Hp.
Qed.

Lemma keepChars_id (p : ascii -> bool) (s : string) :
  allChars p s = true -> keepChars p s = s.
Proof.
  induction s as [|c s IH]; [done|].
  cbn. destruct (p c); [|done]. cbn. intros H. by rewrite IH.
Qed.

Lemma allChars_weaken (p q : ascii -> bool) (s : string) :
  (forall c, p c = true -> q c = true) ->
  allChars p s = true -> allChars q s = true.
Proof.
  intros Hpq. induction s as [|c s IH]; [done|].
  cbn. rewrite !andb_true_iff. intros [Hc Hs]. split; auto.
Qed.

Lemma digit_phoneInputChar (c : ascii) :
  isDigit c = true -> phoneInputChar c = true.
Proof. unfold phoneInputChar. by intros ->. Qed.

Lemma digit_phoneBodyChar (c : ascii) :
  isDigit c = true -> phoneBodyChar c = true.
Proof. unfold phoneBodyChar. by intros ->. Qed.

(** X3: the value [formatPhoneNumber] leaves in the input holds only
    digits, [+], round brackets, hyphens and blanks, and formatting it
    again changes nothing. *)
Theorem formatPhoneNumber_idempotent (inputValue : string) :
  allChars phoneInputChar (formatPhoneNumber inputValue) = true
  /\ formatPhoneNumber (formatPhoneNumber inputValue)
     = formatPhoneNumber inputValue.
Proof.
  unfold formatPhoneNumber. cbv zeta.
  pose proof (allChars_keepChars phoneInputChar inputValue) as Hkept.
  destruct (test tenDigits (keepChars phoneInputChar inputValue)) eqn:Hten.
  - assert (allChars phoneInputChar
              ("+91-" ++ keepChars phoneInputChar inputValue) = true) as Hall.
    { rewrite allChars_append, Hkept. reflexivity. }
    split; [done|]. rewrite (keepChars_id _ _ Hall).
    apply test_rep_class in Hten as [Hlen _].
    destruct (test tenDigits _) eqn:Hagain; [|done].
    apply test_rep_class in Hagain as [Hlen' _].
    rewrite length_append in Hlen'. cbn in Hlen'. lia.
  - split; [done|]. by rewrite (keepChars_id _ _ Hkept), Hten.
Qed.

(** X4: when what is left of the input after the characters that
    are not allowed are removed is ten digits, the input gets these
    digits with the prefix [+91-], and the result is a phone number
    [isValidPhoneNumber] accepts. *)
Theorem formatPhoneNumber_ten_digits (inputValue : string)
  (Hdigits : allChars isDigit (keepChars phoneInputChar inputValue) = true)
  (Hten : String.length (keepChars phoneInputChar inputValue) = 10) :
  formatPhoneNumber inputValue = "+91-" ++ keepChars phoneInputChar inputValue
  /\ isValidPhoneNumber (formatPhoneNumber inputValue) = true.
Proof.
  set (digits := keepChars phoneInputChar inputValue) in *.
  assert (formatPhoneNumber inputValue = "+91-" ++ digits) as ->.
  { unfold formatPhoneNumber. cbv zeta. fold digits.
    assert (test tenDigits digits = true) as ->; [|done].
    apply test_rep_class. split; [lia|done]. }
  split; [done|].
  unfold isValidPhoneNumber, phoneRegex, ROpt. rewrite test_seq.
  exists "+", ("91-" ++ digits). split; [done|]. split; [done|].
  apply test_rep_class.
  rewrite length_append, allChars_append, Hten. split; [cbn; lia|].
  change (allChars phoneBodyChar "91-" && allChars phoneBodyChar digits
          = true).
  rewrite (allChars_weaken isDigit _ digits digit_phoneBodyChar Hdigits).
  reflexivity.
Qed.

Lemma formatPhoneNumber_ten_digits_witness :
  allChars isDigit (keepChars phoneInputChar "98*76,54.32/10") = true
  /\ String.length (keepChars phoneInputChar "98*76,54.32/10") = 10
  /\ formatPhoneNumber "98*76,54.32/10" = "+91-9876543210".
Proof.
  split; [reflexivity|]. split; [reflexivity|].
  exact (proj1 (formatPhoneNumber_ten_digits "98*76,54.32/10"
                  eq_refl eq_refl)).
Defined.

(** *** Blanks around a number *)

Lemma trimEnd_cons (c : ascii) (s : string) :
  trimEnd (String c s)
  = if isWhiteSpace c && negb (truthyString (trimEnd s)) then ""
    else String c (trimEnd s).
Proof. cbn. by destruct (trimEnd s), (isWhiteSpace c). Qed.

Lemma trimEnd_cons_keep (c : ascii) (s : string) :
  isWhiteSpace c = false -> trimEnd (String c s) = String c (trimEnd s).
Proof. intros Hc. by rewrite trimEnd_cons, Hc. Qed.

(** What is left of a string that starts with [c] is empty or starts
    with [c]. *)
Lemma trimEnd_head (c : ascii) (s : string) :
  trimEnd (String c s) = ""
  \/ trimEnd (String c s) = String c (trimEnd s).
Proof. rewrite trimEnd_cons. destruct (_ && _); [by left|by right]. Qed.

Lemma trimEnd_idempotent (s : string) : trimEnd (trimEnd s) = trimEnd s.
Proof.
  induction s as [|c s IH]; [done|].
  rewrite trimEnd_cons.
  destruct (isWhiteSpace c && negb (truthyString (trimEnd s))) eqn:E; [done|].
  by rewrite trimEnd_cons, IH, E.
Qed.

Lemma trimStart_idempotent (s : string) : trimStart (trimStart s) = trimStart s.
Proof.
  induction s as [|c s IH]; [done|].
  cbn. destruct (isWhiteSpace c) eqn:E; [done|]. cbn. by rewrite E.
Qed.

Lemma trimStart_head (s : string) (c : ascii) (r : string) :
  trimStart s = String c r -> isWhiteSpace c = false.
Proof.
  induction s as [|x s IH]; [done|].
  cbn. destruct (isWhiteSpace x) eqn:E; [done|]. by intros [= <- <-].
Qed.

Lemma trimStart_trimEnd (s : string) :
  trimStart (trimEnd s) = trimEnd (trimStart s).
Proof.
  induction s as [|c s IH]; [done|].
  cbn [trimStart]. destruct (isWhiteSpace c) eqn:E.
  - rewrite trimEnd_cons, E. cbn [andb].
    destruct (truthyString (trimEnd s)) eqn:Ht; cbn [negb].
    + cbn [trimStart]. by rewrite E.
    + rewrite <- IH. by destruct (trimEnd s).
  - rewrite trimEnd_cons_keep by done. cbn. by rewrite E.
Qed.

Lemma trim_idempotent (s : string) : trim (trim s) = trim s.
Proof.
  unfold trim.
  by rewrite (trimStart_trimEnd (trimStart s)), trimStart_idempotent,
    trimEnd_idempotent.
Qed.

Lemma trimStart_trim (s : string) : trimStart (trim s) = trim s.
Proof.
  unfold trim. by rewrite trimStart_trimEnd, trimStart_idempotent.
Qed.

Lemma digit_not_blank (c : ascii) : isDigit c = true -> isWhiteSpace c = false.
Proof.
  unfold isDigit, isWhiteSpace. cbv zeta.
  rewrite andb_true_iff, !Nat.leb_le. intros [H1 H2].
  rewrite !orb_false_iff, andb_false_iff, !Nat.eqb_neq, !Nat.leb_gt. lia.
Qed.

Lemma digits_trimEnd (s : string) :
  forall acc n,
    digits acc n (trimEnd s)
    = let '(v, k, r) := digits acc n s in (v, k, trimEnd r).
Proof.
  induction s as [|c s IH]; intros acc n; [done|].
  destruct (isDigit c) eqn:Hd.
  - rewrite trimEnd_cons_keep by (by apply digit_not_blank).
    cbn [digits]. rewrite Hd. apply IH.
  - cbn [digits]. rewrite Hd.
    destruct (trimEnd_head c s) as [-> | ->]; [done|].
    cbn [digits]. by rewrite Hd.
Qed.

(** The patterns on single characters, written with [Ascii.eqb]. *)
Lemma exponentPart_eq (s : string) :
  exponentPart s
  = match s with
    | String c s' =>
        if (Ascii.eqb c "e" || Ascii.eqb c "E")%char then
          let '(sign, s'') :=
            match s' with
            | String d t =>
                if Ascii.eqb d "+" then (false, t)
                else if Ascii.eqb d "-" then (true, t)
                else (false, s')
            | EmptyString => (false, s')
            end in
          let '(v, n, _) := digits 0 0 s'' in
          match n with
          | O => 0%Z
          | _ => if sign then (- v)%Z else v
          end
        else 0%Z
    | EmptyString => 0%Z
    end.
Proof.
  destruct s as [|c s']; [done|]. unfold exponentPart.
  destruct (Ascii.eqb c "e" || Ascii.eqb c "E")%char; [|done].
  destruct s' as [|d t]; [done|].
  destruct d as [[] [] [] [] [] [] [] []]; reflexivity.
Qed.

Lemma unsignedDecimalLiteral_eq (sign : bool) (s : string) :
  unsignedDecimalLiteral sign s
  = if String.prefix "Infinity" s then S754_infinity sign
    else
      let '(ip, n1, r1) := digits 0 0 s in
      let whole :=
        match n1 with
        | O => S754_nan
        | _ => ofDecimal sign ip (exponentPart r1)
        end in
      match r1 with
      | String c r2 =>
          if Ascii.eqb c "." then
            let '(m, n, r3) := digits ip n1 r2 in
            match n with
            | O => S754_nan
            | _ => ofDecimal sign m (exponentPart r3 - Z.of_nat (n - n1))
            end
          else whole
      | EmptyString => whole
      end.
Proof.
  unfold unsignedDecimalLiteral.
  destruct (String.prefix "Infinity" s); [done|].
  destruct (digits 0 0 s) as [[ip n1] r1].
  destruct r1 as [|c r2]; [done|].
  destruct c as [[] [] [] [] [] [] [] []]; reflexivity.
Qed.

Lemma parseFloat_eq (s : string) :
  parseFloat s
  = match trimStart s with
    | String c t =>
        if Ascii.eqb c "+" then unsignedDecimalLiteral false t
        else if Ascii.eqb c "-" then unsignedDecimalLiteral true t
        else unsignedDecimalLiteral false (String c t)
    | EmptyString => unsignedDecimalLiteral false ""
    end.
Proof.
  unfold parseFloat. destruct (trimStart s) as [|c t]; [done|].
  destruct c as [[] [] [] [] [] [] [] []]; reflexivity.
Qed.

Lemma exponentPart_trimEnd (s : string) :
  exponentPart (trimEnd s) = exponentPart s.
Proof.
  destruct s as [|c s']; [done|].
  destruct (Ascii.eqb c "e" || Ascii.eqb c "E")%char eqn:Hc.
  - assert (isWhiteSpace c = false) as Hw.
    { apply orb_true_iff in Hc as [Hc|Hc]; apply Ascii.eqb_eq in Hc;
        by subst c. }
    rewrite trimEnd_cons_keep by done. rewrite !exponentPart_eq, Hc.
    destruct s' as [|d t]; [done|].
    destruct (Ascii.eqb d "+") eqn:Hplus.
    { apply Ascii.eqb_eq in Hplus as ->.
      rewrite trimEnd_cons_keep by done. cbn [Ascii.eqb Bool.eqb].
      rewrite digits_trimEnd. by destruct (digits 0 0 t) as [[v n] r]. }
    destruct (Ascii.eqb d "-") eqn:Hminus.
    { apply Ascii.eqb_eq in Hminus as ->.
      rewrite trimEnd_cons_keep by done. cbn [Ascii.eqb Bool.eqb].
      rewrite digits_trimEnd. by destruct (digits 0 0 t) as [[v n] r]. }
    pose proof (digits_trimEnd (String d t) 0%Z 0) as Hdig.
    destruct (trimEnd_head d t) as [E | E]; rewrite E in *.
    + rewrite Hdig. by destruct (digits 0 0 (String d t)) as [[v n] r].
    + rewrite Hplus, Hminus, Hdig.
      by destruct (digits 0 0 (String d t)) as [[v n] r].
  - rewrite (exponentPart_eq (String c s')), Hc.
    destruct (trimEnd_head c s') as [-> | ->]; [done|].
    by rewrite exponentPart_eq, Hc.
Qed.

Lemma prefix_trimEnd (p s : string) :
  allChars (fun c => negb (isWhiteSpace c)) p = true ->
  String.prefix p (trimEnd s) = String.prefix p s.
Proof.
  revert s. induction p as [|a p IH]; intros s Hp.
  - by destruct (trimEnd s), s.
  - cbn in Hp. apply andb_true_iff in Hp as [Ha Hp].
    apply negb_true_iff in Ha.
    destruct s as [|c s]; [done|].
    rewrite trimEnd_cons.
    destruct (isWhiteSpace c && negb (truthyString (trimEnd s))) eqn:E.
    + apply andb_true_iff in E as [Hc _]. cbn.
      destruct (ascii_dec a c) as [->|]; [congruence|done].
    + cbn. destruct (ascii_dec a c); [by apply IH|done].
Qed.

Lemma unsignedDecimalLiteral_trimEnd (sign : bool) (s : string) :
  unsignedDecimalLiteral sign (trimEnd s) = unsignedDecimalLiteral sign s.
Proof.
  rewrite !unsignedDecimalLiteral_eq, prefix_trimEnd by done.
  destruct (String.prefix "Infinity" s); [done|].
  rewrite digits_trimEnd. destruct (digits 0 0 s) as [[ip n1] r1].
  cbv zeta. rewrite exponentPart_trimEnd.
  destruct r1 as [|c r2]; [done|].
  destruct (Ascii.eqb c ".") eqn:Hdot.
  - apply Ascii.eqb_eq in Hdot as ->.
    rewrite trimEnd_cons_keep by done. cbn [Ascii.eqb Bool.eqb].
    rewrite digits_trimEnd. destruct (digits ip n1 r2) as [[m n] r3].
    by rewrite exponentPart_trimEnd.
  - destruct (trimEnd_head c r2) as [-> | ->]; [done|]. by rewrite Hdot.
Qed.

(** Blanks before and after a number do not change what [parseFloat]
    reads. *)
Lemma parseFloat_trim (s : string) : parseFloat (trim s) = parseFloat s.
Proof.
  rewrite !parseFloat_eq, trimStart_trim. unfold trim.
  destruct (trimStart s) as [|c t] eqn:Ht; [done|].
  apply trimStart_head in Ht.
  rewrite trimEnd_cons_keep by done.
  destruct (Ascii.eqb c "+"); [apply unsignedDecimalLiteral_trimEnd|].
  destruct (Ascii.eqb c "-"); [apply unsignedDecimalLiteral_trimEnd|].
  rewrite <- (trimEnd_cons_keep c t Ht).
  apply unsignedDecimalLiteral_trimEnd.
Qed.

Lemma validateField_latitude (value : string) :
  validateField "latitude" value
  = if negb (isValidLatitude (parseFloat value))
    then Some "Latitude must be between -90 and 90" else None.
Proof. rewrite <- (parseFloat_trim value). reflexivity. Qed.

Lemma validateField_longitude (value : string) :
  validateField "longitude" value
  = if negb (isValidLongitude (parseFloat value))
    then Some "Longitude must be between -180 and 180" else None.
Proof. rewrite <- (parseFloat_trim value). reflexivity. Qed.

(** X5: blanks around a number do not change what [parseFloat] reads,
    so the blur check, which trims, and the other paths, which do not,
    judge the same Number; [showLocationOnMap] opens the map exactly
    when both coordinate fields pass the blur check [validateField]. *)
Theorem coordinate_checks_agree (lat lng : string) :
  parseFloat (trim lat) = parseFloat lat
  /\ (validateField "latitude" lat = None
      <-> isValidLatitude (parseFloat lat) = true)
  /\ (validateField "longitude" lng = None
      <-> isValidLongitude (parseFloat lng) = true)
  /\ (showLocationOnMap lat lng = OpenMap lat lng
      <-> validateField "latitude" lat = None
          /\ validateField "longitude" lng = None)
  /\ (showLocationOnMap lat lng <> OpenMap lat lng
      <-> showLocationOnMap lat lng = CoordinatesError).
Proof.
  split; [apply parseFloat_trim|].
  rewrite validateField_latitude, validateField_longitude.
  unfold showLocationOnMap.
  assert (truthyString lat = false -> isValidLatitude (parseFloat lat) = false)
    as Hlat by (destruct lat; [reflexivity|done]).
  assert (truthyString lng = false -> isValidLongitude (parseFloat lng) = false)
    as Hlng by (destruct lng; [reflexivity|done]).
  destruct (truthyString lat), (truthyString lng),
    (isValidLatitude (parseFloat lat)), (isValidLongitude (parseFloat lng));
    cbn; repeat split; try done; try tauto;
    try (specialize (Hlat eq_refl)); try (specialize (Hlng eq_refl));
    try congruence; intuition congruence.
Qed.

(** *** The payload and the draft *)

Lemma autoSaveFormData_snoc (form : FormData) (entry : string * string) :
  autoSaveFormData (form ++ [entry])%list
  = saveEntry (autoSaveFormData form) entry.
Proof. unfold autoSaveFormData. by rewrite fold_left_app. Qed.

(** X6: the last entry of a key that is not blank decides what the
    payload and the saved draft hold under the key: the payload has the
    trimmed text under a key that is not numeric and the coerced Number
    under a numeric key, never both, and the draft has the trimmed text
    under either; a key without such an entry is unset in both. *)
Theorem last_filled_entry_wins (form : FormData) (key : string) :
  text (buildRequestData form) !! key
  = (if includes numericKeys key then None
     else trim <$> lastFilled key form)
  /\ numeric (buildRequestData form) !! key
     = (if includes numericKeys key
        then coerce key <$> lastFilled key form else None)
  /\ autoSaveFormData form !! key = trim <$> lastFilled key form.
Proof.
  destruct (FormProps.payload_lookup form key) as [Htext Hnumeric].
  split; [exact Htext|]. split; [exact Hnumeric|].
  clear Htext Hnumeric.
  induction form as [|[k v] form IH] using rev_ind.
  - change (autoSaveFormData []) with (∅ : gmap string string).
    by rewrite lookup_empty.
  - rewrite autoSaveFormData_snoc, FormProps.lastFilled_snoc.
    unfold saveEntry.
    destruct (truthyString (trim v)) eqn:Hv; rewrite ?andb_false_r;
      [|done].
    rewrite andb_true_r.
    destruct (String.eqb_spec k key) as [->|Hne].
    + by rewrite lookup_insert_eq.
    + by rewrite lookup_insert_ne.
Qed.

Lemma lastFilled_Some (key : string) (form : FormData) (v : string) :
  lastFilled key form = Some v ->
  In (key, v) form /\ truthyString (trim v) = true.
Proof.
  induction form as [|[k0 v0] form IH]; [done|].
  cbn [lastFilled]. destruct (lastFilled key form) as [w|].
  - intros [= ->]. destruct IH as [Hin Hv]; [done|]. split; [by right|done].
  - destruct (String.eqb_spec k0 key) as [->|]; [|done].
    destruct (truthyString (trim v0)) eqn:Hv0; [|done].
    intros [= ->]. split; [by left|done].
Qed.

Lemma truthy_trim_nonempty (v : string) :
  truthyString (trim v) = true -> trim v <> "".
Proof. by destruct (trim v). Qed.

(** X7: every string in the payload of the form is the trimmed text of
    an entry of the form: it is not empty and has no blank at either
    end. *)
Theorem payload_strings_trimmed (form : FormData) (key value : string)
  (Hvalue : text (buildRequestData form) !! key = Some value) :
  value <> "" /\ trim value = value
  /\ (exists typed, In (key, typed) form /\ value = trim typed)
  /\ numeric (buildRequestData form) !! key = None.
Proof.
  destruct (FormProps.payload_lookup form key) as (Ht & Hn).
  rewrite Ht in Hvalue. rewrite Hn.
  destruct (includes numericKeys key); [done|].
  destruct (lastFilled key form) as [typed|] eqn:Hlast; [|done].
  injection Hvalue as <-. apply lastFilled_Some in Hlast as [Hin Hv].
  split; [by apply truthy_trim_nonempty|].
  split; [apply trim_idempotent|]. split; [by exists typed|done].
Qed.

Lemma payload_strings_trimmed_witness :
  text (buildRequestData [("title", "  Need food "); ("latitude", " 19.0 ")])
    !! "title" = Some "Need food"
  /\ trim "Need food" = "Need food"
  /\ numeric (buildRequestData
                [("title", "  Need food "); ("latitude", " 19.0 ")])
       !! "title" = None.
Proof.
  assert (text (buildRequestData
                  [("title", "  Need food "); ("latitude", " 19.0 ")])
            !! "title" = Some "Need food") as H by (vm_compute; reflexivity).
  split; [exact H|].
  destruct (payload_strings_trimmed _ _ _ H) as (_ & Htrim & _ & Hnum).
  split; [exact Htrim|exact Hnum].
Defined.

(** *** The two validations *)

Lemma pushIf_nil (c : bool) (message : string) (errors : list string) :
  pushIf c message errors = [] -> c = false /\ errors = [].
Proof.
  unfold pushIf. destruct c; [|done].
  intros H. by apply app_eq_nil in H as [_ H].
Qed.

(** No error means that each of the nine tests came out false. *)
Lemma validateRequestData_nil (data : RequestData) :
  validateRequestData data = [] ->
  missingOrShorter (text data !! "title") 5 = false
  /\ missingOrShorter (text data !! "description") 10 = false
  /\ match text data !! "contact_phone" with
     | Some p => negb (truthyString p) || negb (isValidPhoneNumber p)
     | None => true
     end = false
  /\ match text data !! "contact_email" with
     | Some e => truthyString e && negb (isValidEmail e)
     | None => false
     end = false
  /\ missingOrInvalid (numeric data !! "latitude") isValidLatitude = false
  /\ missingOrInvalid (numeric data !! "longitude") isValidLongitude = false.
Proof.
  unfold validateRequestData. cbv zeta. intros H.
  apply pushIf_nil in H as [Hlng H]. apply pushIf_nil in H as [Hlat H].
  apply pushIf_nil in H as [_ H]. apply pushIf_nil in H as [Hemail H].
  apply pushIf_nil in H as [Hphone H]. apply pushIf_nil in H as [_ H].
  apply pushIf_nil in H as [_ H]. apply pushIf_nil in H as [Hdesc H].
  apply pushIf_nil in H as [Htitle _]. done.
Qed.

Lemma lastFilled_absent (key : string) (form : FormData) :
  ~ In key (map fst form) -> lastFilled key form = None.
Proof.
  induction form as [|[k0 v0] form IH]; [done|].
  cbn. intros Hnot. rewrite IH by tauto.
  destruct (String.eqb_spec k0 key); [tauto|done].
Qed.

(** When no name occurs twice, the entry of a name is its last. *)
Lemma lastFilled_unique (key value : string) (form : FormData) :
  NoDup (map fst form) -> In (key, value) form ->
  lastFilled key form = if truthyString (trim value) then Some value else None.
Proof.
  induction form as [|[k0 v0] form IH]; [done|].
  cbn [map fst]. intros Hnd Hin. apply NoDup_cons in Hnd as [Hk0 Hnd].
  rewrite list_elem_of_In in Hk0.
  cbn [lastFilled]. destruct Hin as [[= -> ->] | Hin].
  - rewrite lastFilled_absent by done. rewrite String.eqb_refl.
    by destruct (truthyString (trim value)).
  - rewrite IH by done.
    destruct (truthyString (trim value)); [done|].
    destruct (String.eqb_spec k0 key) as [->|]; [|done].
    exfalso. apply Hk0. by apply (in_map fst) in Hin.
Qed.

(** A coordinate that passed its test is a finite Number, which
    [JSON.stringify] writes as it is. *)
Lemma valid_coordinate_json (v : option (option number))
  (valid : number -> bool) :
  (forall sign, valid (S754_infinity sign) = false) ->
  missingOrInvalid v valid = false ->
  exists x, v = Some (Some x) /\ jsonNumber (Some x) = Some x
            /\ valid x = true /\ isZero x = false.
Proof.
  intros Hinf Hv. destruct v as [[x|]|]; [|done|done].
  exists x. cbn in Hv. apply orb_false_iff in Hv as [Htruthy Hvalid].
  apply negb_false_iff in Htruthy, Hvalid.
  destruct x as [sz|si| |sf m e]; try done.
  by rewrite Hinf in Hvalid.
Qed.

(** X8: when the names of the form are distinct and the form is
    posted, the payload has no validation error and the blur check
    [validateField] finds no fault in any field of the form: what
    passes [validateRequestData] passes the check made when a field
    loses the focus. The body that is posted is the JSON of the
    payload: the strings as they are, latitude and longitude as the
    Numbers in range that were validated, and every other numeric field
    as a finite Number or [null]; an infinite Number of the payload is
    [null] in the body. *)
Theorem posted_form_passes_field_checks
  (form : FormData) (body : RequestData)
  (Hnames : NoDup (map fst form))
  (Hposted : handleFormSubmission form = Post body) :
  let data := buildRequestData form in
  body = stringify data
  /\ validateRequestData data = []
  /\ (forall name value,
        In (name, value) form -> validateField name value = None)
  /\ text body = text data
  /\ (exists lat,
        numeric body !! "latitude" = Some (Some lat)
        /\ numeric data !! "latitude" = Some (Some lat)
        /\ isValidLatitude lat = true /\ isZero lat = false)
  /\ (exists lng,
        numeric body !! "longitude" = Some (Some lng)
        /\ numeric data !! "longitude" = Some (Some lng)
        /\ isValidLongitude lng = true /\ isZero lng = false)
  /\ (forall key, numeric body !! key = jsonNumber <$> numeric data !! key)
  /\ (forall key sign,
        numeric data !! key = Some (Some (S754_infinity sign)) ->
        numeric body !! key = Some None)
  /\ (forall key x,
        numeric body !! key = Some (Some x) ->
        numeric data !! key = Some (Some x)
        /\ isNaN x = false /\ isZero x = false).
Proof.
  intros data. subst data.
  unfold handleFormSubmission in Hposted. cbv zeta in Hposted.
  destruct (validateRequestData (buildRequestData form)) as [|e errs] eqn:Hv;
    [|done].
  injection Hposted as <-. split; [done|]. split; [done|].
  apply validateRequestData_nil in Hv
    as (Htitle & Hdesc & Hphone & Hemail & Hlat & Hlng).
  assert (forall key,
            numeric (stringify (buildRequestData form)) !! key
            = jsonNumber <$> numeric (buildRequestData form) !! key)
    as Hjson by (intros key; apply lookup_fmap).
  assert (forall name value,
            In (name, value) form -> validateField name value = None)
    as Hfields.
  {
    intros name value Hin.
    pose proof (lastFilled_unique name value form Hnames Hin) as Hlast.
    destruct (FormProps.payload_lookup form name) as (Ht & Hn).
    rewrite Hlast in Ht, Hn.
    unfold validateField, strictEq.
    destruct (String.eqb_spec name "title") as [->|_].
    { change (includes numericKeys "title") with false in Ht.
      rewrite Ht in Htitle.
      destruct (truthyString (trim value)); [|done].
      unfold missingOrShorter in Htitle.
      cbn [fmap option_fmap option_map] in Htitle.
      apply orb_false_iff in Htitle as [_ ->]. done. }
    destruct (String.eqb_spec name "description") as [->|_].
    { change (includes numericKeys "description") with false in Ht.
      rewrite Ht in Hdesc.
      destruct (truthyString (trim value)); [|done].
      unfold missingOrShorter in Hdesc.
      cbn [fmap option_fmap option_map] in Hdesc.
      apply orb_false_iff in Hdesc as [_ ->]. done. }
    destruct (String.eqb_spec name "contact_phone") as [->|_].
    { change (includes numericKeys "contact_phone") with false in Ht.
      rewrite Ht in Hphone.
      destruct (truthyString (trim value)); [|done].
      cbn [fmap option_fmap option_map] in Hphone.
      apply orb_false_iff in Hphone as [_ Hphone].
      by rewrite Hphone. }
    destruct (String.eqb_spec name "contact_email") as [->|_].
    { change (includes numericKeys "contact_email") with false in Ht.
      rewrite Ht in Hemail.
      destruct (truthyString (trim value)) eqn:Hval; [|done].
      cbn [fmap option_fmap option_map] in Hemail.
      rewrite Hval in Hemail. cbn [andb] in Hemail. by rewrite Hemail. }
    destruct (String.eqb_spec name "latitude") as [->|_].
    { change (includes numericKeys "latitude") with true in Hn.
      rewrite Hn in Hlat. rewrite parseFloat_trim.
      destruct (truthyString (trim value)); [|done].
      unfold missingOrInvalid, coerce in Hlat.
      cbn [fmap option_fmap option_map] in Hlat.
      destruct (truthyNumber (parseFloat value)) eqn:Htruthy;
        [|by cbn in Hlat].
      cbv beta iota in Hlat. rewrite Htruthy in Hlat.
      cbn [negb orb] in Hlat. by rewrite Hlat. }
    destruct (String.eqb_spec name "longitude") as [->|_]; [|done].
    change (includes numericKeys "longitude") with true in Hn.
    rewrite Hn in Hlng. rewrite parseFloat_trim.
    destruct (truthyString (trim value)); [|done].
    unfold missingOrInvalid, coerce in Hlng.
    cbn [fmap option_fmap option_map] in Hlng.
    destruct (truthyNumber (parseFloat value)) eqn:Htruthy;
      [|by cbn in Hlng].
    cbv beta iota in Hlng. rewrite Htruthy in Hlng.
    cbn [negb orb] in Hlng. by rewrite Hlng. }
  split; [exact Hfields|]. split; [done|].
  split.
  { apply (valid_coordinate_json _ isValidLatitude
             ltac:(intros []; vm_compute; reflexivity)) in Hlat
      as (lat & Hdata & Hwritten & Hvalid & Hzero).
    exists lat. rewrite Hjson, Hdata.
    cbn [fmap option_fmap option_map]. by rewrite Hwritten. }
  split.
  { apply (valid_coordinate_json _ isValidLongitude
             ltac:(intros []; vm_compute; reflexivity)) in Hlng
      as (lng & Hdata & Hwritten & Hvalid & Hzero).
    exists lng. rewrite Hjson, Hdata.
    cbn [fmap option_fmap option_map]. by rewrite Hwritten. }
  split; [exact Hjson|]. split.
  { intros key sign Hdata. rewrite Hjson.
    exact (f_equal (fmap jsonNumber) Hdata). }
  intros key x. rewrite Hjson.
  destruct (numeric (buildRequestData form) !! key) as [[y|]|] eqn:Hdata;
    [|done|done].
  apply FormProps.numeric_fields_truthy in Hdata as [_ Htruthy].
  destruct y as [sz|si| |sf m e]; try done.
  cbn [fmap option_fmap option_map jsonNumber]. by intros [= <-].
Qed.

Lemma posted_form_passes_field_checks_witness :
  NoDup (map fst (Samples.crowdForm " 19.0" "1e999"))
  /\ handleFormSubmission (Samples.crowdForm " 19.0" "1e999")
     = Post (stringify (buildRequestData (Samples.crowdForm " 19.0" "1e999")))
  /\ validateField "latitude" " 19.0" = None
  /\ numeric (buildRequestData (Samples.crowdForm " 19.0" "1e999"))
       !! "people_affected" = Some (Some (S754_infinity false))
  /\ numeric (stringify (buildRequestData (Samples.crowdForm " 19.0" "1e999")))
       !! "people_affected" = Some None.
Proof.
  assert (NoDup (map fst (Samples.crowdForm " 19.0" "1e999"))) as Hnames
    by (apply (bool_decide_unpack _); vm_compute; reflexivity).
  assert (handleFormSubmission (Samples.crowdForm " 19.0" "1e999")
          = Post (stringify
                    (buildRequestData (Samples.crowdForm " 19.0" "1e999"))))
    as Hposted by (vm_compute; reflexivity).
  assert (numeric (buildRequestData (Samples.crowdForm " 19.0" "1e999"))
            !! "people_affected" = Some (Some (S754_infinity false)))
    as Hcrowd by (vm_compute; reflexivity).
  destruct (posted_form_passes_field_checks _ _ Hnames Hposted)
    as (_ & _ & Hfields & _ & _ & _ & _ & Hinfinite & _).
  split; [exact Hnames|]. split; [exact Hposted|].
  split; [apply Hfields; vm_compute; tauto|].
  split; [exact Hcrowd|]. exact (Hinfinite _ _ Hcrowd).
Defined.

End FormAssistProps.

(** ** Loading, markers and counters of the map *)

Module MapToolsProps.
Import JS Api MapView MapTools MapSession MapProps.
Local Open Scope string_scope.
Local Open Scope list_scope.

Local Arguments alloc : simpl never.

(** The records of a response become new request objects, one each, in
    order. *)
Lemma allocRequests_spec (rs : list Request) :
  forall h,
    h ⊆ (allocRequests h rs).2
    /\ omap (requestAt (allocRequests h rs).2) (allocRequests h rs).1 = rs
    /\ length (allocRequests h rs).1 = length rs
    /\ Forall (fun l => is_Some (requestAt (allocRequests h rs).2 l))
         (allocRequests h rs).1
    /\ Forall (fun l => h !! l = None) (allocRequests h rs).1
    /\ NoDup (allocRequests h rs).1.
Proof.
  induction rs as [|r rs IH]; intros h; cbn [allocRequests].
  - cbn. split; [done|]. split; [done|]. split; [done|].
    split; [constructor|]. split; constructor.
  - pose proof (alloc_fresh h (ORequest r)) as Hfresh.
    pose proof (alloc_subseteq h (ORequest r)) as Hsub.
    pose proof (alloc_lookup h (ORequest r)) as Hlook.
    destruct (alloc h (ORequest r)) as [l h1]. cbn [fst snd] in *.
    destruct (IH h1) as (Hsub1 & Hreqs & Hlen & Hsome & Hnew & Hnodup).
    destruct (allocRequests h1 rs) as [ls h2]. cbn [fst snd] in *.
    assert (requestAt h2 l = Some r) as Hl
      by (unfold requestAt; by rewrite (lookup_weaken _ _ _ _ Hlook Hsub1)).
    split; [by etrans|].
    split; [|split; [cbn; by rewrite Hlen|split; [|split]]].
    + cbn [omap list_omap]. by rewrite Hl, Hreqs.
    + constructor; [by rewrite Hl|done].
    + constructor; [done|]. eapply Forall_impl; [exact Hnew|].
      intros l' Hl'. exact (lookup_weaken_None _ _ _ Hl' Hsub).
    + constructor; [|done]. intros Hin.
      rewrite Forall_forall in Hnew. specialize (Hnew _ Hin). congruence.
Qed.

Lemma markerFor_sameRequests (h h' : gmap loc object) (ls : list loc) :
  sameRequests h h' -> omap (markerFor h') ls = omap (markerFor h) ls.
Proof.
  intros Hsame. induction ls as [|l ls IH]; [done|].
  assert (markerFor h' l = markerFor h l) as Hl
    by (unfold markerFor; by rewrite Hsame).
  cbn [omap list_omap]. by rewrite Hl, IH.
Qed.

(** The loop of [updateMapMarkers]: it appends one new marker for each
    request, in order, to the array and to the cluster layers, and
    touches no other object. *)
Lemma addMarkers_spec (rs : list loc) :
  forall h ms layers acc,
    h !! ms = Some (OArray acc) ->
    exists new,
      (addMarkers h ms layers rs).1 !! ms = Some (OArray (acc ++ new))
      /\ (addMarkers h ms layers rs).2 = layers ++ new
      /\ ((addMarkers h ms layers rs).1 !!.) <$> new
         = Some <$> omap (markerFor h) rs
      /\ Forall (fun m => h !! m = None) new
      /\ (forall l o, h !! l = Some o -> l <> ms ->
            (addMarkers h ms layers rs).1 !! l = Some o).
Proof.
  induction rs as [|l rs IH]; intros h ms layers acc Hms; cbn [addMarkers].
  - exists []. cbn. rewrite !app_nil_r. by repeat split.
  - cbn [omap list_omap]. unfold markerFor at 1.
    destruct (requestAt h l) as [request|] eqn:Hl; cbn [fmap option_fmap option_map];
      [|by apply IH].
    pose proof (alloc_fresh h (createRequestMarker request l)) as Hfresh.
    pose proof (alloc_subseteq h (createRequestMarker request l)) as Hsub.
    pose proof (alloc_lookup h (createRequestMarker request l)) as Hlook.
    pose proof (alloc_sameRequests h (createRequestMarker request l) eq_refl)
      as Hsame.
    destruct (alloc h (createRequestMarker request l)) as [m h1].
    cbn [fst snd] in *.
    assert (m <> ms) as Hne by congruence.
    pose proof (lookup_weaken _ _ _ _ Hms Hsub) as Hms1.
    pose proof (push_sameRequests h1 ms m) as Hsame1.
    assert (push h1 ms m = <[ms := OArray (acc ++ [m])]> h1) as Hpush
      by (unfold push; by rewrite Hms1).
    rewrite Hpush in *.
    destruct (IH (<[ms := OArray (acc ++ [m])]> h1) ms (layers ++ [m])
                (acc ++ [m]) (lookup_insert_eq _ _ _))
      as (new & Harr & Hlay & Hobj & Hnew & Hframe).
    exists (m :: new). split; [by rewrite Harr, <- app_assoc|].
    split; [by rewrite Hlay, <- app_assoc|]. split; [|split].
    + cbn [fmap list_fmap]. rewrite Hobj. f_equal.
      * apply Hframe; [|done]. by rewrite lookup_insert_ne.
      * f_equal. apply markerFor_sameRequests.
        eapply sameRequests_trans; [exact Hsame|exact Hsame1].
    + constructor; [done|]. eapply Forall_impl; [exact Hnew|].
      intros m' Hm'. apply lookup_insert_None in Hm' as [Hm' _].
      exact (lookup_weaken_None _ _ _ Hm' Hsub).
    + intros l0 o Hl0 Hne0. apply Hframe; [|done].
      rewrite lookup_insert_ne by done. by eapply lookup_weaken.
Qed.

Lemma elementsOf_alloc_empty (h : gmap loc object) (a : loc) :
  elementsOf (alloc h (OArray [])).2 a = elementsOf h a.
Proof.
  unfold elementsOf, alloc. cbn [snd].
  destruct (decide (fresh (dom h) = a)) as [<-|Hne].
  - rewrite lookup_insert_eq.
    assert (h !! fresh (dom h) = None) as ->
      by apply not_elem_of_dom, is_fresh.
    done.
  - by rewrite lookup_insert_ne.
Qed.

(** [updateMapMarkers] as the loop run on a new, empty array. *)
Lemma updateMapMarkers_view (s : MapState) :
  heap (updateMapMarkers s)
  = (addMarkers (alloc (heap s) (OArray [])).2 (alloc (heap s) (OArray [])).1
       [] (elementsOf (heap s) (filteredRequests s))).1
  /\ markers (updateMapMarkers s) = (alloc (heap s) (OArray [])).1
  /\ clusterLayers (updateMapMarkers s)
     = (addMarkers (alloc (heap s) (OArray [])).2
          (alloc (heap s) (OArray [])).1
          [] (elementsOf (heap s) (filteredRequests s))).2
  /\ visibleRequests (page (updateMapMarkers s))
     = length (elementsOf (heap s) (filteredRequests s))
  /\ messages (page (updateMapMarkers s)) = messages (page s)
  /\ loadingOverlay (page (updateMapMarkers s)) = loadingOverlay (page s).
Proof.
  unfold updateMapMarkers.
  pose proof (elementsOf_alloc_empty (heap s) (filteredRequests s)) as Hel.
  destruct (alloc (heap s) (OArray [])) as [ms h1]. cbn [fst snd] in *.
  rewrite Hel.
  destruct (addMarkers h1 ms [] (elementsOf (heap s) (filteredRequests s)))
    as [h2 layers].
  done.
Qed.

(** After [updateMapMarkers] the layers of the cluster group are the
    elements of the new array [markers], each a new marker made by
    [createRequestMarker] for the filtered request in its place. *)
Lemma updateMapMarkers_markers (s : MapState) :
  clusterLayers (updateMapMarkers s)
  = elementsOf (heap (updateMapMarkers s)) (markers (updateMapMarkers s))
  /\ (heap (updateMapMarkers s) !!.) <$> clusterLayers (updateMapMarkers s)
     = Some <$> omap (markerFor (heap s))
                  (elementsOf (heap s) (filteredRequests s))
  /\ Forall (fun m => heap s !! m = None) (clusterLayers (updateMapMarkers s))
  /\ heap s !! markers (updateMapMarkers s) = None.
Proof.
  destruct (updateMapMarkers_view s) as (Hh & Hm & Hl & _).
  rewrite Hh, Hm, Hl.
  pose proof (alloc_fresh (heap s) (OArray [])) as Hfresh.
  pose proof (alloc_subseteq (heap s) (OArray [])) as Hsub.
  pose proof (alloc_lookup (heap s) (OArray [])) as Hlook.
  pose proof (alloc_sameRequests (heap s) (OArray []) eq_refl) as Hsame.
  destruct (alloc (heap s) (OArray [])) as [ms h1]. cbn [fst snd] in *.
  destruct (addMarkers_spec (elementsOf (heap s) (filteredRequests s))
              h1 ms [] [] Hlook) as (new & Harr & Hlay & Hobj & Hnew & _).
  rewrite Hlay. cbn [app] in *.
  split; [unfold elementsOf at 1; by rewrite Harr|].
  split; [rewrite Hobj; f_equal; by apply markerFor_sameRequests|].
  split; [|done].
  eapply Forall_impl; [exact Hnew|].
  intros m Hm'. exact (lookup_weaken_None _ _ _ Hm' Hsub).
Qed.

Lemma updateStatistics_counted (s : MapState) : counted (updateStatistics s).
Proof. by repeat split. Qed.

Lemma sublist_List_filter {A} (p : A -> bool) (l : list A) :
  sublist (List.filter p l) l.
Proof.
  induction l as [|x l IH]; cbn; [constructor|].
  destruct (p x); by constructor.
Qed.

Lemma sublist_omap {A B} (f : A -> option B) (l1 l2 : list A) :
  sublist l1 l2 -> sublist (omap f l1) (omap f l2).
Proof.
  induction 1 as [|x l1 l2 _ IH|x l1 l2 _ IH]; cbn [omap list_omap].
  - constructor.
  - destruct (f x); [by constructor|done].
  - destruct (f x); [by constructor|done].
Qed.

Lemma sublist_Forall {A} (P : A -> Prop) (l1 l2 : list A) :
  sublist l1 l2 -> Forall P l2 -> Forall P l1.
Proof.
  induction 1 as [|x l1 l2 _ IH|x l1 l2 _ IH]; intros Hall.
  - constructor.
  - inversion Hall; subst. constructor; [done|by apply IH].
  - inversion Hall; subst. by apply IH.
Qed.

Lemma length_omap_requests (h : gmap loc object) (ls : list loc) :
  Forall (fun l => is_Some (requestAt h l)) ls ->
  length (omap (requestAt h) ls) = length ls.
Proof.
  induction 1 as [|l ls [r Hl] _ IH]; [done|].
  cbn [omap list_omap]. rewrite Hl. cbn. by rewrite IH.
Qed.

(** What the markers refer to and show, read off their objects. *)
Lemma markers_of_requests (h h' : gmap loc object) (ls new : list loc) :
  sameRequests h h' ->
  (h' !!.) <$> new = Some <$> omap (markerFor h) ls ->
  omap (fun m => markerTarget h' m ≫= requestAt h') new
  = omap (requestAt h) ls
  /\ omap (markerPopup h') new = createPopupContent <$> omap (requestAt h) ls.
Proof.
  intros Hsame. revert new.
  induction ls as [|l ls IH]; intros new Hobj.
  - destruct new; [done|discriminate].
  - cbn [omap list_omap] in *. unfold markerFor at 1 in Hobj.
    destruct (requestAt h l) as [r|] eqn:Hl;
      cbn [fmap option_fmap option_map] in Hobj; [|by apply IH].
    destruct new as [|m new]; [discriminate|].
    cbn [fmap list_fmap] in Hobj. injection Hobj as Hm Hobj.
    destruct (IH new Hobj) as [IH1 IH2].
    cbn [omap list_omap fmap list_fmap].
    unfold markerTarget at 1, markerPopup at 1. rewrite Hm.
    cbn [createRequestMarker mbind option_bind].
    by rewrite Hsame, Hl, IH1, IH2.
Qed.

(** Putting a sublist [ls] of the loaded requests in a new array
    [filteredRequests] and redrawing leaves the store as [drawn]
    describes, with the counters right. *)
Lemma redraw_drawn (s : MapState) (ls : list loc) (fs : gmap string string)
  (p : Page) :
  is_Some (heap s !! allRequests s) ->
  Forall (fun l => is_Some (requestAt (heap s) l))
    (elementsOf (heap s) (allRequests s)) ->
  sublist ls (elementsOf (heap s) (allRequests s)) ->
  let a := (alloc (heap s) (OArray ls)).1 in
  let s1 :=
    {| heap := (alloc (heap s) (OArray ls)).2; markers := markers s;
       clusterLayers := clusterLayers s; currentFilters := fs;
       allRequests := allRequests s; filteredRequests := a; page := p |} in
  let s3 := updateStatistics (updateMapMarkers s1) in
  drawn s3 /\ counted s3.
Proof.
  intros Hall Hreqs Hsubl a s1 s3.
  split; [|apply updateStatistics_counted].
  destruct (redraw_heap s ls fs p)
    as (Hsub & Hsame & Hall3 & Hfil3 & Hfresh & Hel3 & _).
  fold a s1 s3 in Hsub, Hsame, Hall3, Hfil3, Hfresh, Hel3.
  destruct (updateMapMarkers_markers s1) as (Hlayers & Hobj & _).
  destruct (updateMapMarkers_heap s1) as (_ & Hsame1 & _).
  pose proof (alloc_lookup (heap s) (OArray ls)) as Hlook.
  assert (elementsOf (heap s1) (filteredRequests s1) = ls) as Hel1
    by (unfold elementsOf; cbn [heap filteredRequests s1]; subst a;
        by rewrite Hlook).
  rewrite Hel1 in Hobj.
  unfold drawn. rewrite Hall3, Hfil3, Hel3.
  rewrite (elementsOf_weaken _ _ _ Hsub Hall).
  split; [by eapply lookup_weaken_is_Some|].
  split; [eapply Forall_impl; [exact Hreqs|]; intros l Hl; by rewrite Hsame|].
  split; [done|]. split; [exact Hlayers|].
  change (heap s3) with (heap (updateMapMarkers s1)).
  change (clusterLayers s3) with (clusterLayers (updateMapMarkers s1)).
  rewrite Hobj. f_equal. symmetry. by apply markerFor_sameRequests.
Qed.

(** A successful load: the records of the response are new objects in
    a new array, the filtered array is a second new array with the same
    elements, and the map is redrawn from it. *)
Lemma loadRequests_success (s : MapState) (data : Listing) :
  let s' := loadRequests s (Response true (Some data)) in
  let loaded := default [] (requests data) in
  drawn s' /\ counted s'
  /\ heap s ⊆ heap s'
  /\ elementsOf (heap s') (filteredRequests s')
     = elementsOf (heap s') (allRequests s')
  /\ omap (requestAt (heap s')) (elementsOf (heap s') (allRequests s'))
     = loaded
  /\ length (elementsOf (heap s') (allRequests s')) = length loaded
  /\ NoDup (elementsOf (heap s') (allRequests s'))
  /\ Forall (fun l => heap s !! l = None)
       (allRequests s' :: filteredRequests s'
          :: elementsOf (heap s') (allRequests s'))
  /\ allRequests s' <> filteredRequests s'
  /\ currentFilters s' = currentFilters s
  /\ readFilters (page s') = readFilters (page s)
  /\ messages (page s') = messages (page s)
  /\ loadingOverlay (page s') = false.
Proof.
  intros s' loaded. subst s'.
  cbv beta iota zeta delta [loadRequests]. fold loaded.
  change (heap (showLoadingOverlay true s)) with (heap s).
  destruct (allocRequests_spec loaded (heap s))
    as (Hsub0 & Hreqs & Hlen & Hsome & Hnew & Hnodup).
  destruct (allocRequests (heap s) loaded) as [ls h1]. cbn [fst snd] in *.
  pose proof (alloc_fresh h1 (OArray ls)) as Hfresh1.
  pose proof (alloc_subseteq h1 (OArray ls)) as Hsub1.
  pose proof (alloc_lookup h1 (OArray ls)) as Hlook1.
  pose proof (alloc_sameRequests h1 (OArray ls) eq_refl) as Hsame1.
  destruct (alloc h1 (OArray ls)) as [all h2]. cbn [fst snd] in *.
  assert (elementsOf h2 all = ls) as Hall
    by (unfold elementsOf; by rewrite Hlook1).
  rewrite Hall.
  set (sA := {| heap := h2; markers := markers (showLoadingOverlay true s);
                clusterLayers := clusterLayers (showLoadingOverlay true s);
                currentFilters := currentFilters (showLoadingOverlay true s);
                allRequests := all; filteredRequests := filteredRequests s;
                page := page s |}).
  assert (Forall (fun l => is_Some (requestAt h2 l)) ls) as Hsome2
    by (eapply Forall_impl; [exact Hsome|]; intros l Hl; by rewrite Hsame1).
  pose proof (redraw_drawn sA ls (currentFilters (showLoadingOverlay true s))
                (page (showLoadingOverlay true s))) as Hdrawn.
  pose proof (redraw_heap sA ls (currentFilters (showLoadingOverlay true s))
                (page (showLoadingOverlay true s))) as Hheap.
  cbv zeta in Hdrawn, Hheap.
  cbn [heap markers clusterLayers allRequests sA] in Hdrawn, Hheap.
  rewrite Hall in Hdrawn.
  specialize (Hdrawn (mk_is_Some _ _ Hlook1) Hsome2 (reflexivity ls)).
  match type of Hdrawn with
  | context [updateMapMarkers ?s1] =>
      pose proof (updateMapMarkers_view s1) as (_ & _ & _ & _ & Hmsg & _)
  end.
  destruct (alloc h2 (OArray ls)) as [filtered h3]. cbn [fst snd] in *.
  destruct Hdrawn as [Hdrawn Hcounted].
  destruct Hheap as (Hsub & Hsame & Hall3 & Hfil3 & Hfresh3 & Hel3 & Hcf & Hrf).
  set (s1 := {| heap := h3; markers := markers (showLoadingOverlay true s);
                clusterLayers := clusterLayers (showLoadingOverlay true s);
                currentFilters := currentFilters (showLoadingOverlay true s);
                allRequests := all; filteredRequests := filtered;
                page := page (showLoadingOverlay true s) |}) in *.
  set (s3 := updateStatistics (updateMapMarkers s1)) in *.
  change (drawn s3 /\ counted s3
          /\ heap s ⊆ heap s3
          /\ elementsOf (heap s3) (filteredRequests s3)
             = elementsOf (heap s3) (allRequests s3)
          /\ omap (requestAt (heap s3)) (elementsOf (heap s3) (allRequests s3))
             = loaded
          /\ length (elementsOf (heap s3) (allRequests s3)) = length loaded
          /\ NoDup (elementsOf (heap s3) (allRequests s3))
          /\ Forall (fun l => heap s !! l = None)
               (allRequests s3 :: filteredRequests s3
                  :: elementsOf (heap s3) (allRequests s3))
          /\ allRequests s3 <> filteredRequests s3
          /\ currentFilters s3 = currentFilters s
          /\ readFilters (page s3) = readFilters (page s)
          /\ messages (page s3) = messages (page s)
          /\ false = false).
  assert (elementsOf (heap s3) all = ls) as Hel
    by (rewrite (elementsOf_weaken h2 (heap s3) all Hsub (mk_is_Some _ _ Hlook1));
        exact Hall).
  rewrite Hall3, Hfil3, Hel3, Hel.
  split; [done|]. split; [done|].
  split; [by do 2 (etrans; [eassumption|])|].
  split; [done|].
  split.
  { rewrite (omap_sameRequests _ _ _ Hsame), (omap_sameRequests _ _ _ Hsame1).
    exact Hreqs. }
  split; [done|]. split; [done|].
  split.
  { constructor; [exact (lookup_weaken_None _ _ _ Hfresh1 Hsub0)|].
    constructor; [|done].
    eapply lookup_weaken_None; [exact Hfresh3|]. by etrans. }
  split; [intros ->; by rewrite Hlook1 in Hfresh3|].
  split; [done|]. split; [done|]. split; [exact Hmsg|done].
Qed.

Lemma initial_lookups (p : Page) :
  heap (initial p) !! markers (initial p) = Some (OArray [])
  /\ heap (initial p) !! allRequests (initial p) = Some (OArray [])
  /\ heap (initial p) !! filteredRequests (initial p) = Some (OArray []).
Proof. by vm_compute. Qed.

Lemma initial_drawn (p : Page) : drawn (initial p).
Proof.
  destruct (initial_lookups p) as (Hm & Ha & Hf).
  unfold drawn, elementsOf. rewrite Hm, Ha, Hf.
  split; [done|]. split; [constructor|]. split; [constructor|]. done.
Qed.

Lemma initial_counted (p : Page) :
  totalRequests p = 0 -> visibleRequests p = 0 -> urgentRequests p = 0 ->
  counted (initial p).
Proof.
  intros Ht Hv Hu. destruct (initial_lookups p) as (Hm & Ha & Hf).
  unfold counted, elementsOf. rewrite Ha, Hf. by cbn.
Qed.

Lemma applyFilters_drawn (s : MapState) :
  drawn s -> drawn (applyFilters s) /\ counted (applyFilters s).
Proof.
  intros (Hall & Hreqs & _).
  pose proof (redraw_drawn s
    (List.filter (holds (heap s) (matchesFilters (readFilters (page s))))
       (elementsOf (heap s) (allRequests s)))
    (filtersObject (readFilters (page s))) (page s)
    Hall Hreqs (sublist_List_filter _ _)) as H.
  cbv zeta in H. unfold applyFilters.
  destruct (alloc (heap s) (OArray _)) as [a h1]. exact H.
Qed.

Lemma clearFilters_drawn (s : MapState) :
  drawn s -> drawn (clearFilters s) /\ counted (clearFilters s).
Proof.
  intros (Hall & Hreqs & _).
  pose proof (redraw_drawn s (elementsOf (heap s) (allRequests s)) ∅
    {| typeFilter := ""; urgencyFilter := ""; statusFilter := "";
       totalRequests := totalRequests (page s);
       visibleRequests := visibleRequests (page s);
       urgentRequests := urgentRequests (page s);
       loadingOverlay := loadingOverlay (page s);
       messages := messages (page s) |}
    Hall Hreqs (reflexivity _)) as H.
  cbv zeta in H. unfold clearFilters.
  destruct (alloc (heap s) (OArray _)) as [a h1]. exact H.
Qed.

Lemma step_drawn (s : MapState) (e : Event) :
  drawn s /\ counted s -> drawn (step s e) /\ counted (step s e).
Proof.
  intros [Hd Hc]. destruct e as [o|f| |]; cbn [step].
  - destruct o as [|[|] [data|]]; try exact (conj Hd Hc).
    destruct (loadRequests_success s data) as (Hd' & Hc' & _). by split.
  - exact (conj Hd Hc).
  - by apply applyFilters_drawn.
  - by apply clearFilters_drawn.
Qed.

Lemma step_drawn_only (s : MapState) (e : Event) :
  drawn s -> drawn (step s e).
Proof.
  intros Hd. destruct e as [o|f| |]; cbn [step].
  - destruct o as [|[|] [data|]]; try exact Hd.
    by destruct (loadRequests_success s data) as (Hd' & _).
  - exact Hd.
  - by apply applyFilters_drawn.
  - by apply clearFilters_drawn.
Qed.

Lemma after_drawn (p : Page) (events : list Event) : drawn (after p events).
Proof.
  unfold after. generalize (initial_drawn p). generalize (initial p).
  induction events as [|e events IH]; intros s Hd; [done|].
  cbn [fold_left]. by apply IH, step_drawn_only.
Qed.

Lemma after_counted (p : Page) (events : list Event) :
  counted (initial p) -> counted (after p events).
Proof.
  intros Hc. unfold after.
  pose proof (conj (initial_drawn p) Hc) as H. revert H.
  generalize (initial p).
  induction events as [|e events IH]; intros s H; [by destruct H|].
  cbn [fold_left]. by apply IH, step_drawn.
Qed.

(** X9: what a load does to the map. Whatever the fetch does, nothing
    in the store is lost, the loading overlay is hidden at the end and
    the filter selects and [currentFilters] are not touched. When the
    listing arrives, its records (none when [requests] is absent) are
    the loaded requests and all of them are shown, in the order of the
    response and whatever the filter selects say; the arrays
    [allRequests] and [filteredRequests] are two distinct new arrays
    with the same, pairwise distinct, new request objects; the counters
    show the number loaded, the number loaded again, and the number of
    loaded requests of urgency [critical] or [high]; no message is
    shown. In every other case the store, the arrays, the markers and
    the counters are what they were and the error message is shown. *)
Theorem map_loadRequests_outcomes (s : MapState) (o : FetchOutcome) :
  let s' := loadRequests s o in
  heap s ⊆ heap s'
  /\ loadingOverlay (page s') = false
  /\ currentFilters s' = currentFilters s
  /\ readFilters (page s') = readFilters (page s)
  /\ match o with
     | Response true (Some data) =>
         let loaded := default [] (requests data) in
         requestsOf (heap s') (allRequests s') = loaded
         /\ shown s' = loaded
         /\ allRequests s' <> filteredRequests s'
         /\ elementsOf (heap s') (filteredRequests s')
            = elementsOf (heap s') (allRequests s')
         /\ NoDup (elementsOf (heap s') (allRequests s'))
         /\ Forall (fun l => heap s !! l = None)
              (allRequests s' :: filteredRequests s'
                 :: elementsOf (heap s') (allRequests s'))
         /\ totalRequests (page s') = length loaded
         /\ visibleRequests (page s') = length loaded
         /\ urgentRequests (page s') = length (List.filter isUrgent loaded)
         /\ messages (page s') = messages (page s)
     | _ =>
         heap s' = heap s
         /\ allRequests s' = allRequests s
         /\ filteredRequests s' = filteredRequests s
         /\ markers s' = markers s
         /\ clusterLayers s' = clusterLayers s
         /\ totalRequests (page s') = totalRequests (page s)
         /\ visibleRequests (page s') = visibleRequests (page s)
         /\ urgentRequests (page s') = urgentRequests (page s)
         /\ messages (page s') = messages (page s) ++ [(LoadFailed, "error")]
     end.
Proof.
  intros s'. subst s'.
  destruct o as [|[|] [data|]]; try (cbn; by repeat split).
  destruct (loadRequests_success s data)
    as (Hd & (Ht & Hv & Hu) & Hsub & Hfil & Hreqs & Hlen & Hnd & Hnew & Hne
        & Hcf & Hrf & Hmsg & Hov).
  cbv zeta in *.
  split; [done|]. split; [done|]. split; [done|]. split; [done|].
  assert (shown (loadRequests s (Response true (Some data)))
          = default [] (requests data)) as Hshown
    by (unfold shown, requestsOf; by rewrite Hfil).
  split; [exact Hreqs|]. split; [exact Hshown|].
  split; [done|]. split; [done|]. split; [done|]. split; [done|].
  split; [by rewrite Ht|]. split; [by rewrite Hv, Hfil|].
  split; [|done].
  rewrite Hu, DashboardProps.length_filter_holds.
  by rewrite Hfil, Hreqs.
Qed.

(** X10: at every moment of a session (any history of loads, of
    changes of the filter selects and of clicks on the two filter
    buttons after the constructor) the requests shown are among the
    loaded requests, in their order; the layers of the cluster group
    are the elements of [markers], one marker for each request shown
    and in the same order: the marker refers to its request in
    [requestData] and is bound to the popup [createPopupContent] makes
    for that request. *)
Theorem map_markers_show_filtered_requests (p : Page) (events : list Event) :
  let s := after p events in
  sublist (shown s) (requestsOf (heap s) (allRequests s))
  /\ clusterLayers s = elementsOf (heap s) (markers s)
  /\ omap (fun m => markerTarget (heap s) m ≫= requestAt (heap s))
       (clusterLayers s) = shown s
  /\ omap (markerPopup (heap s)) (clusterLayers s)
     = createPopupContent <$> shown s
  /\ length (clusterLayers s) = length (shown s).
Proof.
  intros s. destruct (after_drawn p events) as (_ & _ & Hsubl & Hlay & Hobj).
  fold s in Hsubl, Hlay, Hobj.
  destruct (markers_of_requests (heap s) (heap s)
              (elementsOf (heap s) (filteredRequests s)) (clusterLayers s)
              (sameRequests_refl _) Hobj) as [Htarget Hpopup].
  split; [by apply sublist_omap|]. split; [done|].
  split; [done|]. split; [done|].
  unfold shown, requestsOf. clear Htarget Hpopup Hlay Hsubl.
  apply (f_equal length) in Hobj. rewrite !length_fmap in Hobj.
  rewrite Hobj. clear Hobj.
  induction (elementsOf (heap s) (filteredRequests s)) as [|l ls IH]; [done|].
  cbn [omap list_omap]. unfold markerFor at 1.
  destruct (requestAt (heap s) l); cbn; by rewrite ?IH.
Qed.

(** X11: on a page whose three counters start at zero, the counters
    are right at every moment of a session: [totalRequests] is the
    number of loaded requests, [visibleRequests] the number of requests
    shown and [urgentRequests] the number of requests shown whose
    urgency is [critical] or [high]; so urgent <= visible <= total. *)
Theorem map_counters_truthful (p : Page) (events : list Event)
  (Hzero : totalRequests p = 0
           /\ visibleRequests p = 0
           /\ urgentRequests p = 0) :
  let s := after p events in
  totalRequests (page s) = length (requestsOf (heap s) (allRequests s))
  /\ visibleRequests (page s) = length (shown s)
  /\ urgentRequests (page s) = length (List.filter isUrgent (shown s))
  /\ urgentRequests (page s) <= visibleRequests (page s)
  /\ visibleRequests (page s) <= totalRequests (page s).
Proof.
  intros s. destruct Hzero as (Ht0 & Hv0 & Hu0).
  destruct (after_drawn p events) as (_ & Hreqs & Hsubl & _).
  destruct (after_counted p events (initial_counted p Ht0 Hv0 Hu0))
    as (Ht & Hv & Hu).
  fold s in Hreqs, Hsubl, Ht, Hv, Hu.
  pose proof (sublist_Forall _ _ _ Hsubl Hreqs) as Hshown.
  assert (length (shown s)
          = length (elementsOf (heap s) (filteredRequests s))) as Hlen
    by (by apply length_omap_requests).
  assert (length (requestsOf (heap s) (allRequests s))
          = length (elementsOf (heap s) (allRequests s))) as Hlen'
    by (by apply length_omap_requests).
  rewrite Hlen, Hlen', Ht, Hv, Hu.
  split; [done|]. split; [done|].
  split; [apply DashboardProps.length_filter_holds|].
  split; [apply List.filter_length_le|by apply sublist_length].
Qed.

Lemma map_counters_truthful_witness :
  (totalRequests (Samples.mapPage "" "" "") = 0
   /\ visibleRequests (Samples.mapPage "" "" "") = 0
   /\ urgentRequests (Samples.mapPage "" "" "") = 0)
  /\ totalRequests
       (page (after (Samples.mapPage "" "" "")
                [Load (Response true (Some Samples.listing));
                 Select {| f_request_type := "FOOD"; f_urgency_level := "";
                           f_status := "pending" |};
                 Apply; Load NetworkError])) = 4
  /\ visibleRequests
       (page (after (Samples.mapPage "" "" "")
                [Load (Response true (Some Samples.listing));
                 Select {| f_request_type := "FOOD"; f_urgency_level := "";
                           f_status := "pending" |};
                 Apply; Load NetworkError])) = 1.
Proof.
  assert (totalRequests (Samples.mapPage "" "" "") = 0
          /\ visibleRequests (Samples.mapPage "" "" "") = 0
          /\ urgentRequests (Samples.mapPage "" "" "") = 0) as Hzero
    by (vm_compute; by repeat split).
  split; [exact Hzero|].
  destruct (map_counters_truthful (Samples.mapPage "" "" "")
              [Load (Response true (Some Samples.listing));
               Select {| f_request_type := "FOOD"; f_urgency_level := "";
                         f_status := "pending" |};
               Apply; Load NetworkError] Hzero) as (Ht & Hv & _).
  split.
  - rewrite Ht. vm_compute. reflexivity.
  - rewrite Hv. vm_compute. reflexivity.
Defined.

End MapToolsProps.

(** ** Elapsed time, filters and pages of the dashboard *)

Module DashboardControlsProps.
Import JS Api Dashboard MapTools DashboardControls.
Local Open Scope string_scope.
Local Open Scope list_scope.
Local Open Scope Z_scope.

(** Splits a statement about a phrase into its parts and leaves the
    arithmetic to [lia]. *)
Local Ltac phrase :=
  repeat match goal with
  | |- _ /\ _ => split
  | |- _ <-> _ => split
  | |- forall _, _ => intro
  | H : Ago _ _ _ = Ago _ _ _ |- _ => injection H as <- <- <-
  end;
  cbn [unitMs] in *; try done; try lia.

(** X12: the phrase for an elapsed time of [d] milliseconds. On the
    dashboard a count [n] of a unit is written only when [n] is at
    least 1 and [n] whole units, but not [n + 1], have elapsed; the
    plural is written exactly when [n] exceeds 1; hours are counted
    below 24 and minutes below 60; [Just now] is written exactly below
    one minute (a date in the future included). The popup of the map
    writes the same phrase from one hour on and [Less than an hour ago]
    exactly below one hour. A date that does not parse gives the fixed
    phrase of each. *)
Theorem elapsed_time_phrases (d : Z) :
  (forall n unit plural,
     formatTimeAgo (Some d) = Ago n unit plural ->
     1 <= n
     /\ n * unitMs unit <= d < (n + 1) * unitMs unit
     /\ plural = (1 <? n)
     /\ (unit = Hour -> n < 24)
     /\ (unit = Minute -> n < 60))
  /\ (formatTimeAgo (Some d) = JustNow <-> d < 60000)
  /\ formatTimeAgo (Some d) <> LessThanAnHourAgo
  /\ (formatDate (Some d) = LessThanAnHourAgo <-> d < 3600000)
  /\ (3600000 <= d -> formatDate (Some d) = formatTimeAgo (Some d))
  /\ formatDate None = LessThanAnHourAgo
  /\ formatTimeAgo None = JustNow.
Proof.
  unfold formatTimeAgo, formatDate. cbv zeta.
  change (1000 * 60 * 60) with 3600000. change (1000 * 60) with 60000.
  pose proof (Z.div_mod d 3600000 ltac:(lia)) as Hh.
  pose proof (Z.mod_pos_bound d 3600000 ltac:(lia)) as Hhr.
  pose proof (Z.div_mod (d / 3600000) 24 ltac:(lia)) as Hd.
  pose proof (Z.mod_pos_bound (d / 3600000) 24 ltac:(lia)) as Hdr.
  pose proof (Z.div_mod d 60000 ltac:(lia)) as Hm.
  pose proof (Z.mod_pos_bound d 60000 ltac:(lia)) as Hmr.
  set (hours := d / 3600000) in *. set (days := hours / 24) in *.
  set (minutes := d / 60000) in *.
  destruct (Z.ltb_spec 0 days) as [Hdays|Hdays];
    [|destruct (Z.ltb_spec 0 hours) as [Hhours|Hhours];
      [|destruct (Z.ltb_spec 0 minutes) as [Hmins|Hmins]]];
    phrase.
Qed.

(** *** Filters and pages *)

(** A load changes neither the page asked for nor the rest of the
    configuration, whatever the fetch does. *)
Lemma loadRequests_config (s : State) (o : FetchOutcome) :
  currentPage (loadRequests s o) = currentPage s
  /\ pageSize (loadRequests s o) = pageSize s
  /\ sortBy (loadRequests s o) = sortBy s
  /\ sortOrder (loadRequests s o) = sortOrder s
  /\ currentFilters (loadRequests s o) = currentFilters s.
Proof. by destruct o as [|[|] [data|]]. Qed.

Lemma addFilter_lookup (key : string) (chosen : option string)
  (filters : gmap string string) (k v : string) :
  addFilter key chosen filters !! k = Some v
  <-> (k = key /\ chosen = Some v /\ v <> "")
      \/ ((k <> key \/ chosen = None \/ chosen = Some "")
          /\ filters !! k = Some v).
Proof.
  unfold addFilter. destruct chosen as [[|c w]|]; cbn [truthyString].
  - split; [intros H; right; split; [by right; right|done]|].
    by intros [(_ & [= <-] & Hv)|[_ H]].
  - rewrite lookup_insert_Some. split.
    + intros [[<- <-]|[Hne H]]; [by left|].
      right. split; [left; congruence|done].
    + intros [(-> & [= <-] & _)|[[Hne|[H|H]] Hlook]]; try done;
        [by left|right; split; [congruence|done]].
  - split; [intros H; right; split; [by right; left|done]|].
    by intros [(_ & H & _)|[_ H]].
Qed.

Lemma readFilters_lookup (selects : Selects) (k v : string) :
  readFilters selects !! k = Some v
  <-> v <> ""
      /\ ((k = "request_type" /\ dashboardTypeFilter selects = Some v)
          \/ (k = "urgency_level" /\ dashboardUrgencyFilter selects = Some v)
          \/ (k = "status" /\ dashboardStatusFilter selects = Some v)).
Proof.
  unfold readFilters. rewrite !addFilter_lookup, lookup_empty.
  split.
  - intros [(-> & H & Hv)|[_ [(-> & H & Hv)|[_ [(-> & H & Hv)|[_ H]]]]]];
      try done; split; try done; [by right; right|by right; left|by left].
  - intros (Hv & [[-> H]|[[-> H]|[-> H]]]).
    + right. split; [by left|]. right. split; [by left|]. by left.
    + right. split; [by left|]. by left.
    + by left.
Qed.

Lemma step_steady (s : State) (e : Event) : steady s -> steady (step s e).
Proof.
  intros Hs. pose proof Hs as (Hpage & Hsize & Hby & Horder & Hfilters).
  destruct e as [o|o|o|o|selects o|selects o]; cbn [step]; unfold steady.
  - destruct (loadRequests_config s o) as (-> & -> & -> & -> & ->).
    exact Hs.
  - unfold refreshData.
    destruct (loadRequests_config (showMessage Refreshing "info" s) o)
      as (-> & -> & -> & -> & ->).
    exact Hs.
  - unfold previousPage. destruct (Z.ltb_spec 1 (currentPage s)) as [Hlt|Hle].
    + destruct (loadRequests_config (withCurrentPage s (currentPage s - 1)) o)
        as (-> & -> & -> & -> & ->).
      cbn [withCurrentPage currentPage pageSize sortBy sortOrder currentFilters].
      split; [lia|]. exact (proj2 Hs).
    + exact Hs.
  - unfold nextPage.
    destruct (Z.ltb_spec (currentPage s) (totalPages s)) as [Hlt|Hle].
    + destruct (loadRequests_config (withCurrentPage s (currentPage s + 1)) o)
        as (-> & -> & -> & -> & ->).
      cbn [withCurrentPage currentPage pageSize sortBy sortOrder currentFilters].
      split; [lia|]. exact (proj2 Hs).
    + exact Hs.
  - unfold applyFilters.
    destruct (loadRequests_config
                (showMessage FiltersApplied "info"
                   (withFilters s (readFilters selects))) o)
      as (-> & -> & -> & -> & ->).
    cbn [showMessage withPage withFilters currentPage pageSize sortBy
         sortOrder currentFilters].
    split; [lia|]. split; [done|]. split; [done|]. split; [done|].
    intros key value Hlook. apply readFilters_lookup in Hlook as [Hv Hk].
    split; [|done]. cbn [In].
    destruct Hk as [[-> _]|[[-> _]|[-> _]]]; [by left|right; by left|].
    right. right. by left.
  - unfold clearFilters. cbn [fst].
    destruct (loadRequests_config
                (showMessage FiltersCleared "info" (withFilters s ∅)) o)
      as (-> & -> & -> & -> & ->).
    cbn [showMessage withPage withFilters currentPage pageSize sortBy
         sortOrder currentFilters].
    split; [lia|]. split; [done|]. split; [done|]. split; [done|].
    intros key value Hlook. by rewrite lookup_empty in Hlook.
Qed.

(** X13: whatever the user does on the dashboard (loads, refreshes,
    page turns, applying and clearing filters, in any order and with
    any outcome of each fetch), the next listing request asks for a
    page of at least 1, for 10 records a page, sorted by [created_at]
    in descending order, and carries no filter other than
    [request_type], [urgency_level] and [status], none of them with an
    empty value. *)
Theorem dashboard_requests_stay_well_formed (p : Page) (events : list Event) :
  let params := listingParams (after p events) in
  1 <= p_page params
  /\ p_size params = 10
  /\ p_sort_by params = "created_at"
  /\ p_sort_order params = "desc"
  /\ forall key value,
       p_filters params !! key = Some value ->
       In key ["request_type"; "urgency_level"; "status"] /\ value <> "".
Proof.
  assert (steady (after p events)) as Hsteady.
  { unfold after.
    assert (steady (initial p)) as Hinit.
    { split; [cbn; lia|]. split; [done|]. split; [done|]. split; [done|].
      intros key value Hlook. cbn in Hlook. by rewrite lookup_empty in Hlook. }
    revert Hinit. generalize (initial p).
    induction events as [|e events IH]; intros s Hs; [done|].
    cbn [fold_left]. by apply IH, step_steady. }
  exact Hsteady.
Qed.

(** X14: applying the filters asks for page 1 with exactly the selects
    that exist and have a non-empty value, under the names
    [request_type], [urgency_level] and [status], also when the load it
    starts fails. Clearing asks for page 1 with no filter and empties
    every select that exists, so that applying the cleared selects
    sends no filter either. *)
Theorem dashboard_filters_follow_selects (selects : Selects) (s : State)
  (o : FetchOutcome) :
  let applied := listingParams (applyFilters selects s o) in
  let cleared := clearFilters selects s o in
  p_page applied = 1
  /\ (forall key value,
        p_filters applied !! key = Some value
        <-> value <> ""
            /\ ((key = "request_type"
                 /\ dashboardTypeFilter selects = Some value)
                \/ (key = "urgency_level"
                    /\ dashboardUrgencyFilter selects = Some value)
                \/ (key = "status"
                    /\ dashboardStatusFilter selects = Some value)))
  /\ p_page (listingParams (fst cleared)) = 1
  /\ p_filters (listingParams (fst cleared)) = ∅
  /\ readFilters (snd cleared) = ∅
  /\ p_size applied = pageSize s
  /\ p_sort_by applied = sortBy s
  /\ p_sort_order applied = sortOrder s.
Proof.
  intros applied cleared. subst applied cleared.
  unfold applyFilters, clearFilters, listingParams.
  cbn [fst snd p_page p_filters p_size p_sort_by p_sort_order].
  destruct (loadRequests_config
              (showMessage FiltersApplied "info"
                 (withFilters s (readFilters selects))) o)
    as (-> & -> & -> & -> & ->).
  destruct (loadRequests_config
              (showMessage FiltersCleared "info" (withFilters s ∅)) o)
    as (-> & _ & _ & _ & ->).
  cbn [showMessage withPage withFilters currentPage pageSize sortBy
       sortOrder currentFilters].
  split; [done|]. split; [apply readFilters_lookup|].
  split; [done|]. split; [done|]. split; [|done].
  by destruct selects as [[?|] [?|] [?|]].
Qed.

(** X15: after a load that succeeded the page indicator shows the
    page and the number of pages the dashboard holds, a response
    without [total_pages] (or with 0) counting as one page; a pagination
    button that is disabled has a handler that does nothing, and one
    that is enabled has a handler that asks for the neighbouring
    page. *)
Theorem pagination_buttons_match_handlers (s : State) (data : Listing) :
  let s' := loadRequests s (Response true (Some data)) in
  (forall shownPage shownPages,
     pageInfo (page s') = Some (shownPage, shownPages) ->
     shownPage = currentPage s' /\ shownPages = totalPages s')
  /\ totalPages s' = orDefault (total_pages data) 1
  /\ totalPages s' <> 0
  /\ (prevBtn (page s') = Some true -> forall o, previousPage s' o = s')
  /\ (prevBtn (page s') = Some false ->
      forall o, currentPage (previousPage s' o) = currentPage s' - 1)
  /\ (nextBtn (page s') = Some true -> forall o, nextPage s' o = s')
  /\ (nextBtn (page s') = Some false ->
      forall o, currentPage (nextPage s' o) = currentPage s' + 1).
Proof.
  intros s'.
  assert (pageInfo (page s')
          = write (pageInfo (page s)) (currentPage s', totalPages s'))
    as HpageInfo by reflexivity.
  assert (prevBtn (page s')
          = write (prevBtn (page s)) (currentPage s' <=? 1))
    as Hprev by reflexivity.
  assert (nextBtn (page s')
          = write (nextBtn (page s)) (totalPages s' <=? currentPage s'))
    as Hnext by reflexivity.
  assert (totalPages s' = orDefault (total_pages data) 1) as Htotal
    by reflexivity.
  rewrite HpageInfo, Hprev, Hnext. clear HpageInfo Hprev Hnext.
  split; [|split; [exact Htotal|split]].
  - intros a b. destruct (pageInfo (page s)); [|done].
    cbn [write]. by intros [= <- <-].
  - rewrite Htotal. unfold orDefault.
    by destruct (total_pages data) as [[|v|v]|].
  - generalize dependent s'. intros s' _.
    split; [|split; [|split]].
    + destruct (prevBtn (page s)); [|done]. cbn [write]. intros [= Hle] o.
      unfold previousPage. apply Z.leb_le in Hle.
      by destruct (Z.ltb_spec 1 (currentPage s')); [lia|].
    + destruct (prevBtn (page s)); [|done]. cbn [write]. intros [= Hle] o.
      unfold previousPage. apply Z.leb_gt in Hle.
      destruct (Z.ltb_spec 1 (currentPage s')); [|lia].
      by destruct (loadRequests_config
                     (withCurrentPage s' (currentPage s' - 1)) o) as (-> & _).
    + destruct (nextBtn (page s)); [|done]. cbn [write]. intros [= Hle] o.
      unfold nextPage. apply Z.leb_le in Hle.
      by destruct (Z.ltb_spec (currentPage s') (totalPages s')); [lia|].
    + destruct (nextBtn (page s)); [|done]. cbn [write]. intros [= Hle] o.
      unfold nextPage. apply Z.leb_gt in Hle.
      destruct (Z.ltb_spec (currentPage s') (totalPages s')); [|lia].
      by destruct (loadRequests_config
                     (withCurrentPage s' (currentPage s' + 1)) o) as (-> & _).
Qed.

(** X16: a page turn whose load fails is not rolled back. The
    dashboard keeps the requests, the number of pages, the page
    indicator and the state of both pagination buttons of the page it
    came from and shows the error state, but it now holds the next page
    number: a retry asks for that page, and when that was the last page
    the handler of the next-page button does nothing although the button
    was left as it was. *)
Theorem failed_page_turn_is_not_rolled_back (s : State) (o : FetchOutcome)
  (Hfail : o = NetworkError
           \/ (exists body, o = Response false body)
           \/ o = Response true None)
  (Hmore : currentPage s < totalPages s) :
  let s' := nextPage s o in
  currentPage s' = currentPage s + 1
  /\ p_page (listingParams s') = currentPage s + 1
  /\ requests s' = requests s
  /\ totalPages s' = totalPages s
  /\ pageInfo (page s') = pageInfo (page s)
  /\ prevBtn (page s') = prevBtn (page s)
  /\ nextBtn (page s') = nextBtn (page s)
  /\ requestsList (page s') = write (requestsList (page s)) ErrorState
  /\ message (page s') = Some (LoadFailed, "error")
  /\ (totalPages s <= currentPage s + 1 -> forall o', nextPage s' o' = s').
Proof.
  intros s'. subst s'. unfold nextPage at 1 2 3 4 5 6 7 8 9.
  destruct (Z.ltb_spec (currentPage s) (totalPages s)) as [_|Hle]; [|lia].
  assert (forall x, x = loadRequests (withCurrentPage s (currentPage s + 1)) o ->
          currentPage x = currentPage s + 1 /\ totalPages x = totalPages s)
    as Hx by (intros x ->; by destruct Hfail as [-> | [[body ->] | ->]]).
  split; [by destruct Hfail as [-> | [[body ->] | ->]]|].
  split; [by destruct Hfail as [-> | [[body ->] | ->]]|].
  split; [by destruct Hfail as [-> | [[body ->] | ->]]|].
  split; [by destruct Hfail as [-> | [[body ->] | ->]]|].
  split; [by destruct Hfail as [-> | [[body ->] | ->]]|].
  split; [by destruct Hfail as [-> | [[body ->] | ->]]|].
  split; [by destruct Hfail as [-> | [[body ->] | ->]]|].
  split; [by destruct Hfail as [-> | [[body ->] | ->]]|].
  split; [by destruct Hfail as [-> | [[body ->] | ->]]|].
  intros Hlast o'.
  destruct (Hx (nextPage s o)) as [Hpage Htotal].
  { unfold nextPage.
    by destruct (Z.ltb_spec (currentPage s) (totalPages s)); [|lia]. }
  unfold nextPage at 1. rewrite Hpage, Htotal.
  by destruct (Z.ltb_spec (currentPage s + 1) (totalPages s)); [lia|].
Qed.

Lemma failed_page_turn_is_not_rolled_back_witness :
  (NetworkError = NetworkError
   \/ (exists body, NetworkError = Response false body)
   \/ NetworkError = Response true None)
  /\ currentPage Samples.pagedDashboard < totalPages Samples.pagedDashboard
  /\ currentPage (nextPage Samples.pagedDashboard NetworkError) = 2
  /\ pageInfo (page (nextPage Samples.pagedDashboard NetworkError))
     = Some (1, 3).
Proof.
  assert (currentPage Samples.pagedDashboard
          < totalPages Samples.pagedDashboard) as Hmore
    by (vm_compute; reflexivity).
  split; [left; reflexivity|]. split; [exact Hmore|].
  destruct (failed_page_turn_is_not_rolled_back Samples.pagedDashboard
              NetworkError (or_introl eq_refl) Hmore)
    as (Hpage & _ & _ & _ & Hinfo & _).
  split.
  - rewrite Hpage. vm_compute. reflexivity.
  - rewrite Hinfo. vm_compute. reflexivity.
Defined.

(** *** Statistics *)

Lemma status_counts (rs : list Request) :
  (length (List.filter (hasStatus "pending") rs)
   + length (List.filter (hasStatus "in_progress") rs)
   + length (List.filter (hasStatus "completed") rs)
   <= length rs)%nat
  /\ ((length (List.filter (hasStatus "pending") rs)
       + length (List.filter (hasStatus "in_progress") rs)
       + length (List.filter (hasStatus "completed") rs)
       = length rs)%nat
      <-> Forall (fun r => In (status r) ["pending"; "in_progress"; "completed"])
            rs).
Proof.
  induction rs as [|r rs [IHle IHeq]].
  - cbn. split; [lia|]. split; [constructor|done].
  - cbn [List.filter].
    rewrite Forall_cons, <- IHeq. cbn [In].
    pose proof (String.eqb_spec (status r) "pending") as Hp.
    pose proof (String.eqb_spec (status r) "in_progress") as Hi.
    pose proof (String.eqb_spec (status r) "completed") as Hc.
    change (status r =? "pending")%string with (hasStatus "pending" r) in Hp.
    change (status r =? "in_progress")%string
      with (hasStatus "in_progress" r) in Hi.
    change (status r =? "completed")%string
      with (hasStatus "completed" r) in Hc.
    destruct (hasStatus "pending" r), (hasStatus "in_progress" r),
      (hasStatus "completed" r);
      inversion Hp; inversion Hi; inversion Hc; cbn [length];
      try congruence;
      (split; [lia|]; split;
       [intros Heq'; split;
        [first [left; congruence | right; left; congruence
               | right; right; left; congruence | lia]
        |lia]
       |intros [Hin Hlen];
        first [lia | destruct Hin as [H'|[H'|[H'|[]]]]; congruence]]).
Qed.

(** X17: the four statistics count the requests of the page that was
    loaded, not of the whole listing. The counts of pending, in-progress
    and completed requests add up to at most the number of requests on
    the page, and to exactly that number when and only when every
    request on the page has one of these three statuses, spelled in
    lower case; the urgent count is at most that number too. *)
Theorem status_counts_cover_the_page (s : State) (data : Listing)
  (pending inProgress completed urgent : nat)
  (Hpending :
     pendingCount (page (loadRequests s (Response true (Some data))))
     = Some pending)
  (Hprogress :
     progressCount (page (loadRequests s (Response true (Some data))))
     = Some inProgress)
  (Hcompleted :
     completedCount (page (loadRequests s (Response true (Some data))))
     = Some completed)
  (Hurgent :
     urgentCount (page (loadRequests s (Response true (Some data))))
     = Some urgent) :
  let shownRequests := default [] (Api.requests data) in
  requests (loadRequests s (Response true (Some data))) = shownRequests
  /\ (pending + inProgress + completed <= length shownRequests)%nat
  /\ ((pending + inProgress + completed = length shownRequests)%nat
      <-> Forall (fun r => In (status r) ["pending"; "in_progress"; "completed"])
            shownRequests)
  /\ (urgent <= length shownRequests)%nat.
Proof.
  intros shownRequests.
  assert (pendingCount (page (loadRequests s (Response true (Some data))))
          = write (pendingCount (page s))
              (length (List.filter (hasStatus "pending") shownRequests)))
    as Hp by reflexivity.
  assert (progressCount (page (loadRequests s (Response true (Some data))))
          = write (progressCount (page s))
              (length (List.filter (hasStatus "in_progress") shownRequests)))
    as Hi by reflexivity.
  assert (completedCount (page (loadRequests s (Response true (Some data))))
          = write (completedCount (page s))
              (length (List.filter (hasStatus "completed") shownRequests)))
    as Hc by reflexivity.
  assert (urgentCount (page (loadRequests s (Response true (Some data))))
          = write (urgentCount (page s))
              (length (List.filter isUrgent shownRequests)))
    as Hu by reflexivity.
  rewrite Hp in Hpending. rewrite Hi in Hprogress.
  rewrite Hc in Hcompleted. rewrite Hu in Hurgent.
  destruct (pendingCount (page s)); [|done].
  destruct (progressCount (page s)); [|done].
  destruct (completedCount (page s)); [|done].
  destruct (urgentCount (page s)); [|done].
  cbn [write] in *.
  injection Hpending as <-. injection Hprogress as <-.
  injection Hcompleted as <-. injection Hurgent as <-.
  destruct (status_counts shownRequests) as [Hle Heq].
  split; [done|]. split; [exact Hle|]. split; [exact Heq|].
  apply List.filter_length_le.
Qed.

Lemma status_counts_cover_the_page_witness :
  pendingCount (page Samples.loadedDashboard) = Some 2%nat
  /\ progressCount (page Samples.loadedDashboard) = Some 1%nat
  /\ completedCount (page Samples.loadedDashboard) = Some 1%nat
  /\ urgentCount (page Samples.loadedDashboard) = Some 2%nat
  /\ (2 + 1 + 1 <= length (default [] (Api.requests Samples.listing)))%nat.
Proof.
  assert (pendingCount (page Samples.loadedDashboard) = Some 2%nat) as Hp
    by (vm_compute; reflexivity).
  assert (progressCount (page Samples.loadedDashboard) = Some 1%nat) as Hi
    by (vm_compute; reflexivity).
  assert (completedCount (page Samples.loadedDashboard) = Some 1%nat) as Hc
    by (vm_compute; reflexivity).
  assert (urgentCount (page Samples.loadedDashboard) = Some 2%nat) as Hu
    by (vm_compute; reflexivity).
  split; [exact Hp|]. split; [exact Hi|]. split; [exact Hc|].
  split; [exact Hu|].
  exact (proj1 (proj2 (status_counts_cover_the_page
                         (initial Samples.dashboardPage) Samples.listing
                         2 1 1 2 Hp Hi Hc Hu))).
Defined.

End DashboardControlsProps.
